(** * Signaling adapters of y-webrtc: a shallow embedding

    The development follows the JavaScript sources:

    - [signaling-adapters/SignalingAdapter.js]           (base class),
    - [signaling-adapters/DefaultSignalingAdapter.js]    (raw socket),
    - [signaling-adapters/LaravelEchoAdapter.js]         (private channels),
    - [signaling-adapters/LaravelEchoPresenceAdapter.js] (presence channels),
    - [signaling-adapters/factory.js]                    ([createSignalingAdapter]).

    An adapter method is a computation over a world made of the adapter
    object ([this]) and of what the adapter does to its surroundings: the
    calls it makes on the Echo instance, on channels, on listeners and
    hooks, and the tasks it hands to [setTimeout].  A JavaScript exception
    aborts the method but keeps the mutations made so far, so a computation
    returns a completion together with the world it leaves behind. *)

From Stdlib Require Import ZArith.
From stdpp Require Import gmap strings list.

Local Open Scope string_scope.
Local Open Scope list_scope.

(** ** JavaScript values *)

(** Numbers: only equality and zero-ness are ever observed, so the finite
    doubles are represented by integers; [NaN] is kept apart because it is
    falsy and differs from itself under [===]. *)
Inductive JsNum :=
| NaN
| Num (z : Z).

Inductive JsClass :=
| PlainObject
| SignalingAdapterInstance.

#[local] Unset Elimination Schemes.
Inductive JsValue :=
| JsUndefined
| JsNull
| JsBoolean (b : bool)
| JsNumber (n : JsNum)
| JsString (s : string)
| JsFunction (f : nat)
| JsObject (cls : JsClass) (props : list (string * JsValue)).
#[local] Set Elimination Schemes.

Inductive JsThrown :=
| JsTypeError (message : string)
| JsError (message : string).

Inductive Completion (A : Type) :=
| Normal (a : A)
| Throw (e : JsThrown).
Arguments Normal {A} a.
Arguments Throw {A} e.

Definition returns_normally {A} (c : Completion A) : Prop :=
  match c with Normal _ => True | Throw _ => False end.

(** [typeof v] *)
Definition typeof (v : JsValue) : string :=
  match v with
  | JsUndefined => "undefined"
  | JsNull => "object"
  | JsBoolean _ => "boolean"
  | JsNumber _ => "number"
  | JsString _ => "string"
  | JsFunction _ => "function"
  | JsObject _ _ => "object"
  end.

(** ToBoolean: what [!v], [v || w] and [if (v)] look at. *)
Definition truthy (v : JsValue) : bool :=
  match v with
  | JsUndefined | JsNull => false
  | JsBoolean b => b
  | JsNumber NaN => false
  | JsNumber (Num z) => negb (z =? 0)%Z
  | JsString s => negb (String.eqb s "")
  | JsFunction _ | JsObject _ _ => true
  end.

(** [v || w] *)
Definition js_or (v w : JsValue) : JsValue := if truthy v then v else w.

(** [v instanceof SignalingAdapter] *)
Definition instanceof_SignalingAdapter (v : JsValue) : bool :=
  match v with
  | JsObject SignalingAdapterInstance _ => true
  | _ => false
  end.

Fixpoint own_property (k : string) (props : list (string * JsValue)) : JsValue :=
  match props with
  | [] => JsUndefined
  | (k', v) :: rest => if String.eqb k k' then v else own_property k rest
  end.

(** [v.k] for the property names the adapters read ([type], [echo],
    [callbacks], [data], [onHere], ...): none of them is defined on a
    primitive's prototype, and reading any property of [undefined] or
    [null] is a TypeError. *)
Definition get_prop (v : JsValue) (k : string) : Completion JsValue :=
  match v with
  | JsUndefined => Throw (JsTypeError ("Cannot read properties of undefined (reading '" +:+ k +:+ "')"))
  | JsNull => Throw (JsTypeError ("Cannot read properties of null (reading '" +:+ k +:+ "')"))
  | JsObject _ props => Normal (own_property k props)
  | _ => Normal JsUndefined
  end.

(** ** Computations that mutate a world and may throw *)

Definition M (S A : Type) : Type := S -> Completion A * S.

Definition ret {S A} (a : A) : M S A := fun s => (Normal a, s).

Definition bind {S A B} (m : M S A) (k : A -> M S B) : M S B :=
  fun s =>
    match m s with
    | (Normal a, s') => k a s'
    | (Throw e, s') => (Throw e, s')
    end.

Definition throw {S A} (e : JsThrown) : M S A := fun s => (Throw e, s).
Definition gets {S A} (f : S -> A) : M S A := fun s => (Normal (f s), s).
Definition modify {S} (f : S -> S) : M S unit := fun s => (Normal tt, f s).

Definition lift {S A} (c : Completion A) : M S A := fun s => (c, s).

Notation "'let*' x ':=' m 'in' k" := (bind m (fun x => k))
  (at level 10, x name, m at level 100, k at level 200).
Notation "m '>>' k" := (bind m (fun _ => k))
  (at level 90, right associativity).

(** [xs.forEach(f)]: the first exception ends the loop. *)
Fixpoint forEach {S A} (xs : list A) (f : A -> M S unit) : M S unit :=
  match xs with
  | [] => ret tt
  | x :: rest => f x >> forEach rest f
  end.

(** The completion and the final world of running [m] from [s]. *)
Definition completion_of {S A} (m : M S A) (s : S) : Completion A := fst (m s).
Definition exec {S A} (m : M S A) (s : S) : S := snd (m s).

(** ** [Map] with insertion order

    [channels] is iterated by [disconnect] ([forEach] visits the entries
    in insertion order), so it keeps its entries in a list. *)
Module JsMap.
Abbreviation t V := (list (string * V)) (only parsing).

Definition empty {V} : t V := [].

Fixpoint get {V} (k : string) (m : t V) : option V :=
  match m with
  | [] => None
  | (k', v) :: rest => if decide (k = k') then Some v else get k rest
  end.

Definition has {V} (k : string) (m : t V) : bool :=
  match get k m with Some _ => true | None => false end.

(** [m.set(k, v)]: an existing key keeps its place, a new one goes last. *)
Fixpoint set {V} (k : string) (v : V) (m : t V) : t V :=
  match m with
  | [] => [(k, v)]
  | (k', v') :: rest =>
      if decide (k = k') then (k, v) :: rest else (k', v') :: set k v rest
  end.

Definition delete {V} (k : string) (m : t V) : t V :=
  filter (fun e => e.1 <> k) m.

Definition keys {V} (m : t V) : list string := m.*1.
End JsMap.

(** ** What an adapter does to its surroundings *)

Definition Listener := nat.

(** A channel object handed out by the Echo instance. *)
Record Channel := {
  chan_id : nat;
  chan_name : string;
}.

(** Presence members, after the [PresenceChannelMember] typedef:
    [id] is a number or a string. *)
Inductive MemberId :=
| IdNumber (n : JsNum)
| IdString (s : string).

Record PresenceChannelMember := {
  id : MemberId;
  info : JsValue;
}.

Inductive ChannelHandler :=
| H_here | H_joining | H_leaving | H_subscribed | H_error
| H_listen (event : string)
| H_listenForWhisper (event : string).

Inductive Effect :=
| EchoPrivate (name : string) (ch : Channel)
| EchoJoin (name : string) (ch : Channel)
| EchoLeave (name : string)
| ChannelOn (ch : Channel) (h : ChannelHandler)
| ChannelWhisper (ch : Channel) (event : string) (data : JsValue)
| ConsoleError (message : string) (error : JsValue)
| ListenerCall (f : Listener) (name : string) (args : list JsValue)
| HookHere (f : nat) (members : list PresenceChannelMember)
| HookJoining (f : nat) (member : PresenceChannelMember)
| HookLeaving (f : nat) (member : PresenceChannelMember)
| HookError (f : nat) (error : JsValue) (channelName : string)
| HookSubscribed (f : nat) (channelName : string).

(** A task handed to [setTimeout]: the closure [() => this.emit(name, args)]. *)
Inductive Task :=
| EmitTask (name : string) (args : list JsValue).

Record World (T : Type) := {
  this : T;
  effects : list Effect;
  timers : list Task;
  next_channel : nat;
}.
Arguments this {T} _.
Arguments effects {T} _.
Arguments timers {T} _.
Arguments next_channel {T} _.

Section Surroundings.
Context {T : Type}.

Definition set_this (f : T -> T) (w : World T) : World T :=
  {| this := f (this w); effects := effects w;
     timers := timers w; next_channel := next_channel w |}.

Definition add_effects (es : list Effect) (w : World T) : World T :=
  {| this := this w; effects := effects w ++ es;
     timers := timers w; next_channel := next_channel w |}.

(** One observable call made by the adapter. *)
Definition perform (e : Effect) : M (World T) unit :=
  modify (add_effects [e]).

(** [setTimeout(task, 0)] *)
Definition setTimeout (task : Task) : M (World T) unit :=
  modify (fun w =>
    {| this := this w; effects := effects w;
       timers := timers w ++ [task]; next_channel := next_channel w |}).

Definition new_channel (name : string) : M (World T) Channel :=
  fun w =>
    (Normal {| chan_id := next_channel w; chan_name := name |},
     {| this := this w; effects := effects w;
        timers := timers w; next_channel := S (next_channel w) |}).

(** A method call on [this.echo]: a falsy receiver has no such method. *)
Definition echo_method (echo : JsValue) (method : string) : M (World T) unit :=
  if truthy echo then ret tt
  else throw (JsTypeError ("this.echo." +:+ method +:+ " is not a function")).

(** [channel.whisper(event, data)] *)
Definition whisper (channel : Channel) (event : string) (data : JsValue)
  : M (World T) unit :=
  perform (ChannelWhisper channel event data).

(** A hook of the presence adapter: [if (hook) hook(...)]. *)
Definition call_hook (hook : JsValue) (call : nat -> Effect) : M (World T) unit :=
  if truthy hook then
    match hook with
    | JsFunction f => perform (call f)
    | _ => throw (JsTypeError "this.callbacks hook is not a function")
    end
  else ret tt.
End Surroundings.

(** The payloads whispered on [ch], oldest first. *)
Definition whispered_on (ch : Channel) (es : list Effect) : list JsValue :=
  omap (fun e =>
          match e with
          | ChannelWhisper ch' "signaling" d =>
              if decide (chan_id ch' = chan_id ch /\ chan_name ch' = chan_name ch)
              then Some d else None
          | _ => None
          end) es.

(** ** lib0's [Observable], as far as the adapters use it

    [on] adds a listener to the set kept for an event name, [emit] calls
    the listeners registered for the name at that moment, [destroy] drops
    them all. *)
Module Observable.
Definition on (name : string) (f : Listener)
    (obs : gmap string (list Listener)) : gmap string (list Listener) :=
  let fs := default [] (obs !! name) in
  <[name := if decide (f ∈ fs) then fs else fs ++ [f]]> obs.

Definition listeners (name : string) (obs : gmap string (list Listener))
  : list Listener :=
  default [] (obs !! name).

Definition emit {T} (obs : T -> gmap string (list Listener))
    (name : string) (args : list JsValue) : M (World T) unit :=
  let* fs := gets (fun w => listeners name (obs (this w))) in
  forEach fs (fun f => perform (ListenerCall f name args)).
End Observable.

(** ** [DefaultSignalingAdapter]: the constructor *)
Module DefaultSignalingAdapter.
Record t := {
  _observers : gmap string (list Listener);
  connected : bool;
  ws : option nat;
  url : string;
}.

Definition constructor : t :=
  {| _observers := ∅; connected := false; ws := None; url := "" |}.
End DefaultSignalingAdapter.

(** ** [LaravelEchoAdapter] *)
Module LaravelEchoAdapter.
Record t := {
  _observers : gmap string (list Listener);
  connected : bool;
  echo : JsValue;
  channels : JsMap.t Channel;
  readyChannels : gset string;
  messageQueue : gmap string (list JsValue);
  shouldConnect : bool;
}.

Definition constructor (echoInstance : JsValue) : t :=
  {| _observers := ∅;
     connected := false;
     echo := echoInstance;
     channels := JsMap.empty;
     readyChannels := ∅;
     messageQueue := ∅;
     shouldConnect := false |}.

Definition with_observers (f : gmap string (list Listener) -> gmap string (list Listener)) (a : t) : t :=
  {| _observers := f (_observers a); connected := connected a; echo := echo a;
     channels := channels a; readyChannels := readyChannels a;
     messageQueue := messageQueue a; shouldConnect := shouldConnect a |}.
Definition with_connected (b : bool) (a : t) : t :=
  {| _observers := _observers a; connected := b; echo := echo a;
     channels := channels a; readyChannels := readyChannels a;
     messageQueue := messageQueue a; shouldConnect := shouldConnect a |}.
Definition with_channels (f : JsMap.t Channel -> JsMap.t Channel) (a : t) : t :=
  {| _observers := _observers a; connected := connected a; echo := echo a;
     channels := f (channels a); readyChannels := readyChannels a;
     messageQueue := messageQueue a; shouldConnect := shouldConnect a |}.
Definition with_readyChannels (f : gset string -> gset string) (a : t) : t :=
  {| _observers := _observers a; connected := connected a; echo := echo a;
     channels := channels a; readyChannels := f (readyChannels a);
     messageQueue := messageQueue a; shouldConnect := shouldConnect a |}.
Definition with_messageQueue
    (f : gmap string (list JsValue) -> gmap string (list JsValue)) (a : t) : t :=
  {| _observers := _observers a; connected := connected a; echo := echo a;
     channels := channels a; readyChannels := readyChannels a;
     messageQueue := f (messageQueue a); shouldConnect := shouldConnect a |}.
Definition with_shouldConnect (b : bool) (a : t) : t :=
  {| _observers := _observers a; connected := connected a; echo := echo a;
     channels := channels a; readyChannels := readyChannels a;
     messageQueue := messageQueue a; shouldConnect := b |}.

Abbreviation W := (World t) (only parsing).

Definition emit (name : string) (args : list JsValue) : M W unit :=
  Observable.emit _observers name args.

Definition on (name : string) (f : Listener) : M W unit :=
  modify (set_this (with_observers (Observable.on name f))).

Definition connect (url : JsValue) : M W unit :=
  modify (set_this (with_shouldConnect true)) >>
  modify (set_this (with_connected true)) >>
  setTimeout (EmitTask "connect" []).

Definition _getChannelName (topic : string) : string := "y-webrtc." +:+ topic.

Definition echo_leave (name : string) : M W unit :=
  let* e := gets (fun w => echo (this w)) in
  echo_method e "leave" >>
  perform (EchoLeave name).

Definition echo_private (name : string) : M W Channel :=
  let* e := gets (fun w => echo (this w)) in
  echo_method e "private" >>
  let* channel := new_channel name in
  perform (EchoPrivate name channel) >>
  ret channel.

Definition disconnect : M W unit :=
  modify (set_this (with_shouldConnect false)) >>
  modify (set_this (with_connected false)) >>
  let* chs := gets (fun w => channels (this w)) in
  forEach chs (fun '(topic, channel) => echo_leave (_getChannelName topic)) >>
  modify (set_this (with_channels (fun _ => JsMap.empty))) >>
  modify (set_this (with_readyChannels (fun _ => ∅))) >>
  modify (set_this (with_messageQueue (fun _ => ∅))) >>
  emit "disconnect" [].

(** The four closures that [subscribe] registers on a channel. *)

Definition subscribed_handler (topic : string) (channel : Channel) : M W unit :=
  modify (set_this (with_readyChannels (fun r => {[topic]} ∪ r))) >>
  let* queuedMessages :=
    gets (fun w => default [] (messageQueue (this w) !! topic)) in
  forEach queuedMessages (fun data => whisper channel "signaling" data) >>
  modify (set_this (with_messageQueue (delete topic))).

Definition error_handler (channelName : string) (error : JsValue) : M W unit :=
  perform (ConsoleError
             ("LaravelEchoAdapter: Error subscribing to " +:+ channelName +:+ ":")
             error).

Definition message (topic : string) (data : JsValue) : JsValue :=
  JsObject PlainObject [("topic", JsString topic); ("data", data)].

Definition listen_handler (topic : string) (event : JsValue) : M W unit :=
  let* data := lift (get_prop event "data") in
  emit "message" [message topic data].

Definition listenForWhisper_handler (topic : string) (event : JsValue) : M W unit :=
  emit "message" [message topic event].

Definition subscribe (topics : list string) : M W unit :=
  let* sc := gets (fun w => shouldConnect (this w)) in
  let* e := gets (fun w => echo (this w)) in
  if negb sc || negb (truthy e) then ret tt
  else
    forEach topics (fun topic =>
      let* bound := gets (fun w => JsMap.has topic (channels (this w))) in
      if bound then ret tt
      else
        let channelName := _getChannelName topic in
        let* channel := echo_private channelName in
        perform (ChannelOn channel H_subscribed) >>
        perform (ChannelOn channel H_error) >>
        perform (ChannelOn channel (H_listen ".signaling")) >>
        perform (ChannelOn channel (H_listenForWhisper "signaling")) >>
        modify (set_this (with_channels (JsMap.set topic channel)))).

Definition unsubscribe (topics : list string) : M W unit :=
  forEach topics (fun topic =>
    let* channel := gets (fun w => JsMap.get topic (channels (this w))) in
    match channel with
    | Some _ =>
        echo_leave (_getChannelName topic) >>
        modify (set_this (with_channels (JsMap.delete topic))) >>
        modify (set_this (with_readyChannels (fun r => r ∖ {[topic]}))) >>
        modify (set_this (with_messageQueue (delete topic)))
    | None => ret tt
    end).

Definition publish (topic : string) (data : JsValue) : M W unit :=
  let* channel := gets (fun w => JsMap.get topic (channels (this w))) in
  match channel with
  | None => ret tt
  | Some channel =>
      let* ready := gets (fun w => bool_decide (topic ∈ readyChannels (this w))) in
      if ready then whisper channel "signaling" data
      else
        let* queued := gets (fun w => bool_decide (is_Some (messageQueue (this w) !! topic))) in
        (if queued then ret tt
         else modify (set_this (with_messageQueue (<[topic := []]>)))) >>
        let* queue := gets (fun w => messageQueue (this w) !! topic) in
        match queue with
        | Some q => modify (set_this (with_messageQueue (<[topic := q ++ [data]]>)))
        | None => throw (JsTypeError "Cannot read properties of undefined (reading 'push')")
        end
  end.

Definition destroy : M W unit :=
  disconnect >>
  modify (set_this (with_observers (fun _ => ∅))).

(** The next task of the timer queue runs, once. *)
Definition run_timer : M W unit :=
  let* ts := gets timers in
  match ts with
  | [] => ret tt
  | EmitTask name args :: rest =>
      modify (fun w => {| this := this w; effects := effects w;
                          timers := rest; next_channel := next_channel w |}) >>
      emit name args
  end.

(** The event loop takes [n] turns on the timer queue. *)
Fixpoint run_timers (n : nat) : M W unit :=
  match n with
  | 0 => ret tt
  | S n => run_timer >> run_timers n
  end.

(** What can happen to an adapter: a call by its owner, a callback by the
    transport on the handlers of a channel, or a timer. *)
Inductive Action :=
| Call_on (name : string) (f : Listener)
| Call_connect (url : JsValue)
| Call_disconnect
| Call_subscribe (topics : list string)
| Call_unsubscribe (topics : list string)
| Call_publish (topic : string) (data : JsValue)
| Call_destroy
| Transport_subscribed (topic : string) (channel : Channel)
| Transport_error (topic : string) (error : JsValue)
| Transport_listen (topic : string) (event : JsValue)
| Transport_whisper (topic : string) (event : JsValue)
| Timer.

Definition run (a : Action) : M W unit :=
  match a with
  | Call_on name f => on name f
  | Call_connect url => connect url
  | Call_disconnect => disconnect
  | Call_subscribe topics => subscribe topics
  | Call_unsubscribe topics => unsubscribe topics
  | Call_publish topic data => publish topic data
  | Call_destroy => destroy
  | Transport_subscribed topic channel => subscribed_handler topic channel
  | Transport_error topic error => error_handler (_getChannelName topic) error
  | Transport_listen topic event => listen_handler topic event
  | Transport_whisper topic event => listenForWhisper_handler topic event
  | Timer => run_timer
  end.

(** The Echo instance calls the handlers of a channel only while it
    holds the channel, between the [echo.private] of its topic and the
    [echo.leave]: a callback needs its topic to be bound. *)
Definition enabled (a : Action) (w : W) : Prop :=
  match a with
  | Transport_subscribed topic channel =>
      JsMap.get topic (channels (this w)) = Some channel
  | Transport_error topic _
  | Transport_listen topic _
  | Transport_whisper topic _ => JsMap.has topic (channels (this w)) = true
  | _ => True
  end.

Definition initial (echoInstance : JsValue) : W :=
  {| this := constructor echoInstance; effects := []; timers := []; next_channel := 0 |}.

Inductive reachable : W -> Prop :=
| reachable_initial echoInstance : reachable (initial echoInstance)
| reachable_step w a : reachable w -> enabled a w -> reachable (exec (run a) w).
End LaravelEchoAdapter.

(** ** [LaravelEchoPresenceAdapter] *)

(** [a === b] on member ids. *)
Definition num_strict_equals (a b : JsNum) : bool :=
  match a, b with
  | Num x, Num y => (x =? y)%Z
  | _, _ => false
  end.

Definition id_strict_equals (a b : MemberId) : bool :=
  match a, b with
  | IdNumber x, IdNumber y => num_strict_equals x y
  | IdString s, IdString t => String.eqb s t
  | _, _ => false
  end.

(** Equality of member ids is decidable. *)
#[global] Instance JsNum_eq_dec : EqDecision JsNum.
Proof. solve_decision. Defined.

#[global] Instance MemberId_eq_dec : EqDecision MemberId.
Proof. solve_decision. Defined.

Module PresenceCallbacks.
Record t := {
  onHere : JsValue;
  onJoining : JsValue;
  onLeaving : JsValue;
  onError : JsValue;
  onSubscribed : JsValue;
}.

(** A hook as the typedef has it: not wired, or a function. *)
Definition hook_typed (v : JsValue) : Prop :=
  match v with
  | JsNull | JsFunction _ => True
  | _ => False
  end.

Definition typed (c : t) : Prop :=
  hook_typed (onHere c) /\ hook_typed (onJoining c) /\ hook_typed (onLeaving c) /\
  hook_typed (onError c) /\ hook_typed (onSubscribed c).
End PresenceCallbacks.

Module LaravelEchoPresenceAdapter.
Record t := {
  _observers : gmap string (list Listener);
  connected : bool;
  echo : JsValue;
  channels : JsMap.t Channel;
  readyChannels : gset string;
  messageQueue : gmap string (list JsValue);
  shouldConnect : bool;
  presenceMembers : gmap string (list PresenceChannelMember);
  callbacks : PresenceCallbacks.t;
}.

(** [callbacks.k || null] *)
Definition read_hook (callbacks : JsValue) (k : string) : Completion JsValue :=
  match get_prop callbacks k with
  | Normal v => Normal (js_or v JsNull)
  | Throw e => Throw e
  end.

(** [constructor (echoInstance, callbacks = {})]: the default replaces
    [undefined] only. *)
Definition constructor (echoInstance : JsValue) (callbacks : JsValue) : Completion t :=
  let callbacks :=
    match callbacks with
    | JsUndefined => JsObject PlainObject []
    | _ => callbacks
    end in
  match read_hook callbacks "onHere" with Throw e => Throw e | Normal here =>
  match read_hook callbacks "onJoining" with Throw e => Throw e | Normal joining =>
  match read_hook callbacks "onLeaving" with Throw e => Throw e | Normal leaving =>
  match read_hook callbacks "onError" with Throw e => Throw e | Normal error =>
  match read_hook callbacks "onSubscribed" with Throw e => Throw e | Normal subscribed =>
  Normal
    {| _observers := ∅;
       connected := false;
       echo := echoInstance;
       channels := JsMap.empty;
       readyChannels := ∅;
       messageQueue := ∅;
       shouldConnect := false;
       presenceMembers := ∅;
       callbacks :=
         {| PresenceCallbacks.onHere := here;
            PresenceCallbacks.onJoining := joining;
            PresenceCallbacks.onLeaving := leaving;
            PresenceCallbacks.onError := error;
            PresenceCallbacks.onSubscribed := subscribed |} |}
  end end end end end.

Definition with_observers (f : gmap string (list Listener) -> gmap string (list Listener)) (a : t) : t :=
  {| _observers := f (_observers a); connected := connected a; echo := echo a;
     channels := channels a; readyChannels := readyChannels a;
     messageQueue := messageQueue a; shouldConnect := shouldConnect a;
     presenceMembers := presenceMembers a; callbacks := callbacks a |}.
Definition with_connected (b : bool) (a : t) : t :=
  {| _observers := _observers a; connected := b; echo := echo a;
     channels := channels a; readyChannels := readyChannels a;
     messageQueue := messageQueue a; shouldConnect := shouldConnect a;
     presenceMembers := presenceMembers a; callbacks := callbacks a |}.
Definition with_channels (f : JsMap.t Channel -> JsMap.t Channel) (a : t) : t :=
  {| _observers := _observers a; connected := connected a; echo := echo a;
     channels := f (channels a); readyChannels := readyChannels a;
     messageQueue := messageQueue a; shouldConnect := shouldConnect a;
     presenceMembers := presenceMembers a; callbacks := callbacks a |}.
Definition with_readyChannels (f : gset string -> gset string) (a : t) : t :=
  {| _observers := _observers a; connected := connected a; echo := echo a;
     channels := channels a; readyChannels := f (readyChannels a);
     messageQueue := messageQueue a; shouldConnect := shouldConnect a;
     presenceMembers := presenceMembers a; callbacks := callbacks a |}.
Definition with_messageQueue
    (f : gmap string (list JsValue) -> gmap string (list JsValue)) (a : t) : t :=
  {| _observers := _observers a; connected := connected a; echo := echo a;
     channels := channels a; readyChannels := readyChannels a;
     messageQueue := f (messageQueue a); shouldConnect := shouldConnect a;
     presenceMembers := presenceMembers a; callbacks := callbacks a |}.
Definition with_shouldConnect (b : bool) (a : t) : t :=
  {| _observers := _observers a; connected := connected a; echo := echo a;
     channels := channels a; readyChannels := readyChannels a;
     messageQueue := messageQueue a; shouldConnect := b;
     presenceMembers := presenceMembers a; callbacks := callbacks a |}.
Definition with_presenceMembers
    (f : gmap string (list PresenceChannelMember) -> gmap string (list PresenceChannelMember))
    (a : t) : t :=
  {| _observers := _observers a; connected := connected a; echo := echo a;
     channels := channels a; readyChannels := readyChannels a;
     messageQueue := messageQueue a; shouldConnect := shouldConnect a;
     presenceMembers := f (presenceMembers a); callbacks := callbacks a |}.
Definition with_callbacks (f : PresenceCallbacks.t -> PresenceCallbacks.t) (a : t) : t :=
  {| _observers := _observers a; connected := connected a; echo := echo a;
     channels := channels a; readyChannels := readyChannels a;
     messageQueue := messageQueue a; shouldConnect := shouldConnect a;
     presenceMembers := presenceMembers a; callbacks := f (callbacks a) |}.

Abbreviation W := (World t) (only parsing).

Definition emit (name : string) (args : list JsValue) : M W unit :=
  Observable.emit _observers name args.

Definition on (name : string) (f : Listener) : M W unit :=
  modify (set_this (with_observers (Observable.on name f))).

(** The fluent setters; each returns [this]. *)
Definition onHere (callback : JsValue) : M W unit :=
  modify (set_this (with_callbacks (fun c =>
    {| PresenceCallbacks.onHere := callback;
       PresenceCallbacks.onJoining := PresenceCallbacks.onJoining c;
       PresenceCallbacks.onLeaving := PresenceCallbacks.onLeaving c;
       PresenceCallbacks.onError := PresenceCallbacks.onError c;
       PresenceCallbacks.onSubscribed := PresenceCallbacks.onSubscribed c |}))).
Definition onJoining (callback : JsValue) : M W unit :=
  modify (set_this (with_callbacks (fun c =>
    {| PresenceCallbacks.onHere := PresenceCallbacks.onHere c;
       PresenceCallbacks.onJoining := callback;
       PresenceCallbacks.onLeaving := PresenceCallbacks.onLeaving c;
       PresenceCallbacks.onError := PresenceCallbacks.onError c;
       PresenceCallbacks.onSubscribed := PresenceCallbacks.onSubscribed c |}))).
Definition onLeaving (callback : JsValue) : M W unit :=
  modify (set_this (with_callbacks (fun c =>
    {| PresenceCallbacks.onHere := PresenceCallbacks.onHere c;
       PresenceCallbacks.onJoining := PresenceCallbacks.onJoining c;
       PresenceCallbacks.onLeaving := callback;
       PresenceCallbacks.onError := PresenceCallbacks.onError c;
       PresenceCallbacks.onSubscribed := PresenceCallbacks.onSubscribed c |}))).
Definition onError (callback : JsValue) : M W unit :=
  modify (set_this (with_callbacks (fun c =>
    {| PresenceCallbacks.onHere := PresenceCallbacks.onHere c;
       PresenceCallbacks.onJoining := PresenceCallbacks.onJoining c;
       PresenceCallbacks.onLeaving := PresenceCallbacks.onLeaving c;
       PresenceCallbacks.onError := callback;
       PresenceCallbacks.onSubscribed := PresenceCallbacks.onSubscribed c |}))).
Definition onSubscribed (callback : JsValue) : M W unit :=
  modify (set_this (with_callbacks (fun c =>
    {| PresenceCallbacks.onHere := PresenceCallbacks.onHere c;
       PresenceCallbacks.onJoining := PresenceCallbacks.onJoining c;
       PresenceCallbacks.onLeaving := PresenceCallbacks.onLeaving c;
       PresenceCallbacks.onError := PresenceCallbacks.onError c;
       PresenceCallbacks.onSubscribed := callback |}))).

Definition getPresenceMembers (a : t) (topic : string) : list PresenceChannelMember :=
  match presenceMembers a !! topic with
  | Some members => members
  | None => []
  end.

Definition connect (url : JsValue) : M W unit :=
  modify (set_this (with_shouldConnect true)) >>
  modify (set_this (with_connected true)) >>
  setTimeout (EmitTask "connect" []).

Definition _getChannelName (topic : string) : string := "y-webrtc." +:+ topic.

Definition echo_leave (name : string) : M W unit :=
  let* e := gets (fun w => echo (this w)) in
  echo_method e "leave" >>
  perform (EchoLeave name).

Definition echo_join (name : string) : M W Channel :=
  let* e := gets (fun w => echo (this w)) in
  echo_method e "join" >>
  let* channel := new_channel name in
  perform (EchoJoin name channel) >>
  ret channel.

Definition disconnect : M W unit :=
  modify (set_this (with_shouldConnect false)) >>
  modify (set_this (with_connected false)) >>
  let* chs := gets (fun w => channels (this w)) in
  forEach chs (fun '(topic, channel) => echo_leave (_getChannelName topic)) >>
  modify (set_this (with_channels (fun _ => JsMap.empty))) >>
  modify (set_this (with_readyChannels (fun _ => ∅))) >>
  modify (set_this (with_messageQueue (fun _ => ∅))) >>
  modify (set_this (with_presenceMembers (fun _ => ∅))) >>
  emit "disconnect" [].

(** The seven closures that [subscribe] registers on a channel.  The
    rosters are kept by value: [joining] pushes onto the array it finds,
    which is the array a [here] callback handed over or one made here,
    and no other topic holds it unless the Echo instance gave the same
    array to two [here] callbacks. *)

Definition here_handler (topic : string) (members : list PresenceChannelMember)
  : M W unit :=
  modify (set_this (with_presenceMembers (<[topic := members]>))) >>
  let* hook := gets (fun w => PresenceCallbacks.onHere (callbacks (this w))) in
  call_hook hook (fun f => HookHere f members).

Definition joining_handler (topic : string) (member : PresenceChannelMember)
  : M W unit :=
  let* members := gets (fun w => default [] (presenceMembers (this w) !! topic)) in
  let members := members ++ [member] in
  modify (set_this (with_presenceMembers (<[topic := members]>))) >>
  let* hook := gets (fun w => PresenceCallbacks.onJoining (callbacks (this w))) in
  call_hook hook (fun f => HookJoining f member).

Definition leaving_handler (topic : string) (member : PresenceChannelMember)
  : M W unit :=
  let* members := gets (fun w => default [] (presenceMembers (this w) !! topic)) in
  let filtered :=
    List.filter (fun m => negb (id_strict_equals (id m) (id member))) members in
  modify (set_this (with_presenceMembers (<[topic := filtered]>))) >>
  let* hook := gets (fun w => PresenceCallbacks.onLeaving (callbacks (this w))) in
  call_hook hook (fun f => HookLeaving f member).

Definition subscribed_handler (topic : string) (channel : Channel) : M W unit :=
  modify (set_this (with_readyChannels (fun r => {[topic]} ∪ r))) >>
  let* hook := gets (fun w => PresenceCallbacks.onSubscribed (callbacks (this w))) in
  call_hook hook (fun f => HookSubscribed f (_getChannelName topic)) >>
  let* queuedMessages :=
    gets (fun w => default [] (messageQueue (this w) !! topic)) in
  forEach queuedMessages (fun data => whisper channel "signaling" data) >>
  modify (set_this (with_messageQueue (delete topic))).

Definition error_handler (channelName : string) (error : JsValue) : M W unit :=
  perform (ConsoleError
             ("LaravelEchoPresenceAdapter: Error subscribing to " +:+ channelName +:+ ":")
             error) >>
  let* hook := gets (fun w => PresenceCallbacks.onError (callbacks (this w))) in
  call_hook hook (fun f => HookError f error channelName).

Definition message (topic : string) (data : JsValue) : JsValue :=
  JsObject PlainObject [("topic", JsString topic); ("data", data)].

Definition listen_handler (topic : string) (event : JsValue) : M W unit :=
  let* data := lift (get_prop event "data") in
  emit "message" [message topic data].

Definition listenForWhisper_handler (topic : string) (event : JsValue) : M W unit :=
  emit "message" [message topic event].

Definition subscribe (topics : list string) : M W unit :=
  let* sc := gets (fun w => shouldConnect (this w)) in
  let* e := gets (fun w => echo (this w)) in
  if negb sc || negb (truthy e) then ret tt
  else
    forEach topics (fun topic =>
      let* bound := gets (fun w => JsMap.has topic (channels (this w))) in
      if bound then ret tt
      else
        let channelName := _getChannelName topic in
        let* channel := echo_join channelName in
        perform (ChannelOn channel H_here) >>
        perform (ChannelOn channel H_joining) >>
        perform (ChannelOn channel H_leaving) >>
        perform (ChannelOn channel H_subscribed) >>
        perform (ChannelOn channel H_error) >>
        perform (ChannelOn channel (H_listen ".signaling")) >>
        perform (ChannelOn channel (H_listenForWhisper "signaling")) >>
        modify (set_this (with_channels (JsMap.set topic channel)))).

Definition unsubscribe (topics : list string) : M W unit :=
  forEach topics (fun topic =>
    let* channel := gets (fun w => JsMap.get topic (channels (this w))) in
    match channel with
    | Some _ =>
        echo_leave (_getChannelName topic) >>
        modify (set_this (with_channels (JsMap.delete topic))) >>
        modify (set_this (with_readyChannels (fun r => r ∖ {[topic]}))) >>
        modify (set_this (with_messageQueue (delete topic))) >>
        modify (set_this (with_presenceMembers (delete topic)))
    | None => ret tt
    end).

Definition publish (topic : string) (data : JsValue) : M W unit :=
  let* channel := gets (fun w => JsMap.get topic (channels (this w))) in
  match channel with
  | None => ret tt
  | Some channel =>
      let* ready := gets (fun w => bool_decide (topic ∈ readyChannels (this w))) in
      if ready then whisper channel "signaling" data
      else
        let* queued := gets (fun w => bool_decide (is_Some (messageQueue (this w) !! topic))) in
        (if queued then ret tt
         else modify (set_this (with_messageQueue (<[topic := []]>)))) >>
        let* queue := gets (fun w => messageQueue (this w) !! topic) in
        match queue with
        | Some q => modify (set_this (with_messageQueue (<[topic := q ++ [data]]>)))
        | None => throw (JsTypeError "Cannot read properties of undefined (reading 'push')")
        end
  end.

Definition destroy : M W unit :=
  disconnect >>
  modify (set_this (with_observers (fun _ => ∅))).

Definition run_timer : M W unit :=
  let* ts := gets timers in
  match ts with
  | [] => ret tt
  | EmitTask name args :: rest =>
      modify (fun w => {| this := this w; effects := effects w;
                          timers := rest; next_channel := next_channel w |}) >>
      emit name args
  end.

(** The event loop takes [n] turns on the timer queue. *)
Fixpoint run_timers (n : nat) : M W unit :=
  match n with
  | 0 => ret tt
  | S n => run_timer >> run_timers n
  end.

Inductive Action :=
| Call_on (name : string) (f : Listener)
| Call_onHere (callback : JsValue)
| Call_onJoining (callback : JsValue)
| Call_onLeaving (callback : JsValue)
| Call_onError (callback : JsValue)
| Call_onSubscribed (callback : JsValue)
| Call_connect (url : JsValue)
| Call_disconnect
| Call_subscribe (topics : list string)
| Call_unsubscribe (topics : list string)
| Call_publish (topic : string) (data : JsValue)
| Call_destroy
| Transport_here (topic : string) (members : list PresenceChannelMember)
| Transport_joining (topic : string) (member : PresenceChannelMember)
| Transport_leaving (topic : string) (member : PresenceChannelMember)
| Transport_subscribed (topic : string) (channel : Channel)
| Transport_error (topic : string) (error : JsValue)
| Transport_listen (topic : string) (event : JsValue)
| Transport_whisper (topic : string) (event : JsValue)
| Timer.

Definition run (a : Action) : M W unit :=
  match a with
  | Call_on name f => on name f
  | Call_onHere callback => onHere callback
  | Call_onJoining callback => onJoining callback
  | Call_onLeaving callback => onLeaving callback
  | Call_onError callback => onError callback
  | Call_onSubscribed callback => onSubscribed callback
  | Call_connect url => connect url
  | Call_disconnect => disconnect
  | Call_subscribe topics => subscribe topics
  | Call_unsubscribe topics => unsubscribe topics
  | Call_publish topic data => publish topic data
  | Call_destroy => destroy
  | Transport_here topic members => here_handler topic members
  | Transport_joining topic member => joining_handler topic member
  | Transport_leaving topic member => leaving_handler topic member
  | Transport_subscribed topic channel => subscribed_handler topic channel
  | Transport_error topic error => error_handler (_getChannelName topic) error
  | Transport_listen topic event => listen_handler topic event
  | Transport_whisper topic event => listenForWhisper_handler topic event
  | Timer => run_timer
  end.

(** A hook is set to a function (or to [null]); the Echo instance calls
    the handlers of a channel only while it holds the channel, between
    the [echo.join] of its topic and the [echo.leave]. *)
Definition enabled (a : Action) (w : W) : Prop :=
  match a with
  | Call_onHere callback
  | Call_onJoining callback
  | Call_onLeaving callback
  | Call_onError callback
  | Call_onSubscribed callback => PresenceCallbacks.hook_typed callback
  | Transport_subscribed topic channel =>
      JsMap.get topic (channels (this w)) = Some channel
  | Transport_here topic _
  | Transport_joining topic _
  | Transport_leaving topic _
  | Transport_error topic _
  | Transport_listen topic _
  | Transport_whisper topic _ => JsMap.has topic (channels (this w)) = true
  | _ => True
  end.

Definition initial (a : t) : W :=
  {| this := a; effects := []; timers := []; next_channel := 0 |}.

Inductive reachable : W -> Prop :=
| reachable_initial echoInstance cbs a :
    constructor echoInstance cbs = Normal a ->
    PresenceCallbacks.typed (callbacks a) ->
    reachable (initial a)
| reachable_step w a : reachable w -> enabled a w -> reachable (exec (run a) w).
End LaravelEchoPresenceAdapter.

(** ** [createSignalingAdapter] (factory.js) *)

(** [v === s] for a string literal [s]. *)
Definition is_string (v : JsValue) (s : string) : bool :=
  match v with
  | JsString s' => String.eqb s' s
  | _ => false
  end.

Definition is_null (v : JsValue) : bool :=
  match v with JsNull => true | _ => false end.

Inductive SignalingAdapter :=
| GivenInstance (config : JsValue)
| NewDefaultSignalingAdapter (a : DefaultSignalingAdapter.t)
| NewLaravelEchoAdapter (a : LaravelEchoAdapter.t)
| NewLaravelEchoPresenceAdapter (a : LaravelEchoPresenceAdapter.t).

Definition and_then {A B} (c : Completion A) (k : A -> Completion B) : Completion B :=
  match c with
  | Normal a => k a
  | Throw e => Throw e
  end.

Definition createSignalingAdapter (config : JsValue) : Completion SignalingAdapter :=
  if instanceof_SignalingAdapter config then Normal (GivenInstance config)
  else if String.eqb (typeof config) "string" then
    Normal (NewDefaultSignalingAdapter DefaultSignalingAdapter.constructor)
  else if String.eqb (typeof config) "object" && negb (is_null config) then
    and_then (get_prop config "type") (fun type =>
    if is_string type "echo" then
      and_then (get_prop config "echo") (fun echo =>
      if negb (truthy echo) then
        Throw (JsError "Laravel Echo instance is required for LaravelEchoAdapter")
      else
        Normal (NewLaravelEchoAdapter (LaravelEchoAdapter.constructor echo)))
    else if is_string type "echo-presence" then
      and_then (get_prop config "echo") (fun echo =>
      if negb (truthy echo) then
        Throw (JsError "Laravel Echo instance is required for LaravelEchoPresenceAdapter")
      else
        and_then (get_prop config "callbacks") (fun callbacks =>
        and_then (LaravelEchoPresenceAdapter.constructor echo callbacks) (fun a =>
        Normal (NewLaravelEchoPresenceAdapter a))))
    else
      Normal (NewDefaultSignalingAdapter DefaultSignalingAdapter.constructor))
  else
    Normal (NewDefaultSignalingAdapter DefaultSignalingAdapter.constructor).

(** The error of the factory's guard: the transport handle is missing. *)
Definition ConfigurationError (e : JsThrown) : Prop :=
  e = JsError "Laravel Echo instance is required for LaravelEchoAdapter" \/
  e = JsError "Laravel Echo instance is required for LaravelEchoPresenceAdapter".

(** A configuration object whose [type] is ['echo'] or ['echo-presence']. *)
Definition names_echo_adapter (config : JsValue) : bool :=
  match config with
  | JsObject _ props =>
      is_string (own_property "type" props) "echo" ||
      is_string (own_property "type" props) "echo-presence"
  | _ => false
  end.

(** ** The per-topic state machine *)

Inductive TopicState :=
| Unbound
| BoundNotReady
| BoundReady.

(** The state of a topic, read off the binding and the ready flag; a
    ready flag without a binding is none of the three. *)
Definition topic_state (channels : JsMap.t Channel) (readyChannels : gset string)
    (topic : string) : option TopicState :=
  match JsMap.has topic channels, bool_decide (topic ∈ readyChannels) with
  | false, false => Some Unbound
  | true, false => Some BoundNotReady
  | true, true => Some BoundReady
  | false, true => None
  end.

Record gate_inv (echo : JsValue) (channels : JsMap.t Channel)
    (readyChannels : gset string) (messageQueue : gmap string (list JsValue)) : Prop := {
  ready_is_bound :
    forall topic, topic ∈ readyChannels -> JsMap.has topic channels = true;
  queue_is_gated :
    forall topic, is_Some (messageQueue !! topic) ->
      JsMap.has topic channels = true /\ topic ∉ readyChannels;
  bound_has_echo :
    truthy echo = false -> channels = [];
}.

Definition echo_inv (a : LaravelEchoAdapter.t) : Prop :=
  gate_inv (LaravelEchoAdapter.echo a) (LaravelEchoAdapter.channels a)
           (LaravelEchoAdapter.readyChannels a) (LaravelEchoAdapter.messageQueue a).

Record presence_inv (a : LaravelEchoPresenceAdapter.t) : Prop := {
  presence_gate :
    gate_inv (LaravelEchoPresenceAdapter.echo a) (LaravelEchoPresenceAdapter.channels a)
             (LaravelEchoPresenceAdapter.readyChannels a)
             (LaravelEchoPresenceAdapter.messageQueue a);
  roster_is_bound :
    forall topic, is_Some (LaravelEchoPresenceAdapter.presenceMembers a !! topic) ->
      JsMap.has topic (LaravelEchoPresenceAdapter.channels a) = true;
  hooks_typed :
    PresenceCallbacks.typed (LaravelEchoPresenceAdapter.callbacks a);
}.

(** What [disconnect] asks of the Echo instance: it leaves the channel of
    every bound topic, in the order the topics were bound. *)
Definition leave_all (chs : JsMap.t Channel) : list Effect :=
  map (fun e => EchoLeave ("y-webrtc." +:+ e.1)) chs.

(** The call a hook receives: a function is called, [null] is not. *)
Definition hook_calls (hook : JsValue) (call : nat -> Effect) : list Effect :=
  match hook with
  | JsFunction f => [call f]
  | _ => []
  end.

(** The listener calls made when the tasks [ts] run, for the listeners
    [obs]. *)
Definition emissions (obs : gmap string (list Listener)) (ts : list Task)
  : list Effect :=
  flat_map (fun task =>
              match task with
              | EmitTask name args =>
                  map (fun f => ListenerCall f name args) (Observable.listeners name obs)
              end) ts.

(** ** [DefaultSignalingAdapter]: the methods

    The adapter drives a [WebsocketClient] of lib0: it creates one, registers
    three handlers on it, sends frames on it and disconnects it.  The calls
    made on socket clients are logged beside the adapter object; a client is
    named by the number it got when it was created. *)

(** The three object literals handed to [ws.send]. *)
Inductive Frame :=
| TopicsFrame (type : string) (topics : list string)
| PublishFrame (topic : string) (data : JsValue).

Inductive SocketCall :=
| NewWebsocketClient (ws : nat) (url : string)
| WsOn (ws : nat) (event : string)
| WsSend (ws : nat) (frame : Frame)
| WsDisconnect (ws : nat).

(** The object a socket hands to its [message] handlers when the server
    relays a publish frame as it was sent. *)
Definition relayed (topic : string) (data : JsValue) : JsValue :=
  JsObject PlainObject
    [("type", JsString "publish"); ("topic", JsString topic); ("data", data)].

Module DefaultSignalingAdapterMethods.
Record Host := {
  adapter : DefaultSignalingAdapter.t;
  socket_calls : list SocketCall;
}.

Abbreviation W := (World Host) (only parsing).

Definition set_adapter (f : DefaultSignalingAdapter.t -> DefaultSignalingAdapter.t)
    (h : Host) : Host :=
  {| adapter := f (adapter h); socket_calls := socket_calls h |}.

Definition with_observers (f : gmap string (list Listener) -> gmap string (list Listener))
    (a : DefaultSignalingAdapter.t) : DefaultSignalingAdapter.t :=
  {| DefaultSignalingAdapter._observers := f (DefaultSignalingAdapter._observers a);
     DefaultSignalingAdapter.connected := DefaultSignalingAdapter.connected a;
     DefaultSignalingAdapter.ws := DefaultSignalingAdapter.ws a;
     DefaultSignalingAdapter.url := DefaultSignalingAdapter.url a |}.
Definition with_connected (b : bool) (a : DefaultSignalingAdapter.t)
  : DefaultSignalingAdapter.t :=
  {| DefaultSignalingAdapter._observers := DefaultSignalingAdapter._observers a;
     DefaultSignalingAdapter.connected := b;
     DefaultSignalingAdapter.ws := DefaultSignalingAdapter.ws a;
     DefaultSignalingAdapter.url := DefaultSignalingAdapter.url a |}.
Definition with_ws (s : option nat) (a : DefaultSignalingAdapter.t)
  : DefaultSignalingAdapter.t :=
  {| DefaultSignalingAdapter._observers := DefaultSignalingAdapter._observers a;
     DefaultSignalingAdapter.connected := DefaultSignalingAdapter.connected a;
     DefaultSignalingAdapter.ws := s;
     DefaultSignalingAdapter.url := DefaultSignalingAdapter.url a |}.
Definition with_url (u : string) (a : DefaultSignalingAdapter.t)
  : DefaultSignalingAdapter.t :=
  {| DefaultSignalingAdapter._observers := DefaultSignalingAdapter._observers a;
     DefaultSignalingAdapter.connected := DefaultSignalingAdapter.connected a;
     DefaultSignalingAdapter.ws := DefaultSignalingAdapter.ws a;
     DefaultSignalingAdapter.url := u |}.

(** One call on a socket client. *)
Definition socket (c : SocketCall) : M W unit :=
  modify (set_this (fun h =>
    {| adapter := adapter h; socket_calls := socket_calls h ++ [c] |})).

(** [new ws.WebsocketClient(url)] *)
Definition new_WebsocketClient (url : string) : M W nat :=
  fun w =>
    (Normal (next_channel w),
     {| this := {| adapter := adapter (this w);
                   socket_calls :=
                     socket_calls (this w) ++ [NewWebsocketClient (next_channel w) url] |};
        effects := effects w; timers := timers w;
        next_channel := S (next_channel w) |}).

Definition emit (name : string) (args : list JsValue) : M W unit :=
  Observable.emit (fun h => DefaultSignalingAdapter._observers (adapter h)) name args.

Definition on (name : string) (f : Listener) : M W unit :=
  modify (set_this (set_adapter (with_observers (Observable.on name f)))).

Definition disconnect : M W unit :=
  let* s := gets (fun w => DefaultSignalingAdapter.ws (adapter (this w))) in
  match s with
  | Some ws =>
      socket (WsDisconnect ws) >>
      modify (set_this (set_adapter (with_ws None)))
  | None => ret tt
  end >>
  modify (set_this (set_adapter (with_connected false))).

Definition connect (url : string) : M W unit :=
  let* s := gets (fun w => DefaultSignalingAdapter.ws (adapter (this w))) in
  match s with
  | Some _ => disconnect
  | None => ret tt
  end >>
  modify (set_this (set_adapter (with_url url))) >>
  let* ws := new_WebsocketClient url in
  modify (set_this (set_adapter (with_ws (Some ws)))) >>
  socket (WsOn ws "connect") >>
  socket (WsOn ws "disconnect") >>
  socket (WsOn ws "message").

(** The three closures that [connect] registers on the socket client. *)

Definition ws_connect_handler : M W unit :=
  modify (set_this (set_adapter (with_connected true))) >>
  emit "connect" [].

Definition ws_disconnect_handler : M W unit :=
  modify (set_this (set_adapter (with_connected false))) >>
  emit "disconnect" [].

Definition ws_message_handler (message : JsValue) : M W unit :=
  let* type := lift (get_prop message "type") in
  if is_string type "publish" then
    let* topic := lift (get_prop message "topic") in
    let* data := lift (get_prop message "data") in
    emit "message" [JsObject PlainObject [("topic", topic); ("data", data)]]
  else ret tt.

(** [if (this.ws && this.connected) this.ws.send(frame)] *)
Definition send_if_connected (frame : Frame) : M W unit :=
  let* s := gets (fun w => DefaultSignalingAdapter.ws (adapter (this w))) in
  let* c := gets (fun w => DefaultSignalingAdapter.connected (adapter (this w))) in
  match s with
  | Some ws => if c then socket (WsSend ws frame) else ret tt
  | None => ret tt
  end.

Definition subscribe (topics : list string) : M W unit :=
  send_if_connected (TopicsFrame "subscribe" topics).

Definition unsubscribe (topics : list string) : M W unit :=
  send_if_connected (TopicsFrame "unsubscribe" topics).

Definition publish (topic : string) (data : JsValue) : M W unit :=
  send_if_connected (PublishFrame topic data).

Definition destroy : M W unit :=
  disconnect >>
  modify (set_this (set_adapter (with_observers (fun _ => ∅)))).

Definition initial : W :=
  {| this := {| adapter := DefaultSignalingAdapter.constructor; socket_calls := [] |};
     effects := []; timers := []; next_channel := 0 |}.
End DefaultSignalingAdapterMethods.

(** ** [createSignalingAdapter], the factory without presence channels

    The sources hold two states of factory.js; this is the one that knows
    the types ['default'] and ['echo'] only. *)
Module EchoOnlyFactory.
Definition createSignalingAdapter (config : JsValue) : Completion SignalingAdapter :=
  if instanceof_SignalingAdapter config then Normal (GivenInstance config)
  else if String.eqb (typeof config) "string" then
    Normal (NewDefaultSignalingAdapter DefaultSignalingAdapter.constructor)
  else if String.eqb (typeof config) "object" && negb (is_null config) then
    and_then (get_prop config "type") (fun type =>
    if is_string type "echo" then
      and_then (get_prop config "echo") (fun echo =>
      if negb (truthy echo) then
        Throw (JsError "Laravel Echo instance is required for LaravelEchoAdapter")
      else
        Normal (NewLaravelEchoAdapter (LaravelEchoAdapter.constructor echo)))
    else
      Normal (NewDefaultSignalingAdapter DefaultSignalingAdapter.constructor))
  else
    Normal (NewDefaultSignalingAdapter DefaultSignalingAdapter.constructor).
End EchoOnlyFactory.

(** ** The loops of [subscribe] and [unsubscribe], one round at a time *)

(** The body of the loop of [LaravelEchoAdapter.subscribe]. *)
Definition echo_subscribe_topic (topic : string) : M LaravelEchoAdapter.W unit :=
  let* bound := gets (fun w => JsMap.has topic (LaravelEchoAdapter.channels (this w))) in
  if bound then ret tt
  else
    let channelName := LaravelEchoAdapter._getChannelName topic in
    let* channel := LaravelEchoAdapter.echo_private channelName in
    perform (ChannelOn channel H_subscribed) >>
    perform (ChannelOn channel H_error) >>
    perform (ChannelOn channel (H_listen ".signaling")) >>
    perform (ChannelOn channel (H_listenForWhisper "signaling")) >>
    modify (set_this (LaravelEchoAdapter.with_channels (JsMap.set topic channel))).

(** The body of the loop of [LaravelEchoAdapter.unsubscribe]. *)
Definition echo_unsubscribe_topic (topic : string) : M LaravelEchoAdapter.W unit :=
  let* channel := gets (fun w => JsMap.get topic (LaravelEchoAdapter.channels (this w))) in
  match channel with
  | Some _ =>
      LaravelEchoAdapter.echo_leave (LaravelEchoAdapter._getChannelName topic) >>
      modify (set_this (LaravelEchoAdapter.with_channels (JsMap.delete topic))) >>
      modify (set_this (LaravelEchoAdapter.with_readyChannels (fun r => r ∖ {[topic]}))) >>
      modify (set_this (LaravelEchoAdapter.with_messageQueue (delete topic)))
  | None => ret tt
  end.

(** The body of the loop of [LaravelEchoPresenceAdapter.subscribe]. *)
Definition presence_subscribe_topic (topic : string)
  : M LaravelEchoPresenceAdapter.W unit :=
  let* bound :=
    gets (fun w => JsMap.has topic (LaravelEchoPresenceAdapter.channels (this w))) in
  if bound then ret tt
  else
    let channelName := LaravelEchoPresenceAdapter._getChannelName topic in
    let* channel := LaravelEchoPresenceAdapter.echo_join channelName in
    perform (ChannelOn channel H_here) >>
    perform (ChannelOn channel H_joining) >>
    perform (ChannelOn channel H_leaving) >>
    perform (ChannelOn channel H_subscribed) >>
    perform (ChannelOn channel H_error) >>
    perform (ChannelOn channel (H_listen ".signaling")) >>
    perform (ChannelOn channel (H_listenForWhisper "signaling")) >>
    modify (set_this (LaravelEchoPresenceAdapter.with_channels (JsMap.set topic channel))).

(** The body of the loop of [LaravelEchoPresenceAdapter.unsubscribe]. *)
Definition presence_unsubscribe_topic (topic : string)
  : M LaravelEchoPresenceAdapter.W unit :=
  let* channel :=
    gets (fun w => JsMap.get topic (LaravelEchoPresenceAdapter.channels (this w))) in
  match channel with
  | Some _ =>
      LaravelEchoPresenceAdapter.echo_leave (LaravelEchoPresenceAdapter._getChannelName topic) >>
      modify (set_this (LaravelEchoPresenceAdapter.with_channels (JsMap.delete topic))) >>
      modify (set_this (LaravelEchoPresenceAdapter.with_readyChannels (fun r => r ∖ {[topic]}))) >>
      modify (set_this (LaravelEchoPresenceAdapter.with_messageQueue (delete topic))) >>
      modify (set_this (LaravelEchoPresenceAdapter.with_presenceMembers (delete topic)))
  | None => ret tt
  end.

(** ** Sample sessions, used to instantiate statements *)

Definition sample_echo : JsValue := JsObject PlainObject [].

(** [new LaravelEchoAdapter(echo)], then [connect] and [subscribe(['room1'])]. *)
Definition echo_session : LaravelEchoAdapter.W :=
  exec (LaravelEchoAdapter.run (LaravelEchoAdapter.Call_subscribe ["room1"]))
    (exec (LaravelEchoAdapter.run (LaravelEchoAdapter.Call_connect (JsString "wss://signaling")))
       (LaravelEchoAdapter.initial sample_echo)).

(** What [new LaravelEchoPresenceAdapter(echo)] builds. *)
Definition presence_fresh : LaravelEchoPresenceAdapter.t :=
  {| LaravelEchoPresenceAdapter._observers := ∅;
     LaravelEchoPresenceAdapter.connected := false;
     LaravelEchoPresenceAdapter.echo := sample_echo;
     LaravelEchoPresenceAdapter.channels := JsMap.empty;
     LaravelEchoPresenceAdapter.readyChannels := ∅;
     LaravelEchoPresenceAdapter.messageQueue := ∅;
     LaravelEchoPresenceAdapter.shouldConnect := false;
     LaravelEchoPresenceAdapter.presenceMembers := ∅;
     LaravelEchoPresenceAdapter.callbacks :=
       {| PresenceCallbacks.onHere := JsNull;
          PresenceCallbacks.onJoining := JsNull;
          PresenceCallbacks.onLeaving := JsNull;
          PresenceCallbacks.onError := JsNull;
          PresenceCallbacks.onSubscribed := JsNull |} |}.

(** The same session on the presence adapter. *)
Definition presence_session : LaravelEchoPresenceAdapter.W :=
  exec (LaravelEchoPresenceAdapter.run (LaravelEchoPresenceAdapter.Call_subscribe ["room1"]))
    (exec (LaravelEchoPresenceAdapter.run
             (LaravelEchoPresenceAdapter.Call_connect (JsString "wss://signaling")))
       (LaravelEchoPresenceAdapter.initial presence_fresh)).

(** The channel the Echo instance hands out first in the sample sessions. *)
Definition room1_channel : Channel :=
  {| chan_id := 0; chan_name := "y-webrtc.room1" |}.

(** A plain configuration object whose [type] is ['echo-presence']. *)
Definition names_presence_adapter (config : JsValue) : bool :=
  match config with
  | JsObject PlainObject props => is_string (own_property "type" props) "echo-presence"
  | _ => false
  end.

(** ** Runs of [LaravelEchoAdapter] *)

(** The actions happen one after the other, each of them enabled when its
    turn comes. *)
Inductive echo_steps
  : LaravelEchoAdapter.W -> list LaravelEchoAdapter.Action -> LaravelEchoAdapter.W -> Prop :=
| echo_steps_nil w : echo_steps w [] w
| echo_steps_cons w a rest w' :
    LaravelEchoAdapter.enabled a w ->
    echo_steps (exec (LaravelEchoAdapter.run a) w) rest w' ->
    echo_steps w (a :: rest) w'.

(** The payloads that the actions publish on [topic], in order. *)
Definition published (topic : string) (actions : list LaravelEchoAdapter.Action)
  : list JsValue :=
  omap (fun a =>
          match a with
          | LaravelEchoAdapter.Call_publish t d =>
              if decide (t = topic) then Some d else None
          | _ => None
          end) actions.

(** The action neither unbinds [topic] nor is its ready signal. *)
Definition keeps_pending (topic : string) (a : LaravelEchoAdapter.Action) : bool :=
  match a with
  | LaravelEchoAdapter.Call_disconnect | LaravelEchoAdapter.Call_destroy => false
  | LaravelEchoAdapter.Call_unsubscribe topics => bool_decide (topic ∉ topics)
  | LaravelEchoAdapter.Transport_subscribed t _ => bool_decide (t <> topic)
  | _ => true
  end.

(** The channel bound to a topic is the one the Echo instance returned for
    the channel name of the topic. *)
Definition channel_names (channels : JsMap.t Channel) : Prop :=
  forall topic channel,
    JsMap.get topic channels = Some channel ->
    chan_name channel = LaravelEchoAdapter._getChannelName topic.

(** ** What else holds of the flags and of the queues *)

(** [connected] and [shouldConnect] agree, and no queue is empty. *)
Definition flags_and_queues (connected shouldConnect : bool)
    (messageQueue : gmap string (list JsValue)) : Prop :=
  connected = shouldConnect /\
  forall topic queue, messageQueue !! topic = Some queue -> queue <> [].

(** * Properties *)

(** ** Computations *)

Ltac run :=
  unfold exec, completion_of, bind, ret, gets, modify, throw, lift, perform,
    setTimeout, new_channel, whisper, echo_method, set_this in *;
  simpl in *.

Section Computations.
Context {T : Type}.
Implicit Types w : World T.

Lemma add_effects_nil w : add_effects [] w = w.
Proof. destruct w; unfold add_effects; simpl. by rewrite app_nil_r. Qed.

Lemma add_effects_app es es' w :
  add_effects es' (add_effects es w) = add_effects (es ++ es') w.
Proof. unfold add_effects; simpl. by rewrite app_assoc. Qed.

Lemma forEach_perform {A} (g : A -> Effect) (xs : list A) w :
  forEach xs (fun x => perform (g x)) w = (Normal tt, add_effects (map g xs) w).
Proof.
  revert w; induction xs as [|x xs IH]; intros w; simpl.
  - by rewrite add_effects_nil.
  - unfold bind at 1. unfold perform at 1, modify.
    by rewrite IH, add_effects_app.
Qed.

Lemma emit_spec (obs : T -> gmap string (list Listener)) name args w :
  Observable.emit obs name args w =
    (Normal tt,
     add_effects (map (fun f => ListenerCall f name args)
                      (Observable.listeners name (obs (this w)))) w).
Proof. unfold Observable.emit, bind, gets. apply forEach_perform. Qed.

(** A loop keeps what each of its rounds keeps, whether it ends or throws. *)
Lemma forEach_keeps {A} (P : World T -> Prop) (f : A -> M (World T) unit) xs :
  (forall x w, P w -> P (exec (f x) w)) ->
  forall w, P w -> P (exec (forEach xs f) w).
Proof.
  intros Hf; induction xs as [|x xs IH]; intros w Hw; simpl; [done|].
  unfold exec, bind. specialize (Hf x w Hw). unfold exec in Hf.
  destruct (f x w) as [[[]|e] w']; simpl in *; [by apply IH | done].
Qed.
End Computations.

(** ** [Map] *)

Section JsMapFacts.
Context {V : Type}.
Implicit Types m : JsMap.t V.

Lemma JsMap_get_set_eq k v m : JsMap.get k (JsMap.set k v m) = Some v.
Proof.
  induction m as [|[k' v'] m IH]; simpl.
  - by rewrite decide_True.
  - destruct (decide (k = k')) as [->|Hne]; simpl.
    + by rewrite decide_True.
    + by rewrite decide_False.
Qed.

Lemma JsMap_get_set_ne k k' v m :
  k <> k' -> JsMap.get k' (JsMap.set k v m) = JsMap.get k' m.
Proof.
  intros Hne. induction m as [|[k0 v0] m IH]; simpl.
  - by rewrite decide_False.
  - destruct (decide (k = k0)) as [->|Hne0]; simpl.
    + by rewrite !decide_False.
    + by rewrite IH.
Qed.

Lemma JsMap_get_delete_eq k m : JsMap.get k (JsMap.delete k m) = None.
Proof.
  unfold JsMap.delete. induction m as [|[k0 v0] m IH]; [done|].
  rewrite filter_cons. simpl. destruct (decide (k0 <> k)) as [Hne|Heq]; simpl.
  - by rewrite decide_False.
  - done.
Qed.

Lemma JsMap_get_delete_ne k k' m :
  k <> k' -> JsMap.get k' (JsMap.delete k m) = JsMap.get k' m.
Proof.
  intros Hne. unfold JsMap.delete. induction m as [|[k0 v0] m IH]; [done|].
  rewrite filter_cons. simpl. destruct (decide (k0 <> k)) as [Hne0|Heq]; simpl.
  - by rewrite IH.
  - apply dec_stable in Heq. subst k0. by rewrite decide_False.
Qed.

Lemma JsMap_has_get k m : JsMap.has k m = true <-> is_Some (JsMap.get k m).
Proof.
  unfold JsMap.has. destruct (JsMap.get k m); split; intros H; try done.
Qed.

Lemma JsMap_has_set k k' v m :
  JsMap.has k' (JsMap.set k v m) = if decide (k = k') then true else JsMap.has k' m.
Proof.
  unfold JsMap.has. destruct (decide (k = k')) as [->|Hne].
  - by rewrite JsMap_get_set_eq.
  - by rewrite JsMap_get_set_ne.
Qed.

Lemma JsMap_has_delete k k' m :
  JsMap.has k' (JsMap.delete k m) = if decide (k = k') then false else JsMap.has k' m.
Proof.
  unfold JsMap.has. destruct (decide (k = k')) as [->|Hne].
  - by rewrite JsMap_get_delete_eq.
  - by rewrite JsMap_get_delete_ne.
Qed.
End JsMapFacts.

(** ** The gate *)

Section Gate.
Implicit Types (e : JsValue) (c : JsMap.t Channel) (r : gset string)
  (q : gmap string (list JsValue)).

Lemma gate_inv_clear e : gate_inv e [] ∅ ∅.
Proof. split; [set_solver | | done]. intros topic [x Hx]. by rewrite lookup_empty in Hx. Qed.

Lemma gate_inv_enqueue e c r q topic x :
  gate_inv e c r q -> JsMap.has topic c = true -> topic ∉ r ->
  gate_inv e c r (<[topic := x]> q).
Proof.
  intros [H1 H2 H3] Hb Hr. split; [done | | done].
  intros topic' Hq. destruct (decide (topic = topic')) as [<-|Hne]; [done|].
  rewrite lookup_insert_ne in Hq by done. by apply H2.
Qed.

Lemma gate_inv_ready e c r q topic :
  gate_inv e c r q -> JsMap.has topic c = true ->
  gate_inv e c ({[topic]} ∪ r) (delete topic q).
Proof.
  intros [H1 H2 H3] Hb. split; [| | done].
  - intros topic' [->%elem_of_singleton|Hr]%elem_of_union; [done | by apply H1].
  - intros topic' Hq. destruct (decide (topic = topic')) as [<-|Hne].
    + rewrite lookup_delete_eq in Hq. by destruct Hq.
    + rewrite lookup_delete_ne in Hq by done. pose proof (H2 _ Hq) as [? ?].
      split; [done|]. intros [?%elem_of_singleton|?]%elem_of_union; [congruence | done].
Qed.

Lemma gate_inv_bind e c r q topic ch :
  gate_inv e c r q -> truthy e = true ->
  gate_inv e (JsMap.set topic ch c) r q.
Proof.
  intros [H1 H2 H3] He.
  assert (forall topic', JsMap.has topic' c = true ->
            JsMap.has topic' (JsMap.set topic ch c) = true) as Hmono.
  { intros topic' Hb. rewrite JsMap_has_set. by case_decide. }
  split.
  - intros topic' Hr. by apply Hmono, H1.
  - intros topic' Hq. pose proof (H2 _ Hq) as [? ?]. split; [by apply Hmono | done].
  - congruence.
Qed.

Lemma gate_inv_unbind e c r q topic :
  gate_inv e c r q ->
  gate_inv e (JsMap.delete topic c) (r ∖ {[topic]}) (delete topic q).
Proof.
  intros [H1 H2 H3]. split.
  - intros topic' [Hr Hne%not_elem_of_singleton]%elem_of_difference.
    rewrite JsMap_has_delete, decide_False by done. by apply H1.
  - intros topic' Hq. destruct (decide (topic = topic')) as [<-|Hne].
    + rewrite lookup_delete_eq in Hq. by destruct Hq.
    + rewrite lookup_delete_ne in Hq by done. pose proof (H2 _ Hq) as [? ?].
      rewrite JsMap_has_delete, decide_False by done.
      split; [done|]. by intros [? _]%elem_of_difference.
  - intros He. by rewrite (H3 He).
Qed.
End Gate.

Ltac crunch :=
  repeat (run; first [case_bool_decide | case_match]; simplify_eq/=).

Section EchoAdapterFacts.
Import LaravelEchoAdapter.
Implicit Types w : W.

Lemma echo_emit_exec name args w :
  emit name args w =
    (Normal tt, add_effects (map (fun f => ListenerCall f name args)
                  (Observable.listeners name (_observers (this w)))) w).
Proof. apply emit_spec. Qed.

Lemma echo_publish_inv topic data w :
  echo_inv (this w) -> echo_inv (this (exec (publish topic data) w)).
Proof.
  intros H. unfold publish, echo_inv in *. crunch; try done.
  all: repeat apply gate_inv_enqueue; try done.
  all: by apply JsMap_has_get.
Qed.

Lemma echo_subscribed_inv topic channel w :
  echo_inv (this w) -> JsMap.get topic (channels (this w)) = Some channel ->
  echo_inv (this (exec (subscribed_handler topic channel) w)).
Proof.
  intros H Hb. unfold subscribed_handler, echo_inv in *. run.
  rewrite forEach_perform. simpl.
  apply gate_inv_ready; [done | by apply JsMap_has_get].
Qed.

Lemma echo_leave_exec name w :
  echo_leave name w =
    if truthy (echo (this w)) then (Normal tt, add_effects [EchoLeave name] w)
    else (Throw (JsTypeError "this.echo.leave is not a function"), w).
Proof. unfold echo_leave. run. by destruct (truthy _). Qed.

Lemma echo_unsubscribe_inv topics w :
  echo_inv (this w) -> echo_inv (this (exec (unsubscribe topics) w)).
Proof.
  unfold unsubscribe. revert w. apply (forEach_keeps (fun w => echo_inv (this w))).
  intros topic w H. unfold exec, bind, gets. destruct (JsMap.get _ _); [|done].
  rewrite echo_leave_exec. destruct (truthy _); [|done]. simpl.
  by apply gate_inv_unbind.
Qed.

Lemma echo_subscribe_inv topics w :
  echo_inv (this w) -> echo_inv (this (exec (subscribe topics) w)).
Proof.
  unfold subscribe. intros H. unfold exec, bind at 1 2, gets.
  destruct (_ || _); [done|]. revert w H.
  apply (forEach_keeps (fun w => echo_inv (this w))).
  intros topic w H. unfold exec, bind at 1, gets. destruct (JsMap.has _ _); [done|].
  unfold echo_private. run. destruct (truthy _) eqn:He; [|done]. simpl.
  by apply gate_inv_bind.
Qed.

Lemma echo_leave_all_exec (chs : JsMap.t Channel) w :
  forEach chs (fun '(topic, channel) => echo_leave (_getChannelName topic)) w =
    if truthy (echo (this w)) then (Normal tt, add_effects (leave_all chs) w)
    else match chs with
         | [] => (Normal tt, w)
         | _ => (Throw (JsTypeError "this.echo.leave is not a function"), w)
         end.
Proof.
  revert w; induction chs as [|[topic ch] chs IH]; intros w; simpl.
  - rewrite add_effects_nil. by destruct (truthy _).
  - unfold bind. rewrite echo_leave_exec. destruct (truthy _) eqn:He; [|done].
    rewrite IH. simpl. rewrite He. by rewrite add_effects_app.
Qed.

Lemma echo_disconnect_exec w :
  echo_inv (this w) ->
  disconnect w =
    (Normal tt,
     {| this := {| _observers := _observers (this w); connected := false;
                   echo := echo (this w); channels := JsMap.empty;
                   readyChannels := ∅; messageQueue := ∅; shouldConnect := false |};
        effects := effects w ++ leave_all (channels (this w)) ++
                   map (fun f => ListenerCall f "disconnect" [])
                       (Observable.listeners "disconnect" (_observers (this w)));
        timers := timers w; next_channel := next_channel w |}).
Proof.
  intros [_ _ He]. destruct w as [[obs con e chs rdy que sc] efs tms nxt]; simpl in *.
  unfold disconnect. unfold bind at 1 2 3, modify, gets, set_this. simpl.
  unfold bind at 1. rewrite echo_leave_all_exec. simpl.
  destruct (truthy e) eqn:Ht.
  - run. rewrite echo_emit_exec. unfold add_effects. simpl.
    by rewrite app_assoc.
  - rewrite (He eq_refl). run. rewrite echo_emit_exec.
    by unfold add_effects, leave_all.
Qed.

Lemma echo_disconnect_inv w :
  echo_inv (this w) -> echo_inv (this (exec disconnect w)).
Proof.
  intros H. unfold exec. rewrite echo_disconnect_exec by done. apply gate_inv_clear.
Qed.

Lemma echo_destroy_inv w :
  echo_inv (this w) -> echo_inv (this (exec destroy w)).
Proof.
  intros H. unfold destroy, exec, bind. rewrite echo_disconnect_exec by done.
  apply gate_inv_clear.
Qed.

Lemma echo_run_timer_this w : this (exec run_timer w) = this w.
Proof.
  unfold run_timer, exec, bind, gets. destruct (timers w) as [|[name args] rest]; [done|].
  unfold modify. by rewrite echo_emit_exec.
Qed.

Lemma echo_listen_this topic event w :
  this (exec (listen_handler topic event) w) = this w.
Proof.
  unfold listen_handler, exec, bind, lift. destruct (get_prop _ _); [|done].
  by rewrite echo_emit_exec.
Qed.

Lemma echo_whisper_this topic event w :
  this (exec (listenForWhisper_handler topic event) w) = this w.
Proof. unfold listenForWhisper_handler, exec. by rewrite echo_emit_exec. Qed.

Lemma echo_step_inv a w :
  echo_inv (this w) -> enabled a w -> echo_inv (this (exec (run a) w)).
Proof.
  intros H Hen. destruct a; simpl in *.
  - done.
  - done.
  - by apply echo_disconnect_inv.
  - by apply echo_subscribe_inv.
  - by apply echo_unsubscribe_inv.
  - by apply echo_publish_inv.
  - by apply echo_destroy_inv.
  - by apply echo_subscribed_inv.
  - done.
  - by rewrite echo_listen_this.
  - by rewrite echo_whisper_this.
  - by rewrite echo_run_timer_this.
Qed.

Lemma echo_reachable_inv w : reachable w -> echo_inv (this w).
Proof.
  induction 1 as [e|w a _ IH Hen]; [apply gate_inv_clear | by apply echo_step_inv].
Qed.
End EchoAdapterFacts.


Section Hooks.
Context {T : Type}.
Implicit Types w : World T.

Lemma call_hook_exec hook call w :
  exec (call_hook hook call) w = add_effects (hook_calls hook call) w.
Proof.
  unfold call_hook, hook_calls, exec.
  destruct hook as [| |[]|[|z]|s|f|cls props]; simpl;
    try destruct (negb _); simpl; by rewrite ?add_effects_nil.
Qed.

Lemma call_hook_typed hook call w :
  PresenceCallbacks.hook_typed hook ->
  call_hook hook call w = (Normal tt, add_effects (hook_calls hook call) w).
Proof.
  unfold call_hook, hook_calls. destruct hook; simpl; try done.
  intros _. unfold ret. by rewrite add_effects_nil.
Qed.
End Hooks.

Ltac hook_exec :=
  match goal with
  | |- context [call_hook ?h ?c ?w] =>
      let E := fresh in
      pose proof (call_hook_exec h c w) as E; unfold exec in E; rewrite E; clear E
  end.

Section PresenceAdapterFacts.
Import LaravelEchoPresenceAdapter.
Implicit Types w : W.

Lemma presence_emit_exec name args w :
  emit name args w =
    (Normal tt, add_effects (map (fun f => ListenerCall f name args)
                  (Observable.listeners name (_observers (this w)))) w).
Proof. apply emit_spec. Qed.

Lemma presence_publish_inv topic data w :
  presence_inv (this w) -> presence_inv (this (exec (publish topic data) w)).
Proof.
  intros [H Hr Hh]. unfold publish. split; revert H Hr Hh; crunch; try done.
  all: intros; repeat apply gate_inv_enqueue; try done.
  all: by apply JsMap_has_get.
Qed.

Lemma presence_subscribed_inv topic channel w :
  presence_inv (this w) -> JsMap.get topic (channels (this w)) = Some channel ->
  presence_inv (this (exec (subscribed_handler topic channel) w)).
Proof.
  intros [H Hr Hh] Hb. pose proof Hh as (_ & _ & _ & _ & Hs).
  unfold subscribed_handler, exec, bind, modify, gets, whisper. simpl.
  rewrite call_hook_typed by done. rewrite forEach_perform. simpl.
  split; simpl; [|done|done].
  apply gate_inv_ready; [done | by apply JsMap_has_get].
Qed.

Lemma presence_leave_exec name w :
  echo_leave name w =
    if truthy (echo (this w)) then (Normal tt, add_effects [EchoLeave name] w)
    else (Throw (JsTypeError "this.echo.leave is not a function"), w).
Proof. unfold echo_leave. run. by destruct (truthy _). Qed.

Lemma presence_unsubscribe_inv topics w :
  presence_inv (this w) -> presence_inv (this (exec (unsubscribe topics) w)).
Proof.
  unfold unsubscribe. revert w. apply (forEach_keeps (fun w => presence_inv (this w))).
  intros topic w [H Hr Hh]. unfold exec, bind, gets. destruct (JsMap.get _ _); [|done].
  rewrite presence_leave_exec. destruct (truthy _); [|done]. simpl.
  split; simpl; [by apply gate_inv_unbind | | done].
  intros topic' Hq. destruct (decide (topic = topic')) as [<-|Hne].
  - rewrite lookup_delete_eq in Hq. by destruct Hq.
  - rewrite lookup_delete_ne in Hq by done.
    rewrite JsMap_has_delete, decide_False by done. by apply Hr.
Qed.

Lemma presence_subscribe_inv topics w :
  presence_inv (this w) -> presence_inv (this (exec (subscribe topics) w)).
Proof.
  unfold subscribe. intros H. unfold exec, bind at 1 2, gets.
  destruct (_ || _); [done|]. revert w H.
  apply (forEach_keeps (fun w => presence_inv (this w))).
  intros topic w [H Hr Hh]. unfold exec, bind at 1, gets. destruct (JsMap.has _ _); [done|].
  unfold echo_join. run. destruct (truthy _) eqn:He; [|done]. simpl.
  split; simpl; [by apply gate_inv_bind | | done].
  intros topic' Hq. rewrite JsMap_has_set. case_decide; [done | by apply Hr].
Qed.

Lemma presence_leave_all_exec (chs : JsMap.t Channel) w :
  forEach chs (fun '(topic, channel) => echo_leave (_getChannelName topic)) w =
    if truthy (echo (this w)) then (Normal tt, add_effects (leave_all chs) w)
    else match chs with
         | [] => (Normal tt, w)
         | _ => (Throw (JsTypeError "this.echo.leave is not a function"), w)
         end.
Proof.
  revert w; induction chs as [|[topic ch] chs IH]; intros w; simpl.
  - rewrite add_effects_nil. by destruct (truthy _).
  - unfold bind. rewrite presence_leave_exec. destruct (truthy _) eqn:He; [|done].
    rewrite IH. simpl. rewrite He. by rewrite add_effects_app.
Qed.

Lemma presence_disconnect_exec w :
  presence_inv (this w) ->
  disconnect w =
    (Normal tt,
     {| this := {| _observers := _observers (this w); connected := false;
                   echo := echo (this w); channels := JsMap.empty;
                   readyChannels := ∅; messageQueue := ∅; shouldConnect := false;
                   presenceMembers := ∅; callbacks := callbacks (this w) |};
        effects := effects w ++ leave_all (channels (this w)) ++
                   map (fun f => ListenerCall f "disconnect" [])
                       (Observable.listeners "disconnect" (_observers (this w)));
        timers := timers w; next_channel := next_channel w |}).
Proof.
  intros [[_ _ He] _ _].
  destruct w as [[obs con e chs rdy que sc mem cbs] efs tms nxt]; simpl in *.
  unfold disconnect. unfold bind at 1 2 3, modify, gets, set_this. simpl.
  unfold bind at 1. rewrite presence_leave_all_exec. simpl.
  destruct (truthy e) eqn:Ht.
  - run. rewrite presence_emit_exec. unfold add_effects. simpl.
    by rewrite app_assoc.
  - rewrite (He eq_refl). run. rewrite presence_emit_exec.
    by unfold add_effects, leave_all.
Qed.

Lemma presence_inv_clear obs con e sc cbs :
  PresenceCallbacks.typed cbs ->
  presence_inv {| _observers := obs; connected := con; echo := e;
                  channels := JsMap.empty; readyChannels := ∅; messageQueue := ∅;
                  shouldConnect := sc; presenceMembers := ∅; callbacks := cbs |}.
Proof.
  intros H. split; simpl; [apply gate_inv_clear | | done].
  intros topic [x Hx]. by rewrite lookup_empty in Hx.
Qed.

Lemma presence_disconnect_inv w :
  presence_inv (this w) -> presence_inv (this (exec disconnect w)).
Proof.
  intros H. unfold exec. rewrite presence_disconnect_exec by done.
  apply presence_inv_clear, H.
Qed.

Lemma presence_destroy_inv w :
  presence_inv (this w) -> presence_inv (this (exec destroy w)).
Proof.
  intros H. unfold destroy, exec, bind. rewrite presence_disconnect_exec by done.
  apply presence_inv_clear, H.
Qed.

Lemma presence_run_timer_this w : this (exec run_timer w) = this w.
Proof.
  unfold run_timer, exec, bind, gets. destruct (timers w) as [|[name args] rest]; [done|].
  unfold modify. by rewrite presence_emit_exec.
Qed.

Lemma presence_listen_this topic event w :
  this (exec (listen_handler topic event) w) = this w.
Proof.
  unfold listen_handler, exec, bind, lift. destruct (get_prop _ _); [|done].
  by rewrite presence_emit_exec.
Qed.

Lemma presence_whisper_this topic event w :
  this (exec (listenForWhisper_handler topic event) w) = this w.
Proof. unfold listenForWhisper_handler, exec. by rewrite presence_emit_exec. Qed.

Lemma presence_error_this channelName error w :
  this (exec (error_handler channelName error) w) = this w.
Proof.
  unfold error_handler. unfold exec, bind, perform, modify, gets. simpl.
  by hook_exec.
Qed.

(** A roster written for a bound topic. *)
Lemma presence_roster_inv topic members w :
  presence_inv (this w) -> JsMap.has topic (channels (this w)) = true ->
  presence_inv (with_presenceMembers (<[topic := members]>) (this w)).
Proof.
  intros [H Hr Hh] Hb. split; simpl; [done | | done].
  intros topic' Hq. destruct (decide (topic = topic')) as [<-|Hne]; [done|].
  rewrite lookup_insert_ne in Hq by done. by apply Hr.
Qed.

Lemma presence_here_this topic members w :
  this (exec (here_handler topic members) w) =
    with_presenceMembers (<[topic := members]>) (this w).
Proof. unfold here_handler, exec, bind, modify, gets. simpl. by hook_exec. Qed.

Lemma presence_joining_this topic member w :
  this (exec (joining_handler topic member) w) =
    with_presenceMembers
      (<[topic := default [] (presenceMembers (this w) !! topic) ++ [member]]>) (this w).
Proof. unfold joining_handler, exec, bind, modify, gets. simpl. by hook_exec. Qed.

Lemma presence_leaving_this topic member w :
  this (exec (leaving_handler topic member) w) =
    with_presenceMembers
      (<[topic := List.filter (fun m => negb (id_strict_equals (id m) (id member)))
                    (default [] (presenceMembers (this w) !! topic))]>) (this w).
Proof. unfold leaving_handler, exec, bind, modify, gets. simpl. by hook_exec. Qed.

Lemma presence_setter_inv f w :
  presence_inv (this w) ->
  (forall c, PresenceCallbacks.typed c -> PresenceCallbacks.typed (f c)) ->
  presence_inv (this (exec (modify (set_this (with_callbacks f))) w)).
Proof. intros [H Hr Hh] Hf. split; simpl; [done | done | by apply Hf]. Qed.

Lemma presence_step_inv a w :
  presence_inv (this w) -> enabled a w -> presence_inv (this (exec (run a) w)).
Proof.
  intros H Hen. destruct a; simpl in *.
  - by destruct H.
  - apply presence_setter_inv; [done|]. by intros c (?&?&?&?&?).
  - apply presence_setter_inv; [done|]. by intros c (?&?&?&?&?).
  - apply presence_setter_inv; [done|]. by intros c (?&?&?&?&?).
  - apply presence_setter_inv; [done|]. by intros c (?&?&?&?&?).
  - apply presence_setter_inv; [done|]. by intros c (?&?&?&?&?).
  - by destruct H.
  - by apply presence_disconnect_inv.
  - by apply presence_subscribe_inv.
  - by apply presence_unsubscribe_inv.
  - by apply presence_publish_inv.
  - by apply presence_destroy_inv.
  - rewrite presence_here_this. by apply presence_roster_inv.
  - rewrite presence_joining_this. by apply presence_roster_inv.
  - rewrite presence_leaving_this. by apply presence_roster_inv.
  - by apply presence_subscribed_inv.
  - by rewrite presence_error_this.
  - by rewrite presence_listen_this.
  - by rewrite presence_whisper_this.
  - by rewrite presence_run_timer_this.
Qed.

Lemma presence_constructor_inv echoInstance cbs a :
  constructor echoInstance cbs = Normal a ->
  PresenceCallbacks.typed (callbacks a) -> presence_inv a.
Proof.
  unfold constructor. intros Hc Ht.
  repeat (destruct (read_hook _ _); [|done]). simplify_eq.
  by apply presence_inv_clear.
Qed.

Lemma presence_reachable_inv w : reachable w -> presence_inv (this w).
Proof.
  induction 1 as [e cbs a Hc Ht|w a _ IH Hen].
  - by eapply presence_constructor_inv.
  - by apply presence_step_inv.
Qed.
End PresenceAdapterFacts.


(** ** The queue of a topic that is bound and not ready *)

Section EchoQueue.
Import LaravelEchoAdapter.
Implicit Types w : W.

Lemma echo_publish_pending topic data channel w :
  JsMap.get topic (channels (this w)) = Some channel ->
  topic ∉ readyChannels (this w) ->
  publish topic data w =
    (Normal tt,
     set_this (with_messageQueue
       (<[topic := default [] (messageQueue (this w) !! topic) ++ [data]]>)) w).
Proof.
  intros Hb Hr. unfold publish. unfold bind at 1, gets. rewrite Hb.
  unfold bind at 1, gets. rewrite bool_decide_eq_false_2 by done.
  destruct (messageQueue (this w) !! topic) as [q|] eqn:Hq.
  - unfold bind at 1, gets. rewrite bool_decide_eq_true_2 by (rewrite Hq; eauto).
    unfold bind, ret, gets. by rewrite Hq.
  - unfold bind at 1, gets. rewrite bool_decide_eq_false_2
      by (rewrite Hq; by intros [? ?]).
    unfold bind, modify, gets. simpl. rewrite lookup_insert_eq.
    unfold modify, set_this, with_messageQueue. simpl. by rewrite insert_insert_eq.
Qed.

Lemma echo_publish_ready topic data channel w :
  JsMap.get topic (channels (this w)) = Some channel ->
  topic ∈ readyChannels (this w) ->
  publish topic data w =
    (Normal tt, add_effects [ChannelWhisper channel "signaling" data] w).
Proof.
  intros Hb Hr. unfold publish. unfold bind, gets. rewrite Hb.
  by rewrite bool_decide_eq_true_2.
Qed.

Lemma echo_publish_unbound topic data w :
  JsMap.get topic (channels (this w)) = None ->
  publish topic data w = (Normal tt, w).
Proof. intros Hb. unfold publish. unfold bind, gets. by rewrite Hb. Qed.

Lemma echo_publishes_pending topic channel ds w :
  JsMap.get topic (channels (this w)) = Some channel ->
  topic ∉ readyChannels (this w) ->
  completion_of (forEach ds (publish topic)) w = Normal tt /\
  channels (this (exec (forEach ds (publish topic)) w)) = channels (this w) /\
  readyChannels (this (exec (forEach ds (publish topic)) w)) = readyChannels (this w) /\
  effects (exec (forEach ds (publish topic)) w) = effects w /\
  default [] (messageQueue (this (exec (forEach ds (publish topic)) w)) !! topic) =
    default [] (messageQueue (this w) !! topic) ++ ds.
Proof.
  revert w. induction ds as [|d ds IH]; intros w Hb Hr; simpl.
  - unfold completion_of, exec. simpl. by rewrite app_nil_r.
  - unfold completion_of, exec, bind. rewrite (echo_publish_pending _ _ channel) by done.
    destruct (IH (set_this (with_messageQueue
       (<[topic := default [] (messageQueue (this w) !! topic) ++ [d]]>)) w))
      as (Hc & Hch & Hrd & He & Hq); [done | done |].
    unfold completion_of, exec in *. repeat split; try done.
    rewrite Hq. simpl. rewrite lookup_insert_eq. simpl. by rewrite <- app_assoc.
Qed.

Lemma echo_subscribed_exec topic channel w :
  subscribed_handler topic channel w =
    (Normal tt,
     set_this (with_messageQueue (delete topic))
       (add_effects (map (ChannelWhisper channel "signaling")
                         (default [] (messageQueue (this w) !! topic)))
          (set_this (with_readyChannels (fun r => {[topic]} ∪ r)) w))).
Proof.
  unfold subscribed_handler, bind, modify, gets, whisper. simpl.
  by rewrite forEach_perform.
Qed.
End EchoQueue.


(** * The claims *)

(** C1, as amended: the topic has to be bound while the publishes are
    issued.  For a topic [T] that is bound to a channel and not ready, the
    calls [publish(T, d1)], ..., [publish(T, dn)] return without sending
    anything; when the ready signal of [T] then fires, the channel receives
    what the queue of [T] already held followed by [d1], ..., [dn], in that
    order and once each, and nothing else is sent; afterwards the queue has
    no entry for [T] and [T] is ready.  A publish issued in a state where
    [T] has no binding returns without changing anything. *)
Theorem C1_queued_publishes_are_flushed_in_order
    (w : LaravelEchoAdapter.W) (topic : string) (channel : Channel) (ds : list JsValue) :
  JsMap.get topic (LaravelEchoAdapter.channels (this w)) = Some channel ->
  topic ∉ LaravelEchoAdapter.readyChannels (this w) ->
  let w1 := exec (forEach ds (LaravelEchoAdapter.publish topic)) w in
  let w2 := exec (LaravelEchoAdapter.subscribed_handler topic channel) w1 in
  completion_of (forEach ds (LaravelEchoAdapter.publish topic)) w = Normal tt /\
  effects w1 = effects w /\
  completion_of (LaravelEchoAdapter.subscribed_handler topic channel) w1 = Normal tt /\
  effects w2 =
    effects w ++
    map (ChannelWhisper channel "signaling")
        (default [] (LaravelEchoAdapter.messageQueue (this w) !! topic) ++ ds) /\
  LaravelEchoAdapter.messageQueue (this w2) !! topic = None /\
  (topic ∈ LaravelEchoAdapter.readyChannels (this w2)) /\
  (forall (w0 : LaravelEchoAdapter.W) (data : JsValue),
     JsMap.get topic (LaravelEchoAdapter.channels (this w0)) = None ->
     LaravelEchoAdapter.publish topic data w0 = (Normal tt, w0)).
Proof.
  intros Hb Hr w1 w2.
  destruct (echo_publishes_pending topic channel ds w Hb Hr) as (Hc & Hch & Hrd & He & Hq).
  fold w1 in Hch, Hrd, He, Hq.
  assert (LaravelEchoAdapter.subscribed_handler topic channel w1 = (Normal tt, w2))
    as Hs by (rewrite echo_subscribed_exec; unfold w2, exec;
              by rewrite echo_subscribed_exec).
  assert (completion_of (LaravelEchoAdapter.subscribed_handler topic channel) w1
          = Normal tt) as Hc' by (unfold completion_of; by rewrite Hs).
  split_and!; try done.
  - subst w2. unfold exec. rewrite echo_subscribed_exec. simpl. by rewrite Hq, He.
  - subst w2. unfold exec. rewrite echo_subscribed_exec. simpl. apply lookup_delete_eq.
  - subst w2. unfold exec. rewrite echo_subscribed_exec. simpl.
    apply elem_of_union_l. by apply elem_of_singleton.
  - intros w0 data Hu. by apply echo_publish_unbound.
Qed.

Lemma C1_two_publishes_then_ready :
  let w := exec (LaravelEchoAdapter.subscribe ["room1"])
             (exec (LaravelEchoAdapter.connect (JsString "wss://signaling"))
                (LaravelEchoAdapter.initial (JsObject PlainObject []))) in
  let channel := {| chan_id := 0; chan_name := "y-webrtc.room1" |} in
  let ds := [JsString "offer"; JsString "candidate"] in
  effects (exec (LaravelEchoAdapter.subscribed_handler "room1" channel)
             (exec (forEach ds (LaravelEchoAdapter.publish "room1")) w)) =
    effects w ++ [ChannelWhisper channel "signaling" (JsString "offer");
                  ChannelWhisper channel "signaling" (JsString "candidate")].
Proof.
  intros w channel ds.
  refine (proj1 (proj2 (proj2 (proj2
    (C1_queued_publishes_are_flushed_in_order w "room1" channel ds _ _))))).
  - reflexivity.
  - apply (bool_decide_eq_false_1 _). vm_compute. reflexivity.
Defined.

(** C1 as stated fails: a publish issued while the topic is not bound (so
    not ready) returns at the guard [if (!channel) return] and is not
    queued; when the topic is bound afterwards and its ready signal fires,
    the channel receives nothing. *)
Lemma C1_publish_while_unbound_is_dropped :
  let w0 := exec (LaravelEchoAdapter.connect (JsString "wss://signaling"))
              (LaravelEchoAdapter.initial (JsObject PlainObject [])) in
  let w1 := exec (LaravelEchoAdapter.publish "room1" (JsString "offer")) w0 in
  let w2 := exec (LaravelEchoAdapter.subscribe ["room1"]) w1 in
  let channel := {| chan_id := 0; chan_name := "y-webrtc.room1" |} in
  let w3 := exec (LaravelEchoAdapter.subscribed_handler "room1" channel) w2 in
  bool_decide ("room1" ∈ LaravelEchoAdapter.readyChannels (this w0)) = false /\
  JsMap.get "room1" (LaravelEchoAdapter.channels (this w2)) = Some channel /\
  bool_decide ("room1" ∈ LaravelEchoAdapter.readyChannels (this w3)) = true /\
  whispered_on channel (effects w3) = [] /\
  LaravelEchoAdapter.messageQueue (this w3) !! "room1" = None.
Proof. vm_compute. by repeat split. Qed.


Ltac decide_now :=
  first [apply (bool_decide_eq_false_1 _) | apply (bool_decide_eq_true_1 _)];
  vm_compute; reflexivity.

Lemma gate_inv_topic_state e c r q topic :
  gate_inv e c r q ->
  (exists s, topic_state c r topic = Some s) /\
  (topic ∈ r -> topic_state c r topic = Some BoundReady) /\
  (is_Some (q !! topic) -> topic_state c r topic = Some BoundNotReady).
Proof.
  intros [H1 H2 H3]. unfold topic_state. repeat split.
  - destruct (JsMap.has topic c) eqn:Hb; case_bool_decide as Hr; eauto.
    by rewrite (H1 _ Hr) in Hb.
  - intros Hr. by rewrite (H1 _ Hr), bool_decide_eq_true_2.
  - intros Hq. destruct (H2 _ Hq) as [Hb Hr].
    by rewrite Hb, bool_decide_eq_false_2.
Qed.

(** C2: in every reachable state of the two readiness-gated adapters a
    topic is in exactly one of the three states (the state function is
    defined, so the ready flag never stands without a binding); a topic of
    the ready set is bound and ready, and a topic with a queue entry is bound
    and not ready. *)
Theorem C2_every_topic_is_in_one_state
    (w : LaravelEchoAdapter.W) (w' : LaravelEchoPresenceAdapter.W) (topic : string) :
  LaravelEchoAdapter.reachable w ->
  LaravelEchoPresenceAdapter.reachable w' ->
  ((exists s, topic_state (LaravelEchoAdapter.channels (this w))
                (LaravelEchoAdapter.readyChannels (this w)) topic = Some s) /\
   (topic ∈ LaravelEchoAdapter.readyChannels (this w) ->
      topic_state (LaravelEchoAdapter.channels (this w))
        (LaravelEchoAdapter.readyChannels (this w)) topic = Some BoundReady) /\
   (is_Some (LaravelEchoAdapter.messageQueue (this w) !! topic) ->
      topic_state (LaravelEchoAdapter.channels (this w))
        (LaravelEchoAdapter.readyChannels (this w)) topic = Some BoundNotReady)) /\
  ((exists s, topic_state (LaravelEchoPresenceAdapter.channels (this w'))
                (LaravelEchoPresenceAdapter.readyChannels (this w')) topic = Some s) /\
   (topic ∈ LaravelEchoPresenceAdapter.readyChannels (this w') ->
      topic_state (LaravelEchoPresenceAdapter.channels (this w'))
        (LaravelEchoPresenceAdapter.readyChannels (this w')) topic = Some BoundReady) /\
   (is_Some (LaravelEchoPresenceAdapter.messageQueue (this w') !! topic) ->
      topic_state (LaravelEchoPresenceAdapter.channels (this w'))
        (LaravelEchoPresenceAdapter.readyChannels (this w')) topic = Some BoundNotReady)).
Proof.
  intros Hw Hw'. split.
  - eapply gate_inv_topic_state, echo_reachable_inv, Hw.
  - eapply gate_inv_topic_state, presence_reachable_inv, Hw'.
Qed.

Lemma C2_queued_topic_is_bound_not_ready :
  let w := exec (LaravelEchoAdapter.run
                   (LaravelEchoAdapter.Call_publish "room1" (JsString "offer")))
             (exec (LaravelEchoAdapter.run (LaravelEchoAdapter.Call_subscribe ["room1"]))
                (exec (LaravelEchoAdapter.run
                         (LaravelEchoAdapter.Call_connect (JsString "wss://signaling")))
                   (LaravelEchoAdapter.initial (JsObject PlainObject [])))) in
  topic_state (LaravelEchoAdapter.channels (this w))
    (LaravelEchoAdapter.readyChannels (this w)) "room1" = Some BoundNotReady.
Proof.
  intros w.
  assert (LaravelEchoAdapter.reachable w) as Hw
    by (repeat apply LaravelEchoAdapter.reachable_step;
        first [apply LaravelEchoAdapter.reachable_initial | exact I]).
  pose proof (LaravelEchoPresenceAdapter.reachable_initial
                (JsObject PlainObject []) JsUndefined _ eq_refl
                (conj I (conj I (conj I (conj I I))))) as Hw'.
  refine (proj2 (proj2 (proj1
    (C2_every_topic_is_in_one_state w _ "room1" Hw Hw'))) _).
  vm_compute. eauto.
Defined.


Section EchoTimers.
Import LaravelEchoAdapter.
Implicit Types w : W.

Lemma echo_run_timer_exec name args rest w :
  timers w = EmitTask name args :: rest ->
  run_timer w =
    (Normal tt,
     {| this := this w;
        effects := effects w ++ emissions (_observers (this w)) [EmitTask name args];
        timers := rest; next_channel := next_channel w |}).
Proof.
  intros Ht. unfold run_timer, bind, gets, modify. rewrite Ht.
  rewrite echo_emit_exec. unfold add_effects, emissions. simpl.
  by rewrite app_nil_r.
Qed.

Lemma echo_run_timers_exec ts rest w :
  timers w = ts ++ rest ->
  run_timers (length ts) w =
    (Normal tt,
     {| this := this w;
        effects := effects w ++ emissions (_observers (this w)) ts;
        timers := rest; next_channel := next_channel w |}).
Proof.
  revert w. induction ts as [|[name args] ts IH]; intros w Ht; simpl in *.
  - unfold ret. destruct w; simpl in *. by rewrite app_nil_r, Ht.
  - unfold bind. rewrite (echo_run_timer_exec name args (ts ++ rest)) by done.
    rewrite IH by done. simpl. unfold emissions. simpl.
    by rewrite app_nil_r, !app_assoc.
Qed.

Lemma echo_connect_exec url w :
  connect url w =
    (Normal tt,
     {| this := with_connected true (with_shouldConnect true (this w));
        effects := effects w;
        timers := timers w ++ [EmitTask "connect" []];
        next_channel := next_channel w |}).
Proof. done. Qed.

Lemma echo_connect_then_listen url f w :
  let w1 := exec (connect url) w in
  let w2 := exec (on "connect" f) w1 in
  let w3 := exec (run_timers (length (timers w2))) w2 in
  shouldConnect (this w1) = true /\ connected (this w1) = true /\
  effects w1 = effects w /\
  timers w1 = timers w ++ [EmitTask "connect" []] /\
  f ∈ Observable.listeners "connect" (_observers (this w2)) /\
  effects w3 =
    effects w ++ emissions (_observers (this w2)) (timers w) ++
    map (fun g => ListenerCall g "connect" [])
        (Observable.listeners "connect" (_observers (this w2))) /\
  timers w3 = [].
Proof.
  intros w1 w2 w3. repeat split.
  - unfold Observable.listeners, w2, on, exec, modify, set_this, with_observers,
      Observable.on. simpl. rewrite lookup_insert_eq. simpl.
    case_decide; [done|]. apply elem_of_app. right. by apply list_elem_of_singleton.
  - unfold w3, exec. rewrite (echo_run_timers_exec (timers w2) []) by by rewrite app_nil_r.
    simpl. unfold emissions. rewrite flat_map_app. simpl. by rewrite app_nil_r.
  - unfold w3, exec. by rewrite (echo_run_timers_exec (timers w2) []) by by rewrite app_nil_r.
Qed.
End EchoTimers.

Section PresenceTimers.
Import LaravelEchoPresenceAdapter.
Implicit Types w : W.

Lemma presence_run_timer_exec name args rest w :
  timers w = EmitTask name args :: rest ->
  run_timer w =
    (Normal tt,
     {| this := this w;
        effects := effects w ++ emissions (_observers (this w)) [EmitTask name args];
        timers := rest; next_channel := next_channel w |}).
Proof.
  intros Ht. unfold run_timer, bind, gets, modify. rewrite Ht.
  rewrite presence_emit_exec. unfold add_effects, emissions. simpl.
  by rewrite app_nil_r.
Qed.

Lemma presence_run_timers_exec ts rest w :
  timers w = ts ++ rest ->
  run_timers (length ts) w =
    (Normal tt,
     {| this := this w;
        effects := effects w ++ emissions (_observers (this w)) ts;
        timers := rest; next_channel := next_channel w |}).
Proof.
  revert w. induction ts as [|[name args] ts IH]; intros w Ht; simpl in *.
  - unfold ret. destruct w; simpl in *. by rewrite app_nil_r, Ht.
  - unfold bind. rewrite (presence_run_timer_exec name args (ts ++ rest)) by done.
    rewrite IH by done. simpl. unfold emissions. simpl.
    by rewrite app_nil_r, !app_assoc.
Qed.

Lemma presence_connect_exec url w :
  connect url w =
    (Normal tt,
     {| this := with_connected true (with_shouldConnect true (this w));
        effects := effects w;
        timers := timers w ++ [EmitTask "connect" []];
        next_channel := next_channel w |}).
Proof. done. Qed.

Lemma presence_connect_then_listen url f w :
  let w1 := exec (connect url) w in
  let w2 := exec (on "connect" f) w1 in
  let w3 := exec (run_timers (length (timers w2))) w2 in
  shouldConnect (this w1) = true /\ connected (this w1) = true /\
  effects w1 = effects w /\
  timers w1 = timers w ++ [EmitTask "connect" []] /\
  f ∈ Observable.listeners "connect" (_observers (this w2)) /\
  effects w3 =
    effects w ++ emissions (_observers (this w2)) (timers w) ++
    map (fun g => ListenerCall g "connect" [])
        (Observable.listeners "connect" (_observers (this w2))) /\
  timers w3 = [].
Proof.
  intros w1 w2 w3. repeat split.
  - unfold Observable.listeners, w2, on, exec, modify, set_this, with_observers,
      Observable.on. simpl. rewrite lookup_insert_eq. simpl.
    case_decide; [done|]. apply elem_of_app. right. by apply list_elem_of_singleton.
  - unfold w3, exec. rewrite (presence_run_timers_exec (timers w2) []) by by rewrite app_nil_r.
    simpl. unfold emissions. rewrite flat_map_app. simpl. by rewrite app_nil_r.
  - unfold w3, exec. by rewrite (presence_run_timers_exec (timers w2) []) by by rewrite app_nil_r.
Qed.
End PresenceTimers.

(** C3: on both readiness-gated adapters [connect(url)] sets
    [shouldConnect] and [connected] to true whatever the state, calls no
    listener itself and adds one task to the timer queue; a listener
    registered for [connect] right after the call is among the listeners the
    task calls when the queue has run, and the task is gone afterwards. *)
Theorem C3_connect_defers_its_event
    (w : LaravelEchoAdapter.W) (w' : LaravelEchoPresenceAdapter.W)
    (url : JsValue) (f : Listener) :
  (let w1 := exec (LaravelEchoAdapter.connect url) w in
   let w2 := exec (LaravelEchoAdapter.on "connect" f) w1 in
   let w3 := exec (LaravelEchoAdapter.run_timers (length (timers w2))) w2 in
   LaravelEchoAdapter.shouldConnect (this w1) = true /\
   LaravelEchoAdapter.connected (this w1) = true /\
   effects w1 = effects w /\
   timers w1 = timers w ++ [EmitTask "connect" []] /\
   f ∈ Observable.listeners "connect" (LaravelEchoAdapter._observers (this w2)) /\
   effects w3 =
     effects w ++ emissions (LaravelEchoAdapter._observers (this w2)) (timers w) ++
     map (fun g => ListenerCall g "connect" [])
         (Observable.listeners "connect" (LaravelEchoAdapter._observers (this w2))) /\
   timers w3 = []) /\
  (let w1 := exec (LaravelEchoPresenceAdapter.connect url) w' in
   let w2 := exec (LaravelEchoPresenceAdapter.on "connect" f) w1 in
   let w3 := exec (LaravelEchoPresenceAdapter.run_timers (length (timers w2))) w2 in
   LaravelEchoPresenceAdapter.shouldConnect (this w1) = true /\
   LaravelEchoPresenceAdapter.connected (this w1) = true /\
   effects w1 = effects w' /\
   timers w1 = timers w' ++ [EmitTask "connect" []] /\
   f ∈ Observable.listeners "connect" (LaravelEchoPresenceAdapter._observers (this w2)) /\
   effects w3 =
     effects w' ++ emissions (LaravelEchoPresenceAdapter._observers (this w2)) (timers w') ++
     map (fun g => ListenerCall g "connect" [])
         (Observable.listeners "connect" (LaravelEchoPresenceAdapter._observers (this w2))) /\
   timers w3 = []).
Proof.
  split; [apply echo_connect_then_listen | apply presence_connect_then_listen].
Qed.


Lemma presence_error_exec channelName error (w : LaravelEchoPresenceAdapter.W) :
  exec (LaravelEchoPresenceAdapter.error_handler channelName error) w =
    add_effects
      (ConsoleError
         ("LaravelEchoPresenceAdapter: Error subscribing to " +:+ channelName +:+ ":")
         error ::
       hook_calls (PresenceCallbacks.onError (LaravelEchoPresenceAdapter.callbacks (this w)))
         (fun f => HookError f error channelName)) w.
Proof.
  unfold LaravelEchoPresenceAdapter.error_handler.
  unfold exec, bind, perform, modify, gets. simpl.
  hook_exec. by rewrite add_effects_app.
Qed.

(** C4: the error handler of a channel, on either adapter, writes the
    error to the console and, on the presence adapter, calls [onError] with
    the error and the channel name when that hook is a function; it makes no
    other call (none on the Echo instance, so no retry), and it leaves the
    adapter object as it was: bindings, ready set, queues and rosters are
    unchanged, and so is the timer queue. *)
Theorem C4_subscription_error_changes_no_state
    (w : LaravelEchoAdapter.W) (w' : LaravelEchoPresenceAdapter.W)
    (topic : string) (error : JsValue) :
  (let channelName := LaravelEchoAdapter._getChannelName topic in
   let w1 := exec (LaravelEchoAdapter.error_handler channelName error) w in
   this w1 = this w /\ timers w1 = timers w /\ next_channel w1 = next_channel w /\
   effects w1 =
     effects w ++
     [ConsoleError ("LaravelEchoAdapter: Error subscribing to " +:+ channelName +:+ ":")
        error]) /\
  (let channelName := LaravelEchoPresenceAdapter._getChannelName topic in
   let w1 := exec (LaravelEchoPresenceAdapter.error_handler channelName error) w' in
   this w1 = this w' /\ timers w1 = timers w' /\ next_channel w1 = next_channel w' /\
   effects w1 =
     effects w' ++
     ConsoleError
       ("LaravelEchoPresenceAdapter: Error subscribing to " +:+ channelName +:+ ":")
       error ::
     hook_calls (PresenceCallbacks.onError (LaravelEchoPresenceAdapter.callbacks (this w')))
       (fun f => HookError f error channelName)).
Proof.
  split; [done|]. intros channelName w1. subst w1.
  by rewrite presence_error_exec.
Qed.


(** ** The factory *)

Lemma is_string_spec v s : is_string v s = true <-> v = JsString s.
Proof.
  destruct v; simpl; try (split; [done | discriminate]).
  rewrite String.eqb_eq. split; [by intros -> | by intros [= ->]].
Qed.

Lemma read_hook_normal callbacks k :
  callbacks <> JsNull -> callbacks <> JsUndefined ->
  exists v, LaravelEchoPresenceAdapter.read_hook callbacks k = Normal v.
Proof.
  intros H1 H2. unfold LaravelEchoPresenceAdapter.read_hook.
  destruct callbacks; simpl; try done; eauto.
Qed.

Lemma presence_constructor_normal echoInstance callbacks :
  callbacks <> JsNull ->
  exists a, LaravelEchoPresenceAdapter.constructor echoInstance callbacks = Normal a.
Proof.
  intros Hn. unfold LaravelEchoPresenceAdapter.constructor.
  set (cbs := match callbacks with JsUndefined => _ | _ => _ end).
  assert (cbs <> JsNull /\ cbs <> JsUndefined) as [H1 H2] by by destruct callbacks.
  destruct (read_hook_normal cbs "onHere" H1 H2) as [? ->].
  destruct (read_hook_normal cbs "onJoining" H1 H2) as [? ->].
  destruct (read_hook_normal cbs "onLeaving" H1 H2) as [? ->].
  destruct (read_hook_normal cbs "onError" H1 H2) as [? ->].
  destruct (read_hook_normal cbs "onSubscribed" H1 H2) as [? ->].
  eauto.
Qed.

Lemma presence_constructor_null echoInstance :
  LaravelEchoPresenceAdapter.constructor echoInstance JsNull =
    Throw (JsTypeError "Cannot read properties of null (reading 'onHere')").
Proof. done. Qed.

Lemma factory_object cls props :
  createSignalingAdapter (JsObject cls props) =
    match cls with
    | SignalingAdapterInstance => Normal (GivenInstance (JsObject cls props))
    | PlainObject =>
        if is_string (own_property "type" props) "echo" then
          if truthy (own_property "echo" props) then
            Normal (NewLaravelEchoAdapter
                      (LaravelEchoAdapter.constructor (own_property "echo" props)))
          else Throw (JsError "Laravel Echo instance is required for LaravelEchoAdapter")
        else if is_string (own_property "type" props) "echo-presence" then
          if truthy (own_property "echo" props) then
            and_then (LaravelEchoPresenceAdapter.constructor
                        (own_property "echo" props) (own_property "callbacks" props))
              (fun a => Normal (NewLaravelEchoPresenceAdapter a))
          else Throw (JsError "Laravel Echo instance is required for LaravelEchoPresenceAdapter")
        else Normal (NewDefaultSignalingAdapter DefaultSignalingAdapter.constructor)
    end.
Proof.
  destruct cls; [|done]. unfold createSignalingAdapter. simpl.
  destruct (is_string _ "echo"); simpl; [by destruct (truthy _)|].
  destruct (is_string _ "echo-presence"); simpl; [by destruct (truthy _)|done].
Qed.

Lemma factory_fallback config :
  instanceof_SignalingAdapter config = false ->
  names_echo_adapter config = false ->
  createSignalingAdapter config =
    Normal (NewDefaultSignalingAdapter DefaultSignalingAdapter.constructor).
Proof.
  intros Hi Hn. destruct config as [| |b|n|s|f|cls props]; try done.
  rewrite factory_object. destruct cls; [|done]. simpl in Hn.
  apply orb_false_elim in Hn as [-> ->]. done.
Qed.

Lemma factory_throws config e :
  createSignalingAdapter config = Throw e ->
  exists props,
    config = JsObject PlainObject props /\ names_echo_adapter config = true /\
    ((truthy (own_property "echo" props) = false /\ ConfigurationError e) \/
     (truthy (own_property "echo" props) = true /\
      own_property "type" props = JsString "echo-presence" /\
      own_property "callbacks" props = JsNull /\
      e = JsTypeError "Cannot read properties of null (reading 'onHere')")).
Proof.
  destruct config as [| |b|n|s|f|cls props]; try done.
  rewrite factory_object. destruct cls; [|done]. intros H. exists props.
  split; [done|]. simpl. unfold ConfigurationError.
  destruct (is_string _ "echo") eqn:He; simpl.
  { destruct (truthy _); [done|]. simplify_eq. eauto. }
  destruct (is_string _ "echo-presence") eqn:Hp; simpl; [|done].
  destruct (truthy _); [|simplify_eq; eauto]. split; [done|]. right.
  apply is_string_spec in Hp.
  assert (own_property "callbacks" props = JsNull \/
          own_property "callbacks" props <> JsNull) as [Hc|Hc]
    by (destruct (own_property "callbacks" props); eauto).
  - rewrite Hc, presence_constructor_null in H. simpl in H. by simplify_eq.
  - destruct (presence_constructor_normal (own_property "echo" props) _ Hc) as [a Ha].
    by rewrite Ha in H.
Qed.


Lemma presence_constructor_fields echoInstance callbacks a :
  LaravelEchoPresenceAdapter.constructor echoInstance callbacks = Normal a ->
  LaravelEchoPresenceAdapter.echo a = echoInstance /\
  LaravelEchoPresenceAdapter.connected a = false /\
  LaravelEchoPresenceAdapter.shouldConnect a = false /\
  LaravelEchoPresenceAdapter.channels a = [] /\
  LaravelEchoPresenceAdapter.readyChannels a = ∅ /\
  LaravelEchoPresenceAdapter.messageQueue a = ∅ /\
  LaravelEchoPresenceAdapter.presenceMembers a = ∅.
Proof.
  unfold LaravelEchoPresenceAdapter.constructor. intros H.
  repeat (destruct (LaravelEchoPresenceAdapter.read_hook _ _); [|done]).
  by simplify_eq.
Qed.

(** C5, as amended: the callbacks of an ['echo-presence'] configuration
    must not be [null].  For a plain configuration object whose [type] is
    ['echo'] or ['echo-presence']: when its [echo] property is falsy (absent,
    [undefined], [null], ...) the factory throws the configuration error;
    when it is truthy, type ['echo'] gives a new [LaravelEchoAdapter] on that
    instance, and type ['echo-presence'] with callbacks other than [null]
    gives a new [LaravelEchoPresenceAdapter] on that instance. *)
Theorem C5_factory_requires_the_echo_instance (props : list (string * JsValue)) :
  let config := JsObject PlainObject props in
  let type := own_property "type" props in
  let echo := own_property "echo" props in
  let callbacks := own_property "callbacks" props in
  type = JsString "echo" \/ type = JsString "echo-presence" ->
  (truthy echo = false ->
     exists e, createSignalingAdapter config = Throw e /\ ConfigurationError e) /\
  (truthy echo = true -> type = JsString "echo" ->
     createSignalingAdapter config =
       Normal (NewLaravelEchoAdapter (LaravelEchoAdapter.constructor echo))) /\
  (truthy echo = true -> type = JsString "echo-presence" -> callbacks <> JsNull ->
     exists a,
       createSignalingAdapter config = Normal (NewLaravelEchoPresenceAdapter a) /\
       LaravelEchoPresenceAdapter.constructor echo callbacks = Normal a /\
       LaravelEchoPresenceAdapter.echo a = echo).
Proof.
  intros config type echo callbacks Ht. subst config type echo callbacks.
  rewrite factory_object. unfold ConfigurationError. repeat split.
  - intros ->. destruct Ht as [-> | ->]; simpl; eauto.
  - by intros -> ->.
  - intros -> -> Hc. simpl.
    destruct (presence_constructor_normal (own_property "echo" props) _ Hc) as [a Ha].
    exists a. rewrite Ha. repeat split; try done.
    by apply presence_constructor_fields in Ha as [? _].
Qed.

Lemma C5_echo_configurations :
  (exists e,
     createSignalingAdapter (JsObject PlainObject [("type", JsString "echo")]) = Throw e /\
     ConfigurationError e) /\
  createSignalingAdapter
    (JsObject PlainObject [("type", JsString "echo"); ("echo", JsObject PlainObject [])]) =
    Normal (NewLaravelEchoAdapter (LaravelEchoAdapter.constructor (JsObject PlainObject []))).
Proof.
  split.
  - apply (C5_factory_requires_the_echo_instance [("type", JsString "echo")]);
      [by left | reflexivity].
  - apply (C5_factory_requires_the_echo_instance
             [("type", JsString "echo"); ("echo", JsObject PlainObject [])]);
      [by left | reflexivity | reflexivity].
Defined.

(** C5 as stated fails: with the echo instance present and
    [callbacks: null], the ['echo-presence'] branch returns no adapter; the
    constructor's default parameter replaces [undefined] only, and reading
    [callbacks.onHere] throws a TypeError. *)
Lemma C5_null_callbacks_give_no_adapter :
  let config :=
    JsObject PlainObject
      [("type", JsString "echo-presence"); ("echo", JsObject PlainObject []);
       ("callbacks", JsNull)] in
  truthy (own_property "echo" [("type", JsString "echo-presence");
                               ("echo", JsObject PlainObject []);
                               ("callbacks", JsNull)]) = true /\
  createSignalingAdapter config =
    Throw (JsTypeError "Cannot read properties of null (reading 'onHere')").
Proof. by split. Qed.

(** C10, as amended: besides a missing echo instance, [callbacks: null]
    on an ['echo-presence'] configuration throws as well.  A configuration
    that is no adapter instance, no string and no object of type ['echo'] or
    ['echo-presence'] ([null], [undefined], a number, a boolean, a function,
    an object of another or of no type) gives a new [DefaultSignalingAdapter]
    and nothing is thrown; and when the factory throws, the configuration is
    a plain object of type ['echo'] or ['echo-presence'] and either its
    [echo] is falsy and the error is the configuration error, or its type is
    ['echo-presence'], its callbacks are [null] and the error is a
    TypeError. *)
Theorem C10_factory_falls_back_to_the_default_adapter (config : JsValue) :
  (instanceof_SignalingAdapter config = false ->
   typeof config <> "string" ->
   names_echo_adapter config = false ->
   createSignalingAdapter config =
     Normal (NewDefaultSignalingAdapter DefaultSignalingAdapter.constructor)) /\
  (forall e, createSignalingAdapter config = Throw e ->
     exists props,
       config = JsObject PlainObject props /\ names_echo_adapter config = true /\
       ((truthy (own_property "echo" props) = false /\ ConfigurationError e) \/
        (truthy (own_property "echo" props) = true /\
         own_property "type" props = JsString "echo-presence" /\
         own_property "callbacks" props = JsNull /\
         e = JsTypeError "Cannot read properties of null (reading 'onHere')"))).
Proof.
  split.
  - intros Hi _ Hn. by apply factory_fallback.
  - intros e. apply factory_throws.
Qed.

Lemma C10_null_and_untyped_configurations :
  createSignalingAdapter JsNull =
    Normal (NewDefaultSignalingAdapter DefaultSignalingAdapter.constructor) /\
  createSignalingAdapter (JsNumber (Num 7)) =
    Normal (NewDefaultSignalingAdapter DefaultSignalingAdapter.constructor) /\
  createSignalingAdapter (JsObject PlainObject [("url", JsString "wss://signaling")]) =
    Normal (NewDefaultSignalingAdapter DefaultSignalingAdapter.constructor).
Proof.
  split; [|split].
  - apply (C10_factory_falls_back_to_the_default_adapter JsNull); done.
  - apply (C10_factory_falls_back_to_the_default_adapter (JsNumber (Num 7))); done.
  - apply (C10_factory_falls_back_to_the_default_adapter
             (JsObject PlainObject [("url", JsString "wss://signaling")])); done.
Defined.

(** C10 as stated fails in its last part: this configuration names an
    echo instance, and the factory throws all the same, an error that is
    not the configuration error. *)
Lemma C10_a_throw_with_the_echo_instance_present :
  let echo := JsObject PlainObject [("connector", JsString "pusher")] in
  let config :=
    JsObject PlainObject
      [("type", JsString "echo-presence"); ("echo", echo); ("callbacks", JsNull)] in
  truthy echo = true /\
  (exists e, createSignalingAdapter config = Throw e /\ (ConfigurationError e -> False)).
Proof.
  split; [done|]. eexists. split; [reflexivity|]. by intros [|].
Qed.


(** ** Teardown *)

Lemma echo_destroy_exec (w : LaravelEchoAdapter.W) :
  echo_inv (this w) ->
  LaravelEchoAdapter.destroy w =
    (Normal tt,
     {| this := LaravelEchoAdapter.constructor (LaravelEchoAdapter.echo (this w));
        effects := effects w ++ leave_all (LaravelEchoAdapter.channels (this w)) ++
                   map (fun f => ListenerCall f "disconnect" [])
                       (Observable.listeners "disconnect"
                          (LaravelEchoAdapter._observers (this w)));
        timers := timers w; next_channel := next_channel w |}).
Proof.
  intros H. unfold LaravelEchoAdapter.destroy, bind.
  by rewrite echo_disconnect_exec.
Qed.

Lemma presence_destroy_exec (w : LaravelEchoPresenceAdapter.W) :
  presence_inv (this w) ->
  LaravelEchoPresenceAdapter.destroy w =
    (Normal tt,
     {| this :=
          {| LaravelEchoPresenceAdapter._observers := ∅;
             LaravelEchoPresenceAdapter.connected := false;
             LaravelEchoPresenceAdapter.echo := LaravelEchoPresenceAdapter.echo (this w);
             LaravelEchoPresenceAdapter.channels := JsMap.empty;
             LaravelEchoPresenceAdapter.readyChannels := ∅;
             LaravelEchoPresenceAdapter.messageQueue := ∅;
             LaravelEchoPresenceAdapter.shouldConnect := false;
             LaravelEchoPresenceAdapter.presenceMembers := ∅;
             LaravelEchoPresenceAdapter.callbacks :=
               LaravelEchoPresenceAdapter.callbacks (this w) |};
        effects := effects w ++ leave_all (LaravelEchoPresenceAdapter.channels (this w)) ++
                   map (fun f => ListenerCall f "disconnect" [])
                       (Observable.listeners "disconnect"
                          (LaravelEchoPresenceAdapter._observers (this w)));
        timers := timers w; next_channel := next_channel w |}).
Proof.
  intros H. unfold LaravelEchoPresenceAdapter.destroy, bind.
  by rewrite presence_disconnect_exec.
Qed.

(** C6: in every reachable state of either adapter [destroy()] returns,
    and it leaves [connected] and [shouldConnect] false and the bindings, the
    ready set, the queues and (presence adapter) the rosters empty. *)
Theorem C6_destroy_tears_everything_down
    (w : LaravelEchoAdapter.W) (w' : LaravelEchoPresenceAdapter.W) :
  LaravelEchoAdapter.reachable w ->
  LaravelEchoPresenceAdapter.reachable w' ->
  (let w1 := exec LaravelEchoAdapter.destroy w in
   completion_of LaravelEchoAdapter.destroy w = Normal tt /\
   LaravelEchoAdapter.connected (this w1) = false /\
   LaravelEchoAdapter.shouldConnect (this w1) = false /\
   LaravelEchoAdapter.channels (this w1) = [] /\
   LaravelEchoAdapter.readyChannels (this w1) = ∅ /\
   LaravelEchoAdapter.messageQueue (this w1) = ∅) /\
  (let w1 := exec LaravelEchoPresenceAdapter.destroy w' in
   completion_of LaravelEchoPresenceAdapter.destroy w' = Normal tt /\
   LaravelEchoPresenceAdapter.connected (this w1) = false /\
   LaravelEchoPresenceAdapter.shouldConnect (this w1) = false /\
   LaravelEchoPresenceAdapter.channels (this w1) = [] /\
   LaravelEchoPresenceAdapter.readyChannels (this w1) = ∅ /\
   LaravelEchoPresenceAdapter.messageQueue (this w1) = ∅ /\
   LaravelEchoPresenceAdapter.presenceMembers (this w1) = ∅).
Proof.
  intros Hw%echo_reachable_inv Hw'%presence_reachable_inv.
  unfold completion_of, exec.
  by rewrite echo_destroy_exec, presence_destroy_exec.
Qed.

Lemma C6_destroy_after_a_session :
  let w := exec (LaravelEchoAdapter.run
                   (LaravelEchoAdapter.Call_publish "room1" (JsString "offer")))
             (exec (LaravelEchoAdapter.run (LaravelEchoAdapter.Call_subscribe ["room1"]))
                (exec (LaravelEchoAdapter.run
                         (LaravelEchoAdapter.Call_connect (JsString "wss://signaling")))
                   (LaravelEchoAdapter.initial (JsObject PlainObject [])))) in
  LaravelEchoAdapter.channels (this (exec LaravelEchoAdapter.destroy w)) = [] /\
  LaravelEchoAdapter.messageQueue (this (exec LaravelEchoAdapter.destroy w)) = ∅.
Proof.
  intros w.
  assert (LaravelEchoAdapter.reachable w) as Hw
    by (repeat apply LaravelEchoAdapter.reachable_step;
        first [apply LaravelEchoAdapter.reachable_initial | exact I]).
  pose proof (LaravelEchoPresenceAdapter.reachable_initial
                (JsObject PlainObject []) JsUndefined _ eq_refl
                (conj I (conj I (conj I (conj I I))))) as Hw'.
  pose proof (proj1 (C6_destroy_tears_everything_down w _ Hw Hw')) as H.
  split; apply H.
Defined.


(** ** Rosters *)

Lemma id_strict_equals_eq a b : id_strict_equals a b = true -> a = b.
Proof.
  destruct a as [[|x]|s], b as [[|y]|t]; simpl; try done.
  - by intros ->%Z.eqb_eq.
  - by intros ->%String.eqb_eq.
Qed.

Lemma id_strict_equals_decide a b :
  b <> IdNumber NaN -> id_strict_equals a b = bool_decide (a = b).
Proof.
  intros Hb. destruct (id_strict_equals a b) eqn:He.
  - apply id_strict_equals_eq in He as ->. by rewrite bool_decide_eq_true_2.
  - case_bool_decide as Heq; [|done]. subst a.
    destruct b as [[|x]|s]; simpl in He; [done | | ].
    + by rewrite Z.eqb_refl in He.
    + by rewrite String.eqb_refl in He.
Qed.

Lemma filter_all {A} (f : A -> bool) (l : list A) :
  (forall x, In x l -> f x = true) -> List.filter f l = l.
Proof.
  induction l as [|x l IH]; intros H; simpl; [done|].
  rewrite (H x) by by left. rewrite IH; [done|]. intros y Hy. apply H. by right.
Qed.

Section PresenceRosters.
Import LaravelEchoPresenceAdapter.
Implicit Types w : W.

Lemma getPresenceMembers_default (a : t) topic :
  getPresenceMembers a topic = default [] (presenceMembers a !! topic).
Proof. unfold getPresenceMembers. by destruct (_ !! _). Qed.

Lemma presence_here_exec topic members w :
  exec (here_handler topic members) w =
    add_effects
      (hook_calls (PresenceCallbacks.onHere (callbacks (this w)))
         (fun f => HookHere f members))
      (set_this (with_presenceMembers (<[topic := members]>)) w).
Proof. unfold here_handler, exec, bind, modify, gets. simpl. by hook_exec. Qed.

Lemma presence_joining_exec topic member w :
  exec (joining_handler topic member) w =
    add_effects
      (hook_calls (PresenceCallbacks.onJoining (callbacks (this w)))
         (fun f => HookJoining f member))
      (set_this (with_presenceMembers
         (<[topic := getPresenceMembers (this w) topic ++ [member]]>)) w).
Proof.
  rewrite getPresenceMembers_default.
  unfold joining_handler, exec, bind, modify, gets. simpl. by hook_exec.
Qed.

Lemma presence_leaving_exec topic member w :
  exec (leaving_handler topic member) w =
    add_effects
      (hook_calls (PresenceCallbacks.onLeaving (callbacks (this w)))
         (fun f => HookLeaving f member))
      (set_this (with_presenceMembers
         (<[topic := List.filter (fun m => negb (id_strict_equals (id m) (id member)))
                       (getPresenceMembers (this w) topic)]>)) w).
Proof.
  rewrite getPresenceMembers_default.
  unfold leaving_handler, exec, bind, modify, gets. simpl. by hook_exec.
Qed.

Lemma getPresenceMembers_insert (a : t) topic topic' members :
  getPresenceMembers (with_presenceMembers (<[topic := members]>) a) topic' =
    if decide (topic = topic') then members else getPresenceMembers a topic'.
Proof.
  rewrite !getPresenceMembers_default. simpl. case_decide as H.
  - subst. by rewrite lookup_insert_eq.
  - by rewrite lookup_insert_ne.
Qed.

Lemma presence_unbound_has_no_roster (a : t) topic :
  presence_inv a -> JsMap.has topic (channels a) = false ->
  presenceMembers a !! topic = None.
Proof.
  intros [_ Hr _] Hb. destruct (presenceMembers a !! topic) eqn:Hq; [|done].
  rewrite Hr in Hb by (rewrite Hq; eauto). done.
Qed.

Lemma presence_unsubscribe_roster topic w :
  presence_inv (this w) ->
  presenceMembers (this (exec (unsubscribe [topic]) w)) !! topic = None.
Proof.
  intros H. unfold unsubscribe, exec. simpl. unfold bind at 1 2, gets.
  destruct (JsMap.get topic (channels (this w))) as [ch|] eqn:Hb.
  - unfold bind. rewrite presence_leave_exec. destruct (truthy _) eqn:He.
    + simpl. apply lookup_delete_eq.
    + destruct H as [[_ _ Hc] _ _]. rewrite (Hc He) in Hb. done.
  - simpl. apply presence_unbound_has_no_roster; [done|].
    unfold JsMap.has. by rewrite Hb.
Qed.
End PresenceRosters.


(** C7: a [leaving] event for topic [T] with [member.id = X], [X] not
    [NaN], makes the roster of [T] the old roster without the entries whose id
    is [X], the others kept in their order: an entry is in the new roster
    exactly when it was in the old one with an id other than [X], so the
    entries of id [X] are gone and no other entry is, and a roster with no
    entry of id [X] is unchanged.  The rosters of the other topics are
    untouched, and [onLeaving] is called with the member when it is a
    function. *)
Theorem C7_leaving_removes_exactly_the_member
    (w : LaravelEchoPresenceAdapter.W) (topic : string) (member : PresenceChannelMember) :
  id member <> IdNumber NaN ->
  let w1 := exec (LaravelEchoPresenceAdapter.leaving_handler topic member) w in
  let before := LaravelEchoPresenceAdapter.getPresenceMembers (this w) topic in
  let after := LaravelEchoPresenceAdapter.getPresenceMembers (this w1) topic in
  after = List.filter (fun m => bool_decide (id m <> id member)) before /\
  (forall m, In m after <-> In m before /\ id m <> id member) /\
  ((forall m, In m before -> id m <> id member) -> after = before) /\
  (forall topic', topic' <> topic ->
     LaravelEchoPresenceAdapter.presenceMembers (this w1) !! topic' =
     LaravelEchoPresenceAdapter.presenceMembers (this w) !! topic') /\
  effects w1 =
    effects w ++
    hook_calls (PresenceCallbacks.onLeaving (LaravelEchoPresenceAdapter.callbacks (this w)))
      (fun f => HookLeaving f member).
Proof.
  intros Hnan w1 before after.
  assert (after = List.filter (fun m => bool_decide (id m <> id member)) before)
    as Hafter.
  { unfold after, w1. rewrite presence_leaving_exec. simpl.
    rewrite getPresenceMembers_insert, decide_True by done.
    apply List.filter_ext. intros m.
    by rewrite id_strict_equals_decide, bool_decide_not. }
  split; [done|]. rewrite Hafter. split; [|split; [|split]].
  - intros m. rewrite filter_In, bool_decide_eq_true. done.
  - intros H. apply filter_all. intros m Hm. apply bool_decide_eq_true_2. by apply H.
  - intros topic' Hne. unfold w1. rewrite presence_leaving_exec. simpl.
    by rewrite lookup_insert_ne.
  - unfold w1. by rewrite presence_leaving_exec.
Qed.

Lemma C7_member_1_leaves_a_roster_of_two :
  let alice := {| id := IdNumber (Num 1); info := JsString "alice" |} in
  let bob := {| id := IdNumber (Num 2); info := JsString "bob" |} in
  let w := exec (LaravelEchoPresenceAdapter.here_handler "room1" [alice; bob])
             presence_session in
  let leaver := {| id := IdNumber (Num 1); info := JsUndefined |} in
  LaravelEchoPresenceAdapter.getPresenceMembers (this w) "room1" = [alice; bob] /\
  LaravelEchoPresenceAdapter.getPresenceMembers
    (this (exec (LaravelEchoPresenceAdapter.leaving_handler "room1" leaver) w)) "room1" =
    [bob] /\
  LaravelEchoPresenceAdapter.getPresenceMembers
    (this (exec (LaravelEchoPresenceAdapter.leaving_handler "room1"
                   {| id := IdNumber (Num 3); info := JsUndefined |}) w)) "room1" =
    [alice; bob].
Proof.
  intros alice bob w leaver. split; [reflexivity|]. split.
  - refine (proj1 (C7_leaving_removes_exactly_the_member w "room1" leaver _)).
    discriminate.
  - refine (proj1 (C7_leaving_removes_exactly_the_member w "room1"
                     {| id := IdNumber (Num 3); info := JsUndefined |} _)).
    discriminate.
Defined.

(** C8: [getPresenceMembers(T)] returns the roster stored for [T] and the
    empty list when none is stored, so it always returns a list.  In every
    reachable state the list is empty for a topic that is not bound, for a
    topic just unsubscribed, and for every topic after [disconnect]; after a
    [here] event it is the member list of the event. *)
Theorem C8_getPresenceMembers_is_never_absent
    (w : LaravelEchoPresenceAdapter.W) (topic : string)
    (members : list PresenceChannelMember) :
  LaravelEchoPresenceAdapter.reachable w ->
  LaravelEchoPresenceAdapter.getPresenceMembers (this w) topic =
    default [] (LaravelEchoPresenceAdapter.presenceMembers (this w) !! topic) /\
  (JsMap.has topic (LaravelEchoPresenceAdapter.channels (this w)) = false ->
   LaravelEchoPresenceAdapter.getPresenceMembers (this w) topic = []) /\
  LaravelEchoPresenceAdapter.getPresenceMembers
    (this (exec (LaravelEchoPresenceAdapter.unsubscribe [topic]) w)) topic = [] /\
  LaravelEchoPresenceAdapter.getPresenceMembers
    (this (exec LaravelEchoPresenceAdapter.disconnect w)) topic = [] /\
  LaravelEchoPresenceAdapter.getPresenceMembers
    (this (exec (LaravelEchoPresenceAdapter.here_handler topic members) w)) topic = members.
Proof.
  intros Hw%presence_reachable_inv. split; [apply getPresenceMembers_default|].
  split; [|split; [|split]].
  - intros Hb. rewrite getPresenceMembers_default.
    by rewrite presence_unbound_has_no_roster.
  - rewrite getPresenceMembers_default. by rewrite presence_unsubscribe_roster.
  - unfold exec. by rewrite presence_disconnect_exec.
  - rewrite presence_here_exec. simpl. rewrite getPresenceMembers_insert.
    by rewrite decide_True.
Qed.

Lemma C8_roster_of_a_topic_never_bound :
  match LaravelEchoPresenceAdapter.constructor (JsObject PlainObject []) JsUndefined with
  | Normal a =>
      LaravelEchoPresenceAdapter.getPresenceMembers
        (this (exec (LaravelEchoPresenceAdapter.run
                       (LaravelEchoPresenceAdapter.Call_connect (JsString "wss://signaling")))
                 (LaravelEchoPresenceAdapter.initial a)))
        "room1" = []
  | Throw _ => False
  end.
Proof.
  refine (proj1 (proj2
    (C8_getPresenceMembers_is_never_absent _ "room1" [] _)) _); [|reflexivity].
  apply LaravelEchoPresenceAdapter.reachable_step; [|exact I].
  exact (LaravelEchoPresenceAdapter.reachable_initial
           (JsObject PlainObject []) JsUndefined _ eq_refl
           (conj I (conj I (conj I (conj I I))))).
Defined.





(** * Further properties of the code *)

(** ** [subscribe] *)

Section EchoSubscribe.
Import LaravelEchoAdapter.
Implicit Types w : W.

Lemma echo_subscribe_unfold topics w :
  subscribe topics w =
    if negb (shouldConnect (this w)) || negb (truthy (echo (this w)))
    then (Normal tt, w) else forEach topics echo_subscribe_topic w.
Proof. unfold subscribe, bind, gets. by destruct (_ || _). Qed.

Lemma echo_unsubscribe_unfold topics :
  unsubscribe topics = forEach topics echo_unsubscribe_topic.
Proof. done. Qed.

(** The world after [subscribe] has bound [topic] to a new channel. *)
Lemma echo_subscribe_topic_exec topic w :
  truthy (echo (this w)) = true ->
  echo_subscribe_topic topic w =
    (Normal tt,
     if JsMap.has topic (channels (this w)) then w
     else
       let channel := {| chan_id := next_channel w;
                         chan_name := _getChannelName topic |} in
       {| this := with_channels (JsMap.set topic channel) (this w);
          effects := effects w ++
            [EchoPrivate (_getChannelName topic) channel;
             ChannelOn channel H_subscribed; ChannelOn channel H_error;
             ChannelOn channel (H_listen ".signaling");
             ChannelOn channel (H_listenForWhisper "signaling")];
          timers := timers w; next_channel := S (next_channel w) |}).
Proof.
  intros He. unfold echo_subscribe_topic, bind at 1, gets.
  destruct (JsMap.has _ _); [done|]. unfold echo_private. run. rewrite He. simpl.
  unfold add_effects. simpl. by rewrite <- !app_assoc.
Qed.

Lemma echo_subscribe_loop topics w :
  truthy (echo (this w)) = true ->
  let w1 := exec (forEach topics echo_subscribe_topic) w in
  completion_of (forEach topics echo_subscribe_topic) w = Normal tt /\
  this w1 = with_channels (fun _ => channels (this w1)) (this w) /\
  timers w1 = timers w /\
  (forall t ch, JsMap.get t (channels (this w)) = Some ch ->
                JsMap.get t (channels (this w1)) = Some ch) /\
  (forall t, t ∈ topics -> JsMap.has t (channels (this w1)) = true) /\
  ((forall t, t ∈ topics -> JsMap.has t (channels (this w)) = true) -> w1 = w).
Proof.
  revert w. induction topics as [|topic topics IH]; intros w He; simpl.
  - unfold completion_of, exec. simpl. split_and!; try done.
    + by destruct w as [[]].
    + by intros t ?%elem_of_nil.
  - unfold completion_of, exec, bind. rewrite echo_subscribe_topic_exec by done.
    destruct (JsMap.has topic (channels (this w))) eqn:Hb.
    + destruct (IH w He) as (Hc & Ht & Htm & Hk & Hn & Hi).
      unfold completion_of, exec in *. split_and!; try done.
      * intros t [->|Hin]%elem_of_cons; [|by apply Hn].
        apply JsMap_has_get in Hb as [ch Hb]. apply JsMap_has_get. eauto.
      * intros Hall. apply Hi. intros t Hin. apply Hall. by right.
    + match goal with |- context [forEach topics _ ?w0] => set (wb := w0) end.
      destruct (IH wb He) as (Hc & Ht & Htm & Hk & Hn & Hi).
      unfold completion_of, exec in *. split_and!; try done.
      * intros t ch Hg. apply Hk. simpl.
        rewrite JsMap_get_set_ne; [done|]. intros ->.
        unfold JsMap.has in Hb. by rewrite Hg in Hb.
      * intros t [->|Hin]%elem_of_cons; [|by apply Hn].
        apply JsMap_has_get. eexists. apply Hk. simpl. apply JsMap_get_set_eq.
      * intros Hall. rewrite Hall in Hb by by left. done.
Qed.
End EchoSubscribe.

Section PresenceSubscribe.
Import LaravelEchoPresenceAdapter.
Implicit Types w : W.

Lemma presence_subscribe_unfold topics w :
  subscribe topics w =
    if negb (shouldConnect (this w)) || negb (truthy (echo (this w)))
    then (Normal tt, w) else forEach topics presence_subscribe_topic w.
Proof. unfold subscribe, bind, gets. by destruct (_ || _). Qed.

Lemma presence_unsubscribe_unfold topics :
  unsubscribe topics = forEach topics presence_unsubscribe_topic.
Proof. done. Qed.

(** The world after [subscribe] has bound [topic] to a new channel. *)
Lemma presence_subscribe_topic_exec topic w :
  truthy (echo (this w)) = true ->
  presence_subscribe_topic topic w =
    (Normal tt,
     if JsMap.has topic (channels (this w)) then w
     else
       let channel := {| chan_id := next_channel w;
                         chan_name := _getChannelName topic |} in
       {| this := with_channels (JsMap.set topic channel) (this w);
          effects := effects w ++
            [EchoJoin (_getChannelName topic) channel;
             ChannelOn channel H_here; ChannelOn channel H_joining;
             ChannelOn channel H_leaving;
             ChannelOn channel H_subscribed; ChannelOn channel H_error;
             ChannelOn channel (H_listen ".signaling");
             ChannelOn channel (H_listenForWhisper "signaling")];
          timers := timers w; next_channel := S (next_channel w) |}).
Proof.
  intros He. unfold presence_subscribe_topic, bind at 1, gets.
  destruct (JsMap.has _ _); [done|]. unfold echo_join. run. rewrite He. simpl.
  unfold add_effects. simpl. by rewrite <- !app_assoc.
Qed.

Lemma presence_subscribe_loop topics w :
  truthy (echo (this w)) = true ->
  let w1 := exec (forEach topics presence_subscribe_topic) w in
  completion_of (forEach topics presence_subscribe_topic) w = Normal tt /\
  this w1 = with_channels (fun _ => channels (this w1)) (this w) /\
  timers w1 = timers w /\
  (forall t ch, JsMap.get t (channels (this w)) = Some ch ->
                JsMap.get t (channels (this w1)) = Some ch) /\
  (forall t, t ∈ topics -> JsMap.has t (channels (this w1)) = true) /\
  ((forall t, t ∈ topics -> JsMap.has t (channels (this w)) = true) -> w1 = w).
Proof.
  revert w. induction topics as [|topic topics IH]; intros w He; simpl.
  - unfold completion_of, exec. simpl. split_and!; try done.
    + by destruct w as [[]].
    + by intros t ?%elem_of_nil.
  - unfold completion_of, exec, bind. rewrite presence_subscribe_topic_exec by done.
    destruct (JsMap.has topic (channels (this w))) eqn:Hb.
    + destruct (IH w He) as (Hc & Ht & Htm & Hk & Hn & Hi).
      unfold completion_of, exec in *. split_and!; try done.
      * intros t [->|Hin]%elem_of_cons; [|by apply Hn].
        apply JsMap_has_get in Hb as [ch Hb]. apply JsMap_has_get. eauto.
      * intros Hall. apply Hi. intros t Hin. apply Hall. by right.
    + match goal with |- context [forEach topics _ ?w0] => set (wb := w0) end.
      destruct (IH wb He) as (Hc & Ht & Htm & Hk & Hn & Hi).
      unfold completion_of, exec in *. split_and!; try done.
      * intros t ch Hg. apply Hk. simpl.
        rewrite JsMap_get_set_ne; [done|]. intros ->.
        unfold JsMap.has in Hb. by rewrite Hg in Hb.
      * intros t [->|Hin]%elem_of_cons; [|by apply Hn].
        apply JsMap_has_get. eexists. apply Hk. simpl. apply JsMap_get_set_eq.
      * intros Hall. rewrite Hall in Hb by by left. done.
Qed.
End PresenceSubscribe.

Lemma echo_subscribe_spec topics (w : LaravelEchoAdapter.W) :
  LaravelEchoAdapter.shouldConnect (this w) = true ->
  truthy (LaravelEchoAdapter.echo (this w)) = true ->
  (let w1 := exec (LaravelEchoAdapter.subscribe topics) w in
   completion_of (LaravelEchoAdapter.subscribe topics) w = Normal tt /\
   (forall t, t ∈ topics -> JsMap.has t (LaravelEchoAdapter.channels (this w1)) = true) /\
   (forall t ch, JsMap.get t (LaravelEchoAdapter.channels (this w)) = Some ch ->
                 JsMap.get t (LaravelEchoAdapter.channels (this w1)) = Some ch) /\
   this w1 = LaravelEchoAdapter.with_channels (fun _ => LaravelEchoAdapter.channels (this w1)) (this w) /\
   timers w1 = timers w /\
   exec (LaravelEchoAdapter.subscribe topics) w1 = w1).
Proof.
  intros Hs He w1. subst w1. unfold completion_of, exec.
  rewrite (echo_subscribe_unfold topics w), Hs, He. simpl.
  destruct (echo_subscribe_loop topics w He) as (Hc & Ht & Htm & Hk & Hn & Hi).
  unfold completion_of, exec in *. split_and!; try done.
  set (w1 := (forEach topics echo_subscribe_topic w).2) in *.
  assert (LaravelEchoAdapter.shouldConnect (this w1) = true) as Hs1 by by rewrite Ht.
  assert (truthy (LaravelEchoAdapter.echo (this w1)) = true) as He1 by by rewrite Ht.
  rewrite echo_subscribe_unfold, Hs1, He1. simpl.
  destruct (echo_subscribe_loop topics w1 He1) as (_ & _ & _ & _ & _ & Hi1).
  apply Hi1. exact Hn.
Qed.

Lemma presence_subscribe_spec topics (w : LaravelEchoPresenceAdapter.W) :
  LaravelEchoPresenceAdapter.shouldConnect (this w) = true ->
  truthy (LaravelEchoPresenceAdapter.echo (this w)) = true ->
  (let w1 := exec (LaravelEchoPresenceAdapter.subscribe topics) w in
   completion_of (LaravelEchoPresenceAdapter.subscribe topics) w = Normal tt /\
   (forall t, t ∈ topics -> JsMap.has t (LaravelEchoPresenceAdapter.channels (this w1)) = true) /\
   (forall t ch, JsMap.get t (LaravelEchoPresenceAdapter.channels (this w)) = Some ch ->
                 JsMap.get t (LaravelEchoPresenceAdapter.channels (this w1)) = Some ch) /\
   this w1 = LaravelEchoPresenceAdapter.with_channels (fun _ => LaravelEchoPresenceAdapter.channels (this w1)) (this w) /\
   timers w1 = timers w /\
   exec (LaravelEchoPresenceAdapter.subscribe topics) w1 = w1).
Proof.
  intros Hs He w1. subst w1. unfold completion_of, exec.
  rewrite (presence_subscribe_unfold topics w), Hs, He. simpl.
  destruct (presence_subscribe_loop topics w He) as (Hc & Ht & Htm & Hk & Hn & Hi).
  unfold completion_of, exec in *. split_and!; try done.
  set (w1 := (forEach topics presence_subscribe_topic w).2) in *.
  assert (LaravelEchoPresenceAdapter.shouldConnect (this w1) = true) as Hs1 by by rewrite Ht.
  assert (truthy (LaravelEchoPresenceAdapter.echo (this w1)) = true) as He1 by by rewrite Ht.
  rewrite presence_subscribe_unfold, Hs1, He1. simpl.
  destruct (presence_subscribe_loop topics w1 He1) as (_ & _ & _ & _ & _ & Hi1).
  apply Hi1. exact Hn.
Qed.


Lemma echo_session_reachable : LaravelEchoAdapter.reachable echo_session.
Proof.
  repeat apply LaravelEchoAdapter.reachable_step;
    first [apply LaravelEchoAdapter.reachable_initial | exact I].
Defined.

Lemma presence_session_reachable : LaravelEchoPresenceAdapter.reachable presence_session.
Proof.
  repeat apply LaravelEchoPresenceAdapter.reachable_step; try exact I.
  exact (LaravelEchoPresenceAdapter.reachable_initial sample_echo JsUndefined
           presence_fresh eq_refl (conj I (conj I (conj I (conj I I))))).
Defined.

(** X1: [subscribe] called while [shouldConnect] is false (before
    [connect], after [disconnect]) or while the echo instance is falsy
    returns without doing anything on either adapter: the world is unchanged,
    so the topics are not remembered and a later [connect] binds none of
    them. *)
Theorem subscribe_before_connect_is_forgotten
    (w : LaravelEchoAdapter.W) (w' : LaravelEchoPresenceAdapter.W)
    (topics : list string) (url : JsValue) :
  LaravelEchoAdapter.shouldConnect (this w) = false \/
    truthy (LaravelEchoAdapter.echo (this w)) = false ->
  LaravelEchoPresenceAdapter.shouldConnect (this w') = false \/
    truthy (LaravelEchoPresenceAdapter.echo (this w')) = false ->
  (LaravelEchoAdapter.subscribe topics w = (Normal tt, w) /\
   exec (LaravelEchoAdapter.connect url) (exec (LaravelEchoAdapter.subscribe topics) w) =
     exec (LaravelEchoAdapter.connect url) w) /\
  (LaravelEchoPresenceAdapter.subscribe topics w' = (Normal tt, w') /\
   exec (LaravelEchoPresenceAdapter.connect url)
     (exec (LaravelEchoPresenceAdapter.subscribe topics) w') =
     exec (LaravelEchoPresenceAdapter.connect url) w').
Proof.
  intros H H'.
  assert (LaravelEchoAdapter.subscribe topics w = (Normal tt, w)) as E.
  { rewrite echo_subscribe_unfold. by destruct H as [-> | ->]; rewrite ?orb_true_r. }
  assert (LaravelEchoPresenceAdapter.subscribe topics w' = (Normal tt, w')) as E'.
  { rewrite presence_subscribe_unfold. by destruct H' as [-> | ->]; rewrite ?orb_true_r. }
  unfold exec at 2 5. by rewrite E, E'.
Qed.

Lemma subscribe_on_a_new_adapter_binds_nothing :
  LaravelEchoAdapter.subscribe ["room1"] (LaravelEchoAdapter.initial sample_echo) =
    (Normal tt, LaravelEchoAdapter.initial sample_echo).
Proof.
  apply (subscribe_before_connect_is_forgotten
           (LaravelEchoAdapter.initial sample_echo)
           (LaravelEchoPresenceAdapter.initial presence_fresh) ["room1"] JsUndefined);
    by left.
Defined.

(** X2: on a connected adapter with an echo instance, [subscribe(topics)]
    returns normally and every listed topic is bound afterwards; a topic that
    was bound keeps its channel (it is not joined again), nothing but the
    bindings changes in the adapter object and no timer is set; and calling
    [subscribe] again with the same topics changes nothing at all. *)
Theorem subscribe_binds_each_topic_once
    (w : LaravelEchoAdapter.W) (w' : LaravelEchoPresenceAdapter.W)
    (topics : list string) :
  LaravelEchoAdapter.shouldConnect (this w) = true ->
  truthy (LaravelEchoAdapter.echo (this w)) = true ->
  LaravelEchoPresenceAdapter.shouldConnect (this w') = true ->
  truthy (LaravelEchoPresenceAdapter.echo (this w')) = true ->
  (let w1 := exec (LaravelEchoAdapter.subscribe topics) w in
   completion_of (LaravelEchoAdapter.subscribe topics) w = Normal tt /\
   (forall t, t ∈ topics -> JsMap.has t (LaravelEchoAdapter.channels (this w1)) = true) /\
   (forall t ch, JsMap.get t (LaravelEchoAdapter.channels (this w)) = Some ch ->
                 JsMap.get t (LaravelEchoAdapter.channels (this w1)) = Some ch) /\
   this w1 = LaravelEchoAdapter.with_channels (fun _ => LaravelEchoAdapter.channels (this w1)) (this w) /\
   timers w1 = timers w /\
   exec (LaravelEchoAdapter.subscribe topics) w1 = w1) /\
  (let w1 := exec (LaravelEchoPresenceAdapter.subscribe topics) w' in
   completion_of (LaravelEchoPresenceAdapter.subscribe topics) w' = Normal tt /\
   (forall t, t ∈ topics -> JsMap.has t (LaravelEchoPresenceAdapter.channels (this w1)) = true) /\
   (forall t ch, JsMap.get t (LaravelEchoPresenceAdapter.channels (this w')) = Some ch ->
                 JsMap.get t (LaravelEchoPresenceAdapter.channels (this w1)) = Some ch) /\
   this w1 = LaravelEchoPresenceAdapter.with_channels (fun _ => LaravelEchoPresenceAdapter.channels (this w1)) (this w') /\
   timers w1 = timers w' /\
   exec (LaravelEchoPresenceAdapter.subscribe topics) w1 = w1).
Proof.
  intros Hs He Hs' He'. split;
    [by apply echo_subscribe_spec | by apply presence_subscribe_spec].
Qed.

Lemma subscribe_twice_in_the_sample_session :
  exec (LaravelEchoAdapter.subscribe ["room1"; "room2"; "room1"])
    (exec (LaravelEchoAdapter.subscribe ["room1"; "room2"; "room1"]) echo_session) =
  exec (LaravelEchoAdapter.subscribe ["room1"; "room2"; "room1"]) echo_session.
Proof.
  apply (subscribe_binds_each_topic_once echo_session presence_session
           ["room1"; "room2"; "room1"]); reflexivity.
Defined.


(** ** [unsubscribe] *)

Lemma bool_decide_cons (t topic : string) (topics : list string) :
  bool_decide (t ∈ topic :: topics) = bool_decide (t = topic) || bool_decide (t ∈ topics).
Proof.
  destruct (decide (t = topic)) as [->|Hne].
  - by rewrite !bool_decide_eq_true_2 by first [done | by left].
  - rewrite (bool_decide_eq_false_2 (t = topic)) by done. simpl.
    apply bool_decide_ext. rewrite elem_of_cons. tauto.
Qed.

Section EchoUnsubscribe.
Import LaravelEchoAdapter.
Implicit Types w : W.

Lemma echo_bound_has_echo topic ch w :
  echo_inv (this w) -> JsMap.get topic (channels (this w)) = Some ch ->
  truthy (echo (this w)) = true.
Proof.
  intros [_ _ He] Hb. destruct (truthy _) eqn:Ht; [done|].
  by rewrite (He eq_refl) in Hb.
Qed.

Lemma echo_unsubscribe_topic_exec topic w :
  echo_inv (this w) ->
  echo_unsubscribe_topic topic w =
    (Normal tt,
     match JsMap.get topic (channels (this w)) with
     | None => w
     | Some _ =>
         {| this := with_messageQueue (delete topic)
                      (with_readyChannels (fun r => r ∖ {[topic]})
                         (with_channels (JsMap.delete topic) (this w)));
            effects := effects w ++ [EchoLeave (_getChannelName topic)];
            timers := timers w; next_channel := next_channel w |}
     end).
Proof.
  intros H. unfold echo_unsubscribe_topic, bind at 1, gets.
  destruct (JsMap.get _ _) as [ch|] eqn:Hb; [|done].
  unfold bind. rewrite echo_leave_exec, (echo_bound_has_echo topic ch) by done.
  done.
Qed.

Lemma echo_unsubscribe_loop topics w :
  echo_inv (this w) ->
  let w1 := exec (forEach topics echo_unsubscribe_topic) w in
  completion_of (forEach topics echo_unsubscribe_topic) w = Normal tt /\
  (forall t, JsMap.get t (channels (this w1)) =
             if bool_decide (t ∈ topics) then None else JsMap.get t (channels (this w))) /\
  (forall t, t ∈ readyChannels (this w1) <-> t ∈ readyChannels (this w) /\ t ∉ topics) /\
  (forall t, messageQueue (this w1) !! t =
             if bool_decide (t ∈ topics) then None else messageQueue (this w) !! t) /\
  ((forall t, t ∈ topics -> JsMap.get t (channels (this w)) = None) -> w1 = w).
Proof.
  revert w. induction topics as [|topic topics IH]; intros w H; simpl.
  - unfold completion_of, exec. simpl. split_and!; try done.
    intros t. split; [|by intros [? _]]. intros Hr. split; [done|]. by intros ?%elem_of_nil.
  - unfold completion_of, exec, bind. rewrite echo_unsubscribe_topic_exec by done.
    destruct (JsMap.get topic (channels (this w))) as [ch|] eqn:Hb.
    + match goal with |- context [forEach topics _ ?w0] => set (wb := w0) end.
      assert (echo_inv (this wb)) as Hwb by by apply gate_inv_unbind.
      destruct (IH wb Hwb) as (Hc & Hg & Hr & Hq & Hi).
      unfold completion_of, exec in *. split_and!; try done.
      * intros t. rewrite Hg, bool_decide_cons. simpl.
        destruct (decide (t = topic)) as [->|Hne].
        { rewrite (bool_decide_eq_true_2 (topic = topic)) by done. simpl.
          rewrite JsMap_get_delete_eq. by case_bool_decide. }
        rewrite (bool_decide_eq_false_2 (t = topic)) by done. simpl.
        by rewrite JsMap_get_delete_ne.
      * intros t. rewrite Hr. simpl. rewrite elem_of_difference, elem_of_singleton.
        rewrite elem_of_cons. tauto.
      * intros t. rewrite Hq, bool_decide_cons. simpl.
        destruct (decide (t = topic)) as [->|Hne].
        { rewrite (bool_decide_eq_true_2 (topic = topic)) by done. simpl.
          rewrite lookup_delete_eq. by case_bool_decide. }
        rewrite (bool_decide_eq_false_2 (t = topic)) by done. simpl.
        by rewrite lookup_delete_ne.
      * intros Hall. rewrite Hall in Hb by by left. done.
    + destruct (IH w H) as (Hc & Hg & Hr & Hq & Hi).
      assert (JsMap.has topic (channels (this w)) = false) as Hu
        by (unfold JsMap.has; by rewrite Hb).
      destruct H as [H1 H2 H3].
      unfold completion_of, exec in *. split_and!; try done.
      * intros t. rewrite Hg, bool_decide_cons.
        destruct (decide (t = topic)) as [->|Hne].
        { rewrite (bool_decide_eq_true_2 (topic = topic)) by done. simpl.
          rewrite Hb. by case_bool_decide. }
        by rewrite (bool_decide_eq_false_2 (t = topic)) by done.
      * intros t. rewrite Hr, elem_of_cons. split; [|tauto].
        intros [Ht Hn]. split; [done|]. intros [->|?]; [|done].
        by rewrite (H1 _ Ht) in Hu.
      * intros t. rewrite Hq, bool_decide_cons.
        destruct (decide (t = topic)) as [->|Hne].
        { rewrite (bool_decide_eq_true_2 (topic = topic)) by done. simpl.
          case_bool_decide; [done|].
          destruct (messageQueue (this w) !! topic) eqn:Hm; [|done].
          destruct (H2 topic) as [Hbb _]; [by rewrite Hm|]. by rewrite Hbb in Hu. }
        by rewrite (bool_decide_eq_false_2 (t = topic)) by done.
      * intros Hall. apply Hi. intros t Hin. apply Hall. by right.
Qed.
End EchoUnsubscribe.


Section PresenceUnsubscribe.
Import LaravelEchoPresenceAdapter.
Implicit Types w : W.

Lemma presence_bound_has_echo topic ch w :
  presence_inv (this w) -> JsMap.get topic (channels (this w)) = Some ch ->
  truthy (echo (this w)) = true.
Proof.
  intros [[_ _ He] _ _] Hb. destruct (truthy _) eqn:Ht; [done|].
  by rewrite (He eq_refl) in Hb.
Qed.

Lemma presence_unsubscribe_topic_exec topic w :
  presence_inv (this w) ->
  presence_unsubscribe_topic topic w =
    (Normal tt,
     match JsMap.get topic (channels (this w)) with
     | None => w
     | Some _ =>
         {| this := with_presenceMembers (delete topic)
                      (with_messageQueue (delete topic)
                         (with_readyChannels (fun r => r ∖ {[topic]})
                            (with_channels (JsMap.delete topic) (this w))));
            effects := effects w ++ [EchoLeave (_getChannelName topic)];
            timers := timers w; next_channel := next_channel w |}
     end).
Proof.
  intros H. unfold presence_unsubscribe_topic, bind at 1, gets.
  destruct (JsMap.get _ _) as [ch|] eqn:Hb; [|done].
  unfold bind. rewrite presence_leave_exec, (presence_bound_has_echo topic ch) by done.
  done.
Qed.

Lemma presence_unsubscribe_topic_inv topic w :
  presence_inv (this w) -> presence_inv (this (exec (presence_unsubscribe_topic topic) w)).
Proof.
  intros H. unfold exec. rewrite presence_unsubscribe_topic_exec by done.
  destruct (JsMap.get _ _); [|done]. simpl. destruct H as [H Hr Hh].
  split; simpl; [by apply gate_inv_unbind | | done].
  intros topic' Hq. destruct (decide (topic = topic')) as [<-|Hne].
  - rewrite lookup_delete_eq in Hq. by destruct Hq.
  - rewrite lookup_delete_ne in Hq by done.
    rewrite JsMap_has_delete, decide_False by done. by apply Hr.
Qed.

Lemma presence_unsubscribe_loop topics w :
  presence_inv (this w) ->
  let w1 := exec (forEach topics presence_unsubscribe_topic) w in
  completion_of (forEach topics presence_unsubscribe_topic) w = Normal tt /\
  (forall t, JsMap.get t (channels (this w1)) =
             if bool_decide (t ∈ topics) then None else JsMap.get t (channels (this w))) /\
  (forall t, t ∈ readyChannels (this w1) <-> t ∈ readyChannels (this w) /\ t ∉ topics) /\
  (forall t, messageQueue (this w1) !! t =
             if bool_decide (t ∈ topics) then None else messageQueue (this w) !! t) /\
  (forall t, presenceMembers (this w1) !! t =
             if bool_decide (t ∈ topics) then None else presenceMembers (this w) !! t) /\
  ((forall t, t ∈ topics -> JsMap.get t (channels (this w)) = None) -> w1 = w).
Proof.
  revert w. induction topics as [|topic topics IH]; intros w H; simpl.
  - unfold completion_of, exec. simpl. split_and!; try done.
    intros t. split; [|by intros [? _]]. intros Hr. split; [done|]. by intros ?%elem_of_nil.
  - pose proof (presence_unsubscribe_topic_inv topic w H) as Hwb.
    unfold completion_of, exec, bind in *.
    rewrite presence_unsubscribe_topic_exec in * by done.
    destruct (JsMap.get topic (channels (this w))) as [ch|] eqn:Hb.
    + match goal with |- context [forEach topics _ ?w0] => set (wb := w0) in * end.
      destruct (IH wb Hwb) as (Hc & Hg & Hr & Hq & Hm & Hi).
      unfold completion_of, exec in *. split_and!; try done.
      * intros t. rewrite Hg, bool_decide_cons. simpl.
        destruct (decide (t = topic)) as [->|Hne].
        { rewrite (bool_decide_eq_true_2 (topic = topic)) by done. simpl.
          rewrite JsMap_get_delete_eq. by case_bool_decide. }
        rewrite (bool_decide_eq_false_2 (t = topic)) by done. simpl.
        by rewrite JsMap_get_delete_ne.
      * intros t. rewrite Hr. simpl. rewrite elem_of_difference, elem_of_singleton.
        rewrite elem_of_cons. tauto.
      * intros t. rewrite Hq, bool_decide_cons. simpl.
        destruct (decide (t = topic)) as [->|Hne].
        { rewrite (bool_decide_eq_true_2 (topic = topic)) by done. simpl.
          rewrite lookup_delete_eq. by case_bool_decide. }
        rewrite (bool_decide_eq_false_2 (t = topic)) by done. simpl.
        by rewrite lookup_delete_ne.
      * intros t. rewrite Hm, bool_decide_cons. simpl.
        destruct (decide (t = topic)) as [->|Hne].
        { rewrite (bool_decide_eq_true_2 (topic = topic)) by done. simpl.
          rewrite lookup_delete_eq. by case_bool_decide. }
        rewrite (bool_decide_eq_false_2 (t = topic)) by done. simpl.
        by rewrite lookup_delete_ne.
      * intros Hall. rewrite Hall in Hb by by left. done.
    + destruct (IH w H) as (Hc & Hg & Hr & Hq & Hm & Hi).
      assert (JsMap.has topic (channels (this w)) = false) as Hu
        by (unfold JsMap.has; by rewrite Hb).
      destruct H as [[H1 H2 H3] H4 H5].
      unfold completion_of, exec in *. split_and!; try done.
      * intros t. rewrite Hg, bool_decide_cons.
        destruct (decide (t = topic)) as [->|Hne].
        { rewrite (bool_decide_eq_true_2 (topic = topic)) by done. simpl.
          rewrite Hb. by case_bool_decide. }
        by rewrite (bool_decide_eq_false_2 (t = topic)) by done.
      * intros t. rewrite Hr, elem_of_cons. split; [|tauto].
        intros [Ht Hn]. split; [done|]. intros [->|?]; [|done].
        by rewrite (H1 _ Ht) in Hu.
      * intros t. rewrite Hq, bool_decide_cons.
        destruct (decide (t = topic)) as [->|Hne].
        { rewrite (bool_decide_eq_true_2 (topic = topic)) by done. simpl.
          case_bool_decide; [done|].
          destruct (messageQueue (this w) !! topic) eqn:Hmq; [|done].
          destruct (H2 topic) as [Hbb _]; [by rewrite Hmq|]. by rewrite Hbb in Hu. }
        by rewrite (bool_decide_eq_false_2 (t = topic)) by done.
      * intros t. rewrite Hm, bool_decide_cons.
        destruct (decide (t = topic)) as [->|Hne].
        { rewrite (bool_decide_eq_true_2 (topic = topic)) by done. simpl.
          case_bool_decide; [done|].
          destruct (presenceMembers (this w) !! topic) eqn:Hpm; [|done].
          rewrite H4 in Hu by (rewrite Hpm; eauto). done. }
        by rewrite (bool_decide_eq_false_2 (t = topic)) by done.
      * intros Hall. apply Hi. intros t Hin. apply Hall. by right.
Qed.
End PresenceUnsubscribe.


Lemma echo_unsubscribe_spec topics (w : LaravelEchoAdapter.W) :
  echo_inv (this w) ->
  (let w1 := exec (LaravelEchoAdapter.unsubscribe topics) w in
   completion_of (LaravelEchoAdapter.unsubscribe topics) w = Normal tt /\
   (forall t, t ∈ topics ->
      JsMap.get t (LaravelEchoAdapter.channels (this w1)) = None /\
      bool_decide (t ∈ LaravelEchoAdapter.readyChannels (this w1)) = false /\
      LaravelEchoAdapter.messageQueue (this w1) !! t = None) /\
   (forall t, bool_decide (t ∈ topics) = false ->
      JsMap.get t (LaravelEchoAdapter.channels (this w1)) = JsMap.get t (LaravelEchoAdapter.channels (this w)) /\
      bool_decide (t ∈ LaravelEchoAdapter.readyChannels (this w1)) =
        bool_decide (t ∈ LaravelEchoAdapter.readyChannels (this w)) /\
      LaravelEchoAdapter.messageQueue (this w1) !! t = LaravelEchoAdapter.messageQueue (this w) !! t) /\
   ((forall t, t ∈ topics -> JsMap.get t (LaravelEchoAdapter.channels (this w)) = None) -> w1 = w)).
Proof.
  intros H w1. subst w1.
  destruct (echo_unsubscribe_loop topics w H) as (Hc & Hg & Hr & Hq & Hi).
  split_and!; try done.
  - intros t Hin. rewrite Hg, Hq, !bool_decide_eq_true_2 by done. split_and!; try done.
    apply bool_decide_eq_false_2. rewrite Hr. tauto.
  - intros t Hin%bool_decide_eq_false_1. rewrite Hg, Hq, !bool_decide_eq_false_2 by done.
    split_and!; try done. apply bool_decide_ext. rewrite Hr. tauto.
Qed.

Lemma presence_unsubscribe_spec topics (w : LaravelEchoPresenceAdapter.W) :
  presence_inv (this w) ->
  (let w1 := exec (LaravelEchoPresenceAdapter.unsubscribe topics) w in
   completion_of (LaravelEchoPresenceAdapter.unsubscribe topics) w = Normal tt /\
   (forall t, t ∈ topics ->
      JsMap.get t (LaravelEchoPresenceAdapter.channels (this w1)) = None /\
      bool_decide (t ∈ LaravelEchoPresenceAdapter.readyChannels (this w1)) = false /\
      LaravelEchoPresenceAdapter.messageQueue (this w1) !! t = None /\
      LaravelEchoPresenceAdapter.presenceMembers (this w1) !! t = None) /\
   (forall t, bool_decide (t ∈ topics) = false ->
      JsMap.get t (LaravelEchoPresenceAdapter.channels (this w1)) = JsMap.get t (LaravelEchoPresenceAdapter.channels (this w)) /\
      bool_decide (t ∈ LaravelEchoPresenceAdapter.readyChannels (this w1)) =
        bool_decide (t ∈ LaravelEchoPresenceAdapter.readyChannels (this w)) /\
      LaravelEchoPresenceAdapter.messageQueue (this w1) !! t = LaravelEchoPresenceAdapter.messageQueue (this w) !! t /\
      LaravelEchoPresenceAdapter.presenceMembers (this w1) !! t = LaravelEchoPresenceAdapter.presenceMembers (this w) !! t) /\
   ((forall t, t ∈ topics -> JsMap.get t (LaravelEchoPresenceAdapter.channels (this w)) = None) -> w1 = w)).
Proof.
  intros H w1. subst w1.
  destruct (presence_unsubscribe_loop topics w H) as (Hc & Hg & Hr & Hq & Hm & Hi).
  split_and!; try done.
  - intros t Hin. rewrite Hg, Hq, Hm, !bool_decide_eq_true_2 by done. split_and!; try done.
    apply bool_decide_eq_false_2. rewrite Hr. tauto.
  - intros t Hin%bool_decide_eq_false_1.
    rewrite Hg, Hq, Hm, !bool_decide_eq_false_2 by done.
    split_and!; try done. apply bool_decide_ext. rewrite Hr. tauto.
Qed.

(** X3: in every reachable state of either adapter [unsubscribe(topics)]
    returns normally; afterwards each listed topic has no binding, is not in
    the ready set and has no queue (and no roster), so what was queued for it
    is dropped; for every other topic the binding, the ready flag, the queue
    (and the roster) are what they were; and when none of the listed topics
    is bound the call changes nothing at all. *)
Theorem unsubscribe_forgets_the_topics
    (w : LaravelEchoAdapter.W) (w' : LaravelEchoPresenceAdapter.W)
    (topics : list string) :
  LaravelEchoAdapter.reachable w ->
  LaravelEchoPresenceAdapter.reachable w' ->
  (let w1 := exec (LaravelEchoAdapter.unsubscribe topics) w in
   completion_of (LaravelEchoAdapter.unsubscribe topics) w = Normal tt /\
   (forall t, t ∈ topics ->
      JsMap.get t (LaravelEchoAdapter.channels (this w1)) = None /\
      bool_decide (t ∈ LaravelEchoAdapter.readyChannels (this w1)) = false /\
      LaravelEchoAdapter.messageQueue (this w1) !! t = None) /\
   (forall t, bool_decide (t ∈ topics) = false ->
      JsMap.get t (LaravelEchoAdapter.channels (this w1)) = JsMap.get t (LaravelEchoAdapter.channels (this w)) /\
      bool_decide (t ∈ LaravelEchoAdapter.readyChannels (this w1)) =
        bool_decide (t ∈ LaravelEchoAdapter.readyChannels (this w)) /\
      LaravelEchoAdapter.messageQueue (this w1) !! t = LaravelEchoAdapter.messageQueue (this w) !! t) /\
   ((forall t, t ∈ topics -> JsMap.get t (LaravelEchoAdapter.channels (this w)) = None) -> w1 = w)) /\
  (let w1 := exec (LaravelEchoPresenceAdapter.unsubscribe topics) w' in
   completion_of (LaravelEchoPresenceAdapter.unsubscribe topics) w' = Normal tt /\
   (forall t, t ∈ topics ->
      JsMap.get t (LaravelEchoPresenceAdapter.channels (this w1)) = None /\
      bool_decide (t ∈ LaravelEchoPresenceAdapter.readyChannels (this w1)) = false /\
      LaravelEchoPresenceAdapter.messageQueue (this w1) !! t = None /\
      LaravelEchoPresenceAdapter.presenceMembers (this w1) !! t = None) /\
   (forall t, bool_decide (t ∈ topics) = false ->
      JsMap.get t (LaravelEchoPresenceAdapter.channels (this w1)) = JsMap.get t (LaravelEchoPresenceAdapter.channels (this w')) /\
      bool_decide (t ∈ LaravelEchoPresenceAdapter.readyChannels (this w1)) =
        bool_decide (t ∈ LaravelEchoPresenceAdapter.readyChannels (this w')) /\
      LaravelEchoPresenceAdapter.messageQueue (this w1) !! t = LaravelEchoPresenceAdapter.messageQueue (this w') !! t /\
      LaravelEchoPresenceAdapter.presenceMembers (this w1) !! t = LaravelEchoPresenceAdapter.presenceMembers (this w') !! t) /\
   ((forall t, t ∈ topics -> JsMap.get t (LaravelEchoPresenceAdapter.channels (this w')) = None) -> w1 = w')).
Proof.
  intros Hw%echo_reachable_inv Hw'%presence_reachable_inv. split;
    [by apply echo_unsubscribe_spec | by apply presence_unsubscribe_spec].
Qed.

Lemma unsubscribe_in_the_sample_sessions :
  JsMap.get "room1"
    (LaravelEchoAdapter.channels
       (this (exec (LaravelEchoAdapter.unsubscribe ["room1"; "room9"]) echo_session))) = None /\
  exec (LaravelEchoPresenceAdapter.unsubscribe ["room9"]) presence_session = presence_session.
Proof.
  pose proof (unsubscribe_forgets_the_topics echo_session presence_session
                ["room1"; "room9"] echo_session_reachable presence_session_reachable)
    as [(_ & H & _) _].
  pose proof (unsubscribe_forgets_the_topics echo_session presence_session
                ["room9"] echo_session_reachable presence_session_reachable)
    as [_ (_ & _ & _ & H')].
  split.
  - apply (H "room1"). by left.
  - apply H'. intros t ->%list_elem_of_singleton. reflexivity.
Defined.


(** ** [publish] *)

Section PresenceQueue.
Import LaravelEchoPresenceAdapter.
Implicit Types w : W.

Lemma presence_publish_pending topic data channel w :
  JsMap.get topic (channels (this w)) = Some channel ->
  topic ∉ readyChannels (this w) ->
  publish topic data w =
    (Normal tt,
     set_this (with_messageQueue
       (<[topic := default [] (messageQueue (this w) !! topic) ++ [data]]>)) w).
Proof.
  intros Hb Hr. unfold publish. unfold bind at 1, gets. rewrite Hb.
  unfold bind at 1, gets. rewrite bool_decide_eq_false_2 by done.
  destruct (messageQueue (this w) !! topic) as [q|] eqn:Hq.
  - unfold bind at 1, gets. rewrite bool_decide_eq_true_2 by (rewrite Hq; eauto).
    unfold bind, ret, gets. by rewrite Hq.
  - unfold bind at 1, gets. rewrite bool_decide_eq_false_2
      by (rewrite Hq; by intros [? ?]).
    unfold bind, modify, gets. simpl. rewrite lookup_insert_eq.
    unfold modify, set_this, with_messageQueue. simpl. by rewrite insert_insert_eq.
Qed.

Lemma presence_publish_ready topic data channel w :
  JsMap.get topic (channels (this w)) = Some channel ->
  topic ∈ readyChannels (this w) ->
  publish topic data w =
    (Normal tt, add_effects [ChannelWhisper channel "signaling" data] w).
Proof.
  intros Hb Hr. unfold publish. unfold bind, gets. rewrite Hb.
  by rewrite bool_decide_eq_true_2.
Qed.

Lemma presence_publish_unbound topic data w :
  JsMap.get topic (channels (this w)) = None ->
  publish topic data w = (Normal tt, w).
Proof. intros Hb. unfold publish. unfold bind, gets. by rewrite Hb. Qed.

Lemma presence_publishes_pending topic channel ds w :
  JsMap.get topic (channels (this w)) = Some channel ->
  topic ∉ readyChannels (this w) ->
  completion_of (forEach ds (publish topic)) w = Normal tt /\
  channels (this (exec (forEach ds (publish topic)) w)) = channels (this w) /\
  readyChannels (this (exec (forEach ds (publish topic)) w)) = readyChannels (this w) /\
  effects (exec (forEach ds (publish topic)) w) = effects w /\
  default [] (messageQueue (this (exec (forEach ds (publish topic)) w)) !! topic) =
    default [] (messageQueue (this w) !! topic) ++ ds.
Proof.
  revert w. induction ds as [|d ds IH]; intros w Hb Hr; simpl.
  - unfold completion_of, exec. simpl. by rewrite app_nil_r.
  - unfold completion_of, exec, bind. rewrite (presence_publish_pending _ _ channel) by done.
    destruct (IH (set_this (with_messageQueue
       (<[topic := default [] (messageQueue (this w) !! topic) ++ [d]]>)) w))
      as (Hc & Hch & Hrd & He & Hq); [done | done |].
    unfold completion_of, exec in *. repeat split; try done.
    rewrite Hq. simpl. rewrite lookup_insert_eq. simpl. by rewrite <- app_assoc.
Qed.

Lemma presence_subscribed_exec topic channel w :
  PresenceCallbacks.hook_typed (PresenceCallbacks.onSubscribed (callbacks (this w))) ->
  subscribed_handler topic channel w =
    (Normal tt,
     set_this (with_messageQueue (delete topic))
       (add_effects
          (hook_calls (PresenceCallbacks.onSubscribed (callbacks (this w)))
             (fun f => HookSubscribed f (_getChannelName topic)) ++
           map (ChannelWhisper channel "signaling")
               (default [] (messageQueue (this w) !! topic)))
          (set_this (with_readyChannels (fun r => {[topic]} ∪ r)) w))).
Proof.
  intros Hh. unfold subscribed_handler, bind, modify, gets, whisper. simpl.
  rewrite call_hook_typed by done. rewrite forEach_perform. simpl.
  by rewrite add_effects_app.
Qed.
End PresenceQueue.

(** X4: [publish(topic, data)] never throws, on either adapter and in any
    state.  For a topic without a binding it does nothing; for a bound topic
    in the ready set it whispers [data] once on the bound channel and changes
    nothing in the adapter; for a bound topic not in the ready set it sends
    nothing and appends [data] to the queue of the topic (an absent queue
    counts as empty), leaving the rest of the adapter as it was. *)
Theorem publish_sends_or_queues_or_drops
    (w : LaravelEchoAdapter.W) (w' : LaravelEchoPresenceAdapter.W)
    (topic : string) (data : JsValue) :
  (completion_of (LaravelEchoAdapter.publish topic data) w = Normal tt /\
   exec (LaravelEchoAdapter.publish topic data) w =
     match JsMap.get topic (LaravelEchoAdapter.channels (this w)) with
     | None => w
     | Some channel =>
         if bool_decide (topic ∈ LaravelEchoAdapter.readyChannels (this w))
         then add_effects [ChannelWhisper channel "signaling" data] w
         else set_this (LaravelEchoAdapter.with_messageQueue
                (<[topic := default [] (LaravelEchoAdapter.messageQueue (this w) !! topic) ++ [data]]>)) w
     end) /\
  (completion_of (LaravelEchoPresenceAdapter.publish topic data) w' = Normal tt /\
   exec (LaravelEchoPresenceAdapter.publish topic data) w' =
     match JsMap.get topic (LaravelEchoPresenceAdapter.channels (this w')) with
     | None => w'
     | Some channel =>
         if bool_decide (topic ∈ LaravelEchoPresenceAdapter.readyChannels (this w'))
         then add_effects [ChannelWhisper channel "signaling" data] w'
         else set_this (LaravelEchoPresenceAdapter.with_messageQueue
                (<[topic := default [] (LaravelEchoPresenceAdapter.messageQueue (this w') !! topic) ++ [data]]>)) w'
     end).
Proof.
  unfold completion_of, exec. split.
  - destruct (JsMap.get topic (LaravelEchoAdapter.channels (this w))) as [ch|] eqn:Hb;
      [|by rewrite echo_publish_unbound].
    case_bool_decide.
    + by rewrite (echo_publish_ready _ _ ch).
    + by rewrite (echo_publish_pending _ _ ch).
  - destruct (JsMap.get topic (LaravelEchoPresenceAdapter.channels (this w'))) as [ch|] eqn:Hb;
      [|by rewrite presence_publish_unbound].
    case_bool_decide.
    + by rewrite (presence_publish_ready _ _ ch).
    + by rewrite (presence_publish_pending _ _ ch).
Qed.


(** ** [disconnect] *)

(** X5: in every reachable state of either adapter [disconnect()] returns
    normally; it calls [echo.leave] once for every bound topic, in the order
    the topics were bound, and then, in the same turn and not through a
    timer, the listeners of [disconnect]; the listeners stay registered.
    Afterwards nothing is bound or queued, and until the next [connect] a
    [subscribe] or a [publish] changes nothing. *)
Theorem disconnect_leaves_every_channel_then_emits
    (w : LaravelEchoAdapter.W) (w' : LaravelEchoPresenceAdapter.W) :
  LaravelEchoAdapter.reachable w ->
  LaravelEchoPresenceAdapter.reachable w' ->
  (let w1 := exec LaravelEchoAdapter.disconnect w in
   completion_of LaravelEchoAdapter.disconnect w = Normal tt /\
   effects w1 =
     effects w ++ leave_all (LaravelEchoAdapter.channels (this w)) ++
     map (fun f => ListenerCall f "disconnect" [])
         (Observable.listeners "disconnect" (LaravelEchoAdapter._observers (this w))) /\
   timers w1 = timers w /\
   LaravelEchoAdapter._observers (this w1) = LaravelEchoAdapter._observers (this w) /\
   LaravelEchoAdapter.connected (this w1) = false /\
   LaravelEchoAdapter.channels (this w1) = [] /\
   LaravelEchoAdapter.messageQueue (this w1) = ∅ /\
   (forall topics, exec (LaravelEchoAdapter.subscribe topics) w1 = w1) /\
   (forall topic data, exec (LaravelEchoAdapter.publish topic data) w1 = w1)) /\
  (let w1 := exec LaravelEchoPresenceAdapter.disconnect w' in
   completion_of LaravelEchoPresenceAdapter.disconnect w' = Normal tt /\
   effects w1 =
     effects w' ++ leave_all (LaravelEchoPresenceAdapter.channels (this w')) ++
     map (fun f => ListenerCall f "disconnect" [])
         (Observable.listeners "disconnect" (LaravelEchoPresenceAdapter._observers (this w'))) /\
   timers w1 = timers w' /\
   LaravelEchoPresenceAdapter._observers (this w1) = LaravelEchoPresenceAdapter._observers (this w') /\
   LaravelEchoPresenceAdapter.connected (this w1) = false /\
   LaravelEchoPresenceAdapter.channels (this w1) = [] /\
   LaravelEchoPresenceAdapter.messageQueue (this w1) = ∅ /\
   (forall topics, exec (LaravelEchoPresenceAdapter.subscribe topics) w1 = w1) /\
   (forall topic data, exec (LaravelEchoPresenceAdapter.publish topic data) w1 = w1)).
Proof.
  intros Hw%echo_reachable_inv Hw'%presence_reachable_inv.
  unfold completion_of, exec.
  rewrite echo_disconnect_exec, presence_disconnect_exec by done. simpl.
  by split; split_and!.
Qed.

Lemma disconnect_in_the_sample_sessions :
  effects (exec LaravelEchoAdapter.disconnect echo_session) =
    effects echo_session ++ [EchoLeave "y-webrtc.room1"] /\
  LaravelEchoPresenceAdapter.channels
    (this (exec LaravelEchoPresenceAdapter.disconnect presence_session)) = [].
Proof.
  pose proof (disconnect_leaves_every_channel_then_emits echo_session presence_session
                echo_session_reachable presence_session_reachable)
    as [(_ & H & _) (_ & _ & _ & _ & _ & H' & _)].
  split; [exact H | exact H'].
Defined.


(** ** The ready signal on the presence adapter *)

Lemma presence_publish_callbacks topic data (w : LaravelEchoPresenceAdapter.W) :
  LaravelEchoPresenceAdapter.callbacks
    (this (exec (LaravelEchoPresenceAdapter.publish topic data) w)) =
  LaravelEchoPresenceAdapter.callbacks (this w).
Proof.
  unfold exec.
  destruct (JsMap.get topic (LaravelEchoPresenceAdapter.channels (this w))) as [ch|] eqn:Hb;
    [|by rewrite presence_publish_unbound].
  destruct (decide (topic ∈ LaravelEchoPresenceAdapter.readyChannels (this w))).
  - by rewrite (presence_publish_ready _ _ ch).
  - by rewrite (presence_publish_pending _ _ ch).
Qed.

Lemma presence_publishes_callbacks topic ds (w : LaravelEchoPresenceAdapter.W) :
  LaravelEchoPresenceAdapter.callbacks
    (this (exec (forEach ds (LaravelEchoPresenceAdapter.publish topic)) w)) =
  LaravelEchoPresenceAdapter.callbacks (this w).
Proof.
  apply (forEach_keeps
           (fun w' => LaravelEchoPresenceAdapter.callbacks (this w') =
                      LaravelEchoPresenceAdapter.callbacks (this w))); [|done].
  intros d w' <-. apply presence_publish_callbacks.
Qed.

(** X6: on the presence adapter, for a topic that is bound and not ready
    and an [onSubscribed] hook that is [null] or a function, publishes send
    nothing; the ready signal then first calls [onSubscribed] with the
    channel name (when it is a function) and only after that whispers what
    was queued followed by the new payloads, in order and once each; the
    queue of the topic is gone afterwards and the topic is ready. *)
Theorem presence_ready_signal_calls_the_hook_then_flushes
    (w : LaravelEchoPresenceAdapter.W) (topic : string) (channel : Channel)
    (ds : list JsValue) :
  PresenceCallbacks.hook_typed
    (PresenceCallbacks.onSubscribed (LaravelEchoPresenceAdapter.callbacks (this w))) ->
  JsMap.get topic (LaravelEchoPresenceAdapter.channels (this w)) = Some channel ->
  topic ∉ LaravelEchoPresenceAdapter.readyChannels (this w) ->
  let w1 := exec (forEach ds (LaravelEchoPresenceAdapter.publish topic)) w in
  let w2 := exec (LaravelEchoPresenceAdapter.subscribed_handler topic channel) w1 in
  completion_of (forEach ds (LaravelEchoPresenceAdapter.publish topic)) w = Normal tt /\
  effects w1 = effects w /\
  completion_of (LaravelEchoPresenceAdapter.subscribed_handler topic channel) w1 = Normal tt /\
  effects w2 =
    effects w ++
    hook_calls (PresenceCallbacks.onSubscribed (LaravelEchoPresenceAdapter.callbacks (this w)))
      (fun f => HookSubscribed f (LaravelEchoPresenceAdapter._getChannelName topic)) ++
    map (ChannelWhisper channel "signaling")
        (default [] (LaravelEchoPresenceAdapter.messageQueue (this w) !! topic) ++ ds) /\
  LaravelEchoPresenceAdapter.messageQueue (this w2) !! topic = None /\
  topic ∈ LaravelEchoPresenceAdapter.readyChannels (this w2).
Proof.
  intros Hh Hb Hr w1 w2.
  destruct (presence_publishes_pending topic channel ds w Hb Hr) as (Hc & Hch & Hrd & He & Hq).
  pose proof (presence_publishes_callbacks topic ds w) as Hcb.
  fold w1 in Hch, Hrd, He, Hq, Hcb.
  assert (PresenceCallbacks.hook_typed
            (PresenceCallbacks.onSubscribed (LaravelEchoPresenceAdapter.callbacks (this w1))))
    as Hh1 by by rewrite Hcb.
  subst w2. unfold completion_of at 2. unfold exec at 1 2 3.
  rewrite presence_subscribed_exec by done. simpl. rewrite Hq, He, Hcb.
  split_and!; try done.
  - apply lookup_delete_eq.
  - apply elem_of_union_l. by apply elem_of_singleton.
Qed.

Lemma presence_ready_signal_in_the_sample_session :
  effects (exec (LaravelEchoPresenceAdapter.subscribed_handler "room1" room1_channel)
             (exec (forEach [JsString "offer"; JsString "candidate"]
                      (LaravelEchoPresenceAdapter.publish "room1"))
                (exec (LaravelEchoPresenceAdapter.onSubscribed (JsFunction 5))
                   presence_session))) =
    effects presence_session ++
    [HookSubscribed 5 "y-webrtc.room1";
     ChannelWhisper room1_channel "signaling" (JsString "offer");
     ChannelWhisper room1_channel "signaling" (JsString "candidate")].
Proof.
  refine (proj1 (proj2 (proj2 (proj2
    (presence_ready_signal_calls_the_hook_then_flushes
       (exec (LaravelEchoPresenceAdapter.onSubscribed (JsFunction 5)) presence_session)
       "room1" room1_channel [JsString "offer"; JsString "candidate"] _ _ _))))).
  - exact I.
  - reflexivity.
  - apply (bool_decide_eq_false_1 _). vm_compute. reflexivity.
Defined.


(** X7: a ready signal that comes a second time sends nothing again.  On
    [LaravelEchoAdapter] the second run of the handler changes nothing at
    all; on the presence adapter (with [onSubscribed] [null] or a function)
    it calls [onSubscribed] once more and changes nothing else. *)
Theorem a_second_ready_signal_sends_nothing
    (w : LaravelEchoAdapter.W) (w' : LaravelEchoPresenceAdapter.W)
    (topic : string) (channel : Channel) :
  PresenceCallbacks.hook_typed
    (PresenceCallbacks.onSubscribed (LaravelEchoPresenceAdapter.callbacks (this w'))) ->
  (let w1 := exec (LaravelEchoAdapter.subscribed_handler topic channel) w in
   exec (LaravelEchoAdapter.subscribed_handler topic channel) w1 = w1) /\
  (let w1 := exec (LaravelEchoPresenceAdapter.subscribed_handler topic channel) w' in
   let w2 := exec (LaravelEchoPresenceAdapter.subscribed_handler topic channel) w1 in
   this w2 = this w1 /\
   effects w2 =
     effects w1 ++
     hook_calls (PresenceCallbacks.onSubscribed (LaravelEchoPresenceAdapter.callbacks (this w')))
       (fun f => HookSubscribed f (LaravelEchoPresenceAdapter._getChannelName topic))).
Proof.
  intros Hh. split.
  - intros w1. subst w1. unfold exec. rewrite !echo_subscribed_exec. simpl.
    rewrite lookup_delete_eq. simpl. rewrite add_effects_nil.
    destruct w as [[obs con e chs rdy que sc] efs tms nxt]; simpl.
    unfold set_this, add_effects, LaravelEchoAdapter.with_messageQueue,
      LaravelEchoAdapter.with_readyChannels; simpl.
    f_equal. f_equal; [by rewrite (assoc_L (∪)), (idemp_L (∪)) | by rewrite delete_delete_eq].
  - intros w1 w2. subst w2 w1. unfold exec.
    rewrite (presence_subscribed_exec topic channel w') by done.
    rewrite presence_subscribed_exec by done. simpl.
    rewrite lookup_delete_eq. simpl. rewrite ?app_nil_r. split; [|done].
    destruct w' as [[obs con e chs rdy que sc mem cbs] efs tms nxt]; simpl.
    unfold LaravelEchoPresenceAdapter.with_messageQueue,
      LaravelEchoPresenceAdapter.with_readyChannels; simpl.
    f_equal; [by rewrite (assoc_L (∪)), (idemp_L (∪)) | by rewrite delete_delete_eq].
Qed.

Lemma a_second_ready_signal_in_the_sample_session :
  exec (LaravelEchoAdapter.subscribed_handler "room1" room1_channel)
    (exec (LaravelEchoAdapter.subscribed_handler "room1" room1_channel)
       (exec (LaravelEchoAdapter.publish "room1" (JsString "offer")) echo_session)) =
  exec (LaravelEchoAdapter.subscribed_handler "room1" room1_channel)
    (exec (LaravelEchoAdapter.publish "room1" (JsString "offer")) echo_session).
Proof.
  apply (a_second_ready_signal_sends_nothing
           (exec (LaravelEchoAdapter.publish "room1" (JsString "offer")) echo_session)
           presence_session "room1" room1_channel).
  exact I.
Defined.


(** ** Incoming messages *)

Lemma on_registers (name : string) (f : Listener) (obs : gmap string (list Listener)) :
  f ∈ Observable.listeners name (Observable.on name f obs).
Proof.
  unfold Observable.listeners, Observable.on. rewrite lookup_insert_eq. simpl.
  case_decide; [done|]. apply elem_of_app. right. by apply list_elem_of_singleton.
Qed.

(** X8: a message that arrives on the channel of a topic goes to the
    listeners of [message], each called once with one object
    [{topic, data}], and changes nothing in the adapter; a listener
    registered with [on('message', f)] is among them.  For a whisper [data]
    is the event itself, for a broadcast it is [event.data]; a broadcast
    whose event is [null] or [undefined] throws a TypeError and calls no
    listener. *)
Theorem incoming_messages_reach_the_listeners
    (w : LaravelEchoAdapter.W) (w' : LaravelEchoPresenceAdapter.W)
    (topic : string) (event : JsValue) (f : Listener) :
  (let w0 := exec (LaravelEchoAdapter.on "message" f) w in
   let listeners := Observable.listeners "message" (LaravelEchoAdapter._observers (this w0)) in
   let call data g :=
     ListenerCall g "message"
       [JsObject PlainObject [("topic", JsString topic); ("data", data)]] in
   f ∈ listeners /\
   LaravelEchoAdapter.listenForWhisper_handler topic event w0 =
     (Normal tt, add_effects (map (call event) listeners) w0) /\
   LaravelEchoAdapter.listen_handler topic event w0 =
     match get_prop event "data" with
     | Normal data => (Normal tt, add_effects (map (call data) listeners) w0)
     | Throw e => (Throw e, w0)
     end) /\
  (let w0 := exec (LaravelEchoPresenceAdapter.on "message" f) w' in
   let listeners := Observable.listeners "message" (LaravelEchoPresenceAdapter._observers (this w0)) in
   let call data g :=
     ListenerCall g "message"
       [JsObject PlainObject [("topic", JsString topic); ("data", data)]] in
   f ∈ listeners /\
   LaravelEchoPresenceAdapter.listenForWhisper_handler topic event w0 =
     (Normal tt, add_effects (map (call event) listeners) w0) /\
   LaravelEchoPresenceAdapter.listen_handler topic event w0 =
     match get_prop event "data" with
     | Normal data => (Normal tt, add_effects (map (call data) listeners) w0)
     | Throw e => (Throw e, w0)
     end).
Proof.
  split; intros w0 listeners call; (split; [apply on_registers|]); split.
  - apply echo_emit_exec.
  - unfold LaravelEchoAdapter.listen_handler, bind, lift.
    destruct (get_prop event "data"); [apply echo_emit_exec | done].
  - apply presence_emit_exec.
  - unfold LaravelEchoPresenceAdapter.listen_handler, bind, lift.
    destruct (get_prop event "data"); [apply presence_emit_exec | done].
Qed.


(** ** The hooks of the presence adapter *)

(** X9: each of the fluent setters [onHere], [onJoining], [onLeaving],
    [onError] and [onSubscribed] stores its argument, whatever it is, as the
    hook of its name and changes nothing else: the other four hooks, the rest
    of the adapter object, the effects and the timers are what they were.  So
    a hook set later replaces the one given to the constructor: after a
    setter called with a function [f] the next event of that kind calls [f]
    with the arguments of the event (after the console log, for an error;
    before the flush, for the ready signal), and after a setter called with
    [null] the event calls no hook, for all five events. *)
Theorem a_hook_set_later_is_the_one_called
    (w : LaravelEchoPresenceAdapter.W) (f : nat) (callback : JsValue) (topic : string)
    (members : list PresenceChannelMember) (member : PresenceChannelMember)
    (error : JsValue) (channel : Channel) :
  let name := LaravelEchoPresenceAdapter._getChannelName topic in
  let log :=
    ConsoleError ("LaravelEchoPresenceAdapter: Error subscribing to " +:+ name +:+ ":")
      error in
  let flush :=
    map (ChannelWhisper channel "signaling")
        (default [] (LaravelEchoPresenceAdapter.messageQueue (this w) !! topic)) in
  let hooks := LaravelEchoPresenceAdapter.callbacks (this w) in
  let set_by setter := LaravelEchoPresenceAdapter.callbacks (this (exec setter w)) in
  let kept setter :=
    LaravelEchoPresenceAdapter.with_callbacks (fun _ => hooks) (this (exec setter w)) =
      this w /\
    effects (exec setter w) = effects w /\
    timers (exec setter w) = timers w /\
    next_channel (exec setter w) = next_channel w in
  let after setter handler := effects (exec handler (exec setter w)) in
  set_by (LaravelEchoPresenceAdapter.onHere callback) =
      {| PresenceCallbacks.onHere := callback;
         PresenceCallbacks.onJoining := PresenceCallbacks.onJoining hooks;
         PresenceCallbacks.onLeaving := PresenceCallbacks.onLeaving hooks;
         PresenceCallbacks.onError := PresenceCallbacks.onError hooks;
         PresenceCallbacks.onSubscribed := PresenceCallbacks.onSubscribed hooks |} /\
  kept (LaravelEchoPresenceAdapter.onHere callback) /\
  set_by (LaravelEchoPresenceAdapter.onJoining callback) =
      {| PresenceCallbacks.onHere := PresenceCallbacks.onHere hooks;
         PresenceCallbacks.onJoining := callback;
         PresenceCallbacks.onLeaving := PresenceCallbacks.onLeaving hooks;
         PresenceCallbacks.onError := PresenceCallbacks.onError hooks;
         PresenceCallbacks.onSubscribed := PresenceCallbacks.onSubscribed hooks |} /\
  kept (LaravelEchoPresenceAdapter.onJoining callback) /\
  set_by (LaravelEchoPresenceAdapter.onLeaving callback) =
      {| PresenceCallbacks.onHere := PresenceCallbacks.onHere hooks;
         PresenceCallbacks.onJoining := PresenceCallbacks.onJoining hooks;
         PresenceCallbacks.onLeaving := callback;
         PresenceCallbacks.onError := PresenceCallbacks.onError hooks;
         PresenceCallbacks.onSubscribed := PresenceCallbacks.onSubscribed hooks |} /\
  kept (LaravelEchoPresenceAdapter.onLeaving callback) /\
  set_by (LaravelEchoPresenceAdapter.onError callback) =
      {| PresenceCallbacks.onHere := PresenceCallbacks.onHere hooks;
         PresenceCallbacks.onJoining := PresenceCallbacks.onJoining hooks;
         PresenceCallbacks.onLeaving := PresenceCallbacks.onLeaving hooks;
         PresenceCallbacks.onError := callback;
         PresenceCallbacks.onSubscribed := PresenceCallbacks.onSubscribed hooks |} /\
  kept (LaravelEchoPresenceAdapter.onError callback) /\
  set_by (LaravelEchoPresenceAdapter.onSubscribed callback) =
      {| PresenceCallbacks.onHere := PresenceCallbacks.onHere hooks;
         PresenceCallbacks.onJoining := PresenceCallbacks.onJoining hooks;
         PresenceCallbacks.onLeaving := PresenceCallbacks.onLeaving hooks;
         PresenceCallbacks.onError := PresenceCallbacks.onError hooks;
         PresenceCallbacks.onSubscribed := callback |} /\
  kept (LaravelEchoPresenceAdapter.onSubscribed callback) /\
  after (LaravelEchoPresenceAdapter.onHere (JsFunction f))
        (LaravelEchoPresenceAdapter.here_handler topic members) =
    effects w ++ [HookHere f members] /\
  after (LaravelEchoPresenceAdapter.onJoining (JsFunction f))
        (LaravelEchoPresenceAdapter.joining_handler topic member) =
    effects w ++ [HookJoining f member] /\
  after (LaravelEchoPresenceAdapter.onLeaving (JsFunction f))
        (LaravelEchoPresenceAdapter.leaving_handler topic member) =
    effects w ++ [HookLeaving f member] /\
  after (LaravelEchoPresenceAdapter.onError (JsFunction f))
        (LaravelEchoPresenceAdapter.error_handler name error) =
    effects w ++ [log; HookError f error name] /\
  after (LaravelEchoPresenceAdapter.onSubscribed (JsFunction f))
        (LaravelEchoPresenceAdapter.subscribed_handler topic channel) =
    effects w ++ HookSubscribed f name :: flush /\
  after (LaravelEchoPresenceAdapter.onHere JsNull)
        (LaravelEchoPresenceAdapter.here_handler topic members) = effects w /\
  after (LaravelEchoPresenceAdapter.onJoining JsNull)
        (LaravelEchoPresenceAdapter.joining_handler topic member) = effects w /\
  after (LaravelEchoPresenceAdapter.onLeaving JsNull)
        (LaravelEchoPresenceAdapter.leaving_handler topic member) = effects w /\
  after (LaravelEchoPresenceAdapter.onError JsNull)
        (LaravelEchoPresenceAdapter.error_handler name error) = effects w ++ [log] /\
  after (LaravelEchoPresenceAdapter.onSubscribed JsNull)
        (LaravelEchoPresenceAdapter.subscribed_handler topic channel) = effects w ++ flush.
Proof.
  intros name log flush hooks set_by kept after.
  subst after kept set_by hooks flush log. cbv beta.
  rewrite !presence_here_exec, !presence_joining_exec, !presence_leaving_exec,
    !presence_error_exec.
  destruct w as [[obs con e chs rdy que sc mem [h1 h2 h3 h4 h5]] efs tms nxt].
  split_and!; try (simpl; rewrite ?app_nil_r; done).
  - unfold exec. rewrite presence_subscribed_exec by done. simpl. done.
  - unfold exec. rewrite presence_subscribed_exec by done. simpl. done.
Qed.

(** X10: [new LaravelEchoPresenceAdapter(echoInstance, callbacks)] throws a
    TypeError when [callbacks] is [null].  For any other [callbacks] it
    returns an adapter on [echoInstance] that is not connected and has no
    binding, ready topic, queue or roster, and each of its five hooks is the
    property of that name of the callbacks object when that property is
    truthy and [null] otherwise; with [callbacks] left out, or not an object,
    all five hooks are [null]. *)
Theorem presence_constructor_installs_the_given_hooks
    (echoInstance callbacks : JsValue) :
  callbacks <> JsNull ->
  LaravelEchoPresenceAdapter.constructor echoInstance JsNull =
    Throw (JsTypeError "Cannot read properties of null (reading 'onHere')") /\
  exists a,
    LaravelEchoPresenceAdapter.constructor echoInstance callbacks = Normal a /\
    LaravelEchoPresenceAdapter.echo a = echoInstance /\
    LaravelEchoPresenceAdapter.connected a = false /\
    LaravelEchoPresenceAdapter.shouldConnect a = false /\
    LaravelEchoPresenceAdapter.channels a = [] /\
    LaravelEchoPresenceAdapter.readyChannels a = ∅ /\
    LaravelEchoPresenceAdapter.messageQueue a = ∅ /\
    LaravelEchoPresenceAdapter.presenceMembers a = ∅ /\
    let given k :=
      match callbacks with
      | JsObject _ props => if truthy (own_property k props) then own_property k props
                            else JsNull
      | _ => JsNull
      end in
    LaravelEchoPresenceAdapter.callbacks a =
      {| PresenceCallbacks.onHere := given "onHere";
         PresenceCallbacks.onJoining := given "onJoining";
         PresenceCallbacks.onLeaving := given "onLeaving";
         PresenceCallbacks.onError := given "onError";
         PresenceCallbacks.onSubscribed := given "onSubscribed" |}.
Proof.
  intros Hn. split; [done|].
  destruct callbacks; try done; eexists; split_and!; reflexivity.
Qed.

Lemma presence_constructor_with_one_hook :
  exists a,
    LaravelEchoPresenceAdapter.constructor sample_echo
      (JsObject PlainObject [("onLeaving", JsFunction 3); ("onHere", JsBoolean false)]) =
      Normal a /\
    PresenceCallbacks.onLeaving (LaravelEchoPresenceAdapter.callbacks a) = JsFunction 3 /\
    PresenceCallbacks.onHere (LaravelEchoPresenceAdapter.callbacks a) = JsNull.
Proof.
  destruct (presence_constructor_installs_the_given_hooks sample_echo
              (JsObject PlainObject [("onLeaving", JsFunction 3); ("onHere", JsBoolean false)]))
    as (_ & a & Ha & _ & _ & _ & _ & _ & _ & _ & Hc); [done|].
  exists a. split; [exact Ha|]. rewrite Hc. split; reflexivity.
Defined.


(** ** [DefaultSignalingAdapter] *)

Section DefaultAdapterFacts.
Import DefaultSignalingAdapterMethods.
Implicit Types w : W.

Lemma default_emit_exec name args w :
  emit name args w =
    (Normal tt,
     add_effects (map (fun f => ListenerCall f name args)
                    (Observable.listeners name
                       (DefaultSignalingAdapter._observers (adapter (this w))))) w).
Proof. apply (emit_spec (fun h => DefaultSignalingAdapter._observers (adapter h))). Qed.

Lemma default_send_exec frame w :
  send_if_connected frame w =
    (Normal tt,
     match DefaultSignalingAdapter.ws (adapter (this w)),
           DefaultSignalingAdapter.connected (adapter (this w)) with
     | Some s, true =>
         set_this (fun h => {| adapter := adapter h;
                               socket_calls := socket_calls h ++ [WsSend s frame] |}) w
     | _, _ => w
     end).
Proof.
  unfold send_if_connected, bind, gets.
  destruct (DefaultSignalingAdapter.ws _) as [s|]; [|done].
  by destruct (DefaultSignalingAdapter.connected _).
Qed.

Lemma default_disconnect_exec w :
  disconnect w =
    (Normal tt,
     {| this :=
          {| adapter := with_connected false (with_ws None (adapter (this w)));
             socket_calls :=
               socket_calls (this w) ++
               match DefaultSignalingAdapter.ws (adapter (this w)) with
               | Some s => [WsDisconnect s]
               | None => []
               end |};
        effects := effects w; timers := timers w; next_channel := next_channel w |}).
Proof.
  unfold disconnect, bind, gets, modify, socket, set_this, set_adapter.
  destruct w as [[[obs con [s|] u] calls] efs tms nxt]; simpl; [done|].
  by rewrite app_nil_r.
Qed.

Lemma default_connect_exec url w :
  connect url w =
    (Normal tt,
     {| this :=
          {| adapter :=
               {| DefaultSignalingAdapter._observers :=
                    DefaultSignalingAdapter._observers (adapter (this w));
                  DefaultSignalingAdapter.connected :=
                    match DefaultSignalingAdapter.ws (adapter (this w)) with
                    | Some _ => false
                    | None => DefaultSignalingAdapter.connected (adapter (this w))
                    end;
                  DefaultSignalingAdapter.ws := Some (next_channel w);
                  DefaultSignalingAdapter.url := url |};
             socket_calls :=
               socket_calls (this w) ++
               match DefaultSignalingAdapter.ws (adapter (this w)) with
               | Some s => [WsDisconnect s]
               | None => []
               end ++
               [NewWebsocketClient (next_channel w) url;
                WsOn (next_channel w) "connect";
                WsOn (next_channel w) "disconnect";
                WsOn (next_channel w) "message"] |};
        effects := effects w; timers := timers w;
        next_channel := S (next_channel w) |}).
Proof.
  unfold connect. unfold bind at 1 2, gets.
  destruct (DefaultSignalingAdapter.ws (adapter (this w))) as [s|] eqn:Hs.
  - rewrite default_disconnect_exec, Hs.
    unfold bind, modify, new_WebsocketClient, socket, set_this, set_adapter; simpl.
    unfold modify; simpl. by rewrite <- !app_assoc.
  - unfold bind, ret, modify, new_WebsocketClient, socket, set_this, set_adapter; simpl.
    unfold modify; simpl. by rewrite <- !app_assoc.
Qed.
End DefaultAdapterFacts.


(** X11: while [DefaultSignalingAdapter] has no socket or is not
    connected, [subscribe], [unsubscribe] and [publish] return normally and do
    nothing: no frame is sent and nothing is kept to be sent later. *)
Theorem default_adapter_drops_what_it_cannot_send
    (w : DefaultSignalingAdapterMethods.W) (topics : list string)
    (topic : string) (data : JsValue) :
  DefaultSignalingAdapter.ws (DefaultSignalingAdapterMethods.adapter (this w)) = None \/
  DefaultSignalingAdapter.connected (DefaultSignalingAdapterMethods.adapter (this w)) = false ->
  DefaultSignalingAdapterMethods.subscribe topics w = (Normal tt, w) /\
  DefaultSignalingAdapterMethods.unsubscribe topics w = (Normal tt, w) /\
  DefaultSignalingAdapterMethods.publish topic data w = (Normal tt, w).
Proof.
  intros H.
  unfold DefaultSignalingAdapterMethods.subscribe, DefaultSignalingAdapterMethods.unsubscribe,
    DefaultSignalingAdapterMethods.publish.
  rewrite !default_send_exec.
  destruct H as [-> | ->]; [done|].
  by destruct (DefaultSignalingAdapter.ws _).
Qed.

Lemma default_adapter_publish_before_the_socket_connects :
  let w := exec (DefaultSignalingAdapterMethods.connect "wss://signaling")
             DefaultSignalingAdapterMethods.initial in
  DefaultSignalingAdapterMethods.publish "room1" (JsString "offer") w = (Normal tt, w).
Proof.
  intros w.
  apply (default_adapter_drops_what_it_cannot_send w [] "room1" (JsString "offer")).
  by right.
Defined.

(** X12: [connect(url)] on [DefaultSignalingAdapter], in any state: when
    there is a socket it is disconnected first and [connected] becomes false;
    then the url is stored, one new socket client is created for it and the
    three handlers are registered on it, and no listener is called.  When the
    new socket reports [connect], [connected] becomes true and the listeners
    of [connect] are called at once; from then on [subscribe], [unsubscribe]
    and [publish] each send exactly one frame, on that socket, carrying their
    arguments. *)
Theorem default_adapter_sends_on_the_connected_socket
    (w : DefaultSignalingAdapterMethods.W) (url : string) (topics : list string)
    (topic : string) (data : JsValue) :
  let calls w := DefaultSignalingAdapterMethods.socket_calls (this w) in
  let fields w := DefaultSignalingAdapterMethods.adapter (this w) in
  let ws := next_channel w in
  let w1 := exec (DefaultSignalingAdapterMethods.connect url) w in
  let w2 := exec DefaultSignalingAdapterMethods.ws_connect_handler w1 in
  completion_of (DefaultSignalingAdapterMethods.connect url) w = Normal tt /\
  calls w1 =
    calls w ++
    match DefaultSignalingAdapter.ws (fields w) with
    | Some old => [WsDisconnect old]
    | None => []
    end ++
    [NewWebsocketClient ws url; WsOn ws "connect"; WsOn ws "disconnect"; WsOn ws "message"] /\
  DefaultSignalingAdapter.ws (fields w1) = Some ws /\
  DefaultSignalingAdapter.url (fields w1) = url /\
  (DefaultSignalingAdapter.connected (fields w1) =
     match DefaultSignalingAdapter.ws (fields w) with
     | Some _ => false
     | None => DefaultSignalingAdapter.connected (fields w)
     end) /\
  effects w1 = effects w /\
  DefaultSignalingAdapter.connected (fields w2) = true /\
  effects w2 =
    effects w ++
    map (fun f => ListenerCall f "connect" [])
        (Observable.listeners "connect" (DefaultSignalingAdapter._observers (fields w))) /\
  calls (exec (DefaultSignalingAdapterMethods.subscribe topics) w2) =
    calls w1 ++ [WsSend ws (TopicsFrame "subscribe" topics)] /\
  calls (exec (DefaultSignalingAdapterMethods.unsubscribe topics) w2) =
    calls w1 ++ [WsSend ws (TopicsFrame "unsubscribe" topics)] /\
  calls (exec (DefaultSignalingAdapterMethods.publish topic data) w2) =
    calls w1 ++ [WsSend ws (PublishFrame topic data)].
Proof.
  intros calls fields ws w1 w2. subst calls fields ws w2 w1.
  unfold completion_of, exec, DefaultSignalingAdapterMethods.ws_connect_handler,
    DefaultSignalingAdapterMethods.subscribe, DefaultSignalingAdapterMethods.unsubscribe,
    DefaultSignalingAdapterMethods.publish.
  rewrite default_connect_exec. unfold bind, modify. cbn beta iota.
  rewrite default_emit_exec. cbn [fst snd]. rewrite !default_send_exec. simpl.
  by split_and!.
Qed.


(** X13: the [message] handler of [DefaultSignalingAdapter] forwards
    publish frames only.  For an object whose [type] is ['publish'] the
    listeners of [message] are each called once with
    [{topic: message.topic, data: message.data}]; for an object of any other
    type, and for a message that is no object, no listener is called; a
    [null] or [undefined] message throws a TypeError.  The adapter is never
    changed.  So a frame sent by [publish(topic, data)] and relayed unchanged
    reaches the listeners of the receiving adapter as [{topic, data}]. *)
Theorem default_adapter_forwards_publish_frames_only
    (w : DefaultSignalingAdapterMethods.W) (message : JsValue)
    (topic : string) (data : JsValue) :
  let listeners :=
    Observable.listeners "message"
      (DefaultSignalingAdapter._observers (DefaultSignalingAdapterMethods.adapter (this w))) in
  let call t d g :=
    ListenerCall g "message" [JsObject PlainObject [("topic", t); ("data", d)]] in
  DefaultSignalingAdapterMethods.ws_message_handler message w =
    match message with
    | JsUndefined =>
        (Throw (JsTypeError "Cannot read properties of undefined (reading 'type')"), w)
    | JsNull =>
        (Throw (JsTypeError "Cannot read properties of null (reading 'type')"), w)
    | JsObject _ props =>
        if is_string (own_property "type" props) "publish"
        then (Normal tt,
              add_effects
                (map (call (own_property "topic" props) (own_property "data" props))
                     listeners) w)
        else (Normal tt, w)
    | _ => (Normal tt, w)
    end /\
  DefaultSignalingAdapterMethods.ws_message_handler (relayed topic data) w =
    (Normal tt, add_effects (map (call (JsString topic) data) listeners) w).
Proof.
  intros listeners call. split.
  - unfold DefaultSignalingAdapterMethods.ws_message_handler.
    destruct message as [| |b|n|s|f|cls props]; try done.
    unfold bind, lift. simpl. destruct (is_string _ _); [|done].
    apply default_emit_exec.
  - unfold DefaultSignalingAdapterMethods.ws_message_handler, relayed, bind, lift. simpl.
    apply default_emit_exec.
Qed.

(** X14: [disconnect()] on [DefaultSignalingAdapter] returns normally in
    any state; it disconnects the socket when there is one, forgets it and
    sets [connected] to false, and it calls no listener (the [disconnect]
    event comes from the socket's own handler, which sets [connected] to false
    and calls the listeners at once).  A second [disconnect()] changes
    nothing.  If the forgotten socket still reports [connect] afterwards,
    [connected] becomes true again but [publish] sends nothing, since there is
    no socket. *)
Theorem default_adapter_disconnect_is_silent
    (w : DefaultSignalingAdapterMethods.W) (topic : string) (data : JsValue) :
  let calls w := DefaultSignalingAdapterMethods.socket_calls (this w) in
  let fields w := DefaultSignalingAdapterMethods.adapter (this w) in
  let w1 := exec DefaultSignalingAdapterMethods.disconnect w in
  let w2 := exec DefaultSignalingAdapterMethods.ws_connect_handler w1 in
  let w3 := exec DefaultSignalingAdapterMethods.ws_disconnect_handler w in
  completion_of DefaultSignalingAdapterMethods.disconnect w = Normal tt /\
  calls w1 =
    calls w ++
    match DefaultSignalingAdapter.ws (fields w) with
    | Some s => [WsDisconnect s]
    | None => []
    end /\
  DefaultSignalingAdapter.ws (fields w1) = None /\
  DefaultSignalingAdapter.connected (fields w1) = false /\
  effects w1 = effects w /\
  exec DefaultSignalingAdapterMethods.disconnect w1 = w1 /\
  DefaultSignalingAdapter.connected (fields w2) = true /\
  exec (DefaultSignalingAdapterMethods.publish topic data) w2 = w2 /\
  DefaultSignalingAdapter.connected (fields w3) = false /\
  effects w3 =
    effects w ++
    map (fun f => ListenerCall f "disconnect" [])
        (Observable.listeners "disconnect" (DefaultSignalingAdapter._observers (fields w))).
Proof.
  intros calls fields w1 w2 w3. subst calls fields w3 w2 w1.
  unfold completion_of, exec, DefaultSignalingAdapterMethods.ws_connect_handler,
    DefaultSignalingAdapterMethods.ws_disconnect_handler,
    DefaultSignalingAdapterMethods.publish.
  rewrite !default_disconnect_exec. unfold bind, modify. cbn beta iota.
  rewrite !default_emit_exec. cbn [fst snd]. rewrite !default_send_exec. simpl.
  rewrite app_nil_r. by split_and!.
Qed.


(** ** The factory, again *)

(** X15: the two states of the factory differ on the ['echo-presence']
    type only: for a plain configuration object of that type the factory
    without presence channels returns a new [DefaultSignalingAdapter] (without
    looking at [echo] or [callbacks], so it never throws there), and for every
    other configuration the two return the same adapter or throw the same
    error. *)
Theorem the_factories_differ_on_the_presence_type_only (config : JsValue) :
  EchoOnlyFactory.createSignalingAdapter config =
    if names_presence_adapter config
    then Normal (NewDefaultSignalingAdapter DefaultSignalingAdapter.constructor)
    else createSignalingAdapter config.
Proof.
  destruct config as [| |b|n|s|f|cls props]; try done.
  rewrite factory_object. destruct cls; [|done].
  unfold EchoOnlyFactory.createSignalingAdapter, names_presence_adapter. simpl.
  destruct (is_string _ "echo") eqn:He; simpl.
  - apply is_string_spec in He. rewrite He. simpl. by destruct (truthy _).
  - by destruct (is_string _ "echo-presence").
Qed.

(** X16: an adapter instance given to the factory comes back as it is,
    whatever properties it has (no [type] or [echo] is looked at, nothing is
    thrown); a string gives a new [DefaultSignalingAdapter] that does not keep
    the string: its url is empty and it has no socket, and the first socket is
    created for the url given to [connect]. *)
Theorem the_factory_passes_adapters_through_and_ignores_the_url
    (props : list (string * JsValue)) (s url : string) :
  createSignalingAdapter (JsObject SignalingAdapterInstance props) =
    Normal (GivenInstance (JsObject SignalingAdapterInstance props)) /\
  createSignalingAdapter (JsString s) =
    Normal (NewDefaultSignalingAdapter DefaultSignalingAdapter.constructor) /\
  DefaultSignalingAdapter.url DefaultSignalingAdapter.constructor = "" /\
  DefaultSignalingAdapter.ws DefaultSignalingAdapter.constructor = None /\
  DefaultSignalingAdapterMethods.socket_calls
    (this (exec (DefaultSignalingAdapterMethods.connect url)
             DefaultSignalingAdapterMethods.initial)) =
    [NewWebsocketClient 0 url; WsOn 0 "connect"; WsOn 0 "disconnect"; WsOn 0 "message"].
Proof.
  by split_and!.
Qed.


(** ** After [destroy] *)

Section EchoSilence.
Import LaravelEchoAdapter.
Implicit Types w : W.

Lemma echo_run_timers_silent n w :
  _observers (this w) = ∅ ->
  effects (exec (run_timers n) w) = effects w /\
  this (exec (run_timers n) w) = this w /\
  completion_of (run_timers n) w = Normal tt.
Proof.
  revert w. induction n as [|n IH]; intros w Ho; [done|].
  simpl. unfold completion_of, exec, bind in *.
  destruct (timers w) as [|[name args] rest] eqn:Ht.
  - unfold run_timer, bind, gets. rewrite Ht. simpl. by apply IH.
  - rewrite (echo_run_timer_exec name args rest) by done.
    match goal with |- context [run_timers n ?w0] => set (w1 := w0) end.
    assert (_observers (this w1) = ∅) as Ho1 by done.
    destruct (IH w1 Ho1) as (He & Hth & Hc). split_and!; try done.
    rewrite He. simpl. unfold emissions, Observable.listeners. simpl.
    rewrite Ho, lookup_empty. simpl. by rewrite app_nil_r.
Qed.
End EchoSilence.

Section PresenceSilence.
Import LaravelEchoPresenceAdapter.
Implicit Types w : W.

Lemma presence_run_timers_silent n w :
  _observers (this w) = ∅ ->
  effects (exec (run_timers n) w) = effects w /\
  this (exec (run_timers n) w) = this w /\
  completion_of (run_timers n) w = Normal tt.
Proof.
  revert w. induction n as [|n IH]; intros w Ho; [done|].
  simpl. unfold completion_of, exec, bind in *.
  destruct (timers w) as [|[name args] rest] eqn:Ht.
  - unfold run_timer, bind, gets. rewrite Ht. simpl. by apply IH.
  - rewrite (presence_run_timer_exec name args rest) by done.
    match goal with |- context [run_timers n ?w0] => set (w1 := w0) end.
    assert (_observers (this w1) = ∅) as Ho1 by done.
    destruct (IH w1 Ho1) as (He & Hth & Hc). split_and!; try done.
    rewrite He. simpl. unfold emissions, Observable.listeners. simpl.
    rewrite Ho, lookup_empty. simpl. by rewrite app_nil_r.
Qed.
End PresenceSilence.

(** X17: after [destroy()], in every reachable state of either adapter,
    no listener is registered any more.  The tasks that [connect] left in the
    timer queue are still there, but when they run they call nobody, and a
    message that still arrives on a channel calls nobody either. *)
Theorem nothing_is_emitted_after_destroy
    (w : LaravelEchoAdapter.W) (w' : LaravelEchoPresenceAdapter.W) :
  LaravelEchoAdapter.reachable w ->
  LaravelEchoPresenceAdapter.reachable w' ->
  (let w1 := exec LaravelEchoAdapter.destroy w in
   LaravelEchoAdapter._observers (this w1) = ∅ /\
   timers w1 = timers w /\
   (forall n, effects (exec (LaravelEchoAdapter.run_timers n) w1) = effects w1) /\
   (forall topic event,
      effects (exec (LaravelEchoAdapter.listenForWhisper_handler topic event) w1) = effects w1) /\
   (forall topic event,
      effects (exec (LaravelEchoAdapter.listen_handler topic event) w1) = effects w1)) /\
  (let w1 := exec LaravelEchoPresenceAdapter.destroy w' in
   LaravelEchoPresenceAdapter._observers (this w1) = ∅ /\
   timers w1 = timers w' /\
   (forall n, effects (exec (LaravelEchoPresenceAdapter.run_timers n) w1) = effects w1) /\
   (forall topic event,
      effects (exec (LaravelEchoPresenceAdapter.listenForWhisper_handler topic event) w1) = effects w1) /\
   (forall topic event,
      effects (exec (LaravelEchoPresenceAdapter.listen_handler topic event) w1) = effects w1)).
Proof.
  intros Hw%echo_reachable_inv Hw'%presence_reachable_inv. split; intros w1; subst w1.
  - unfold exec. rewrite echo_destroy_exec by done. cbn [snd].
    split_and!; try done.
    + intros n. by apply (echo_run_timers_silent n).
    + intros topic event. unfold LaravelEchoAdapter.listen_handler, bind, lift.
      by destruct (get_prop event "data").
  - unfold exec. rewrite presence_destroy_exec by done. cbn [snd].
    split_and!; try done.
    + intros n. by apply (presence_run_timers_silent n).
    + intros topic event. unfold LaravelEchoPresenceAdapter.listen_handler, bind, lift.
      by destruct (get_prop event "data").
Qed.

Lemma a_connect_event_after_destroy_reaches_nobody :
  let w := exec (LaravelEchoAdapter.run (LaravelEchoAdapter.Call_on "connect" 4))
             echo_session in
  timers (exec LaravelEchoAdapter.destroy w) = [EmitTask "connect" []] /\
  effects (exec (LaravelEchoAdapter.run_timers 1) (exec LaravelEchoAdapter.destroy w)) =
    effects (exec LaravelEchoAdapter.destroy w).
Proof.
  intros w.
  assert (LaravelEchoAdapter.reachable w) as Hw
    by (apply LaravelEchoAdapter.reachable_step;
        [exact echo_session_reachable | exact I]).
  pose proof (nothing_is_emitted_after_destroy w presence_session Hw
                presence_session_reachable) as [(_ & Ht & Hn & _) _].
  split; [exact Ht | exact (Hn 1)].
Defined.


(** ** No call throws *)

Lemma get_prop_defined (event : JsValue) (k : string) :
  event <> JsNull -> event <> JsUndefined -> exists v, get_prop event k = Normal v.
Proof. destruct event; simpl; try done; eauto. Qed.

Lemma echo_publish_returns topic data (w : LaravelEchoAdapter.W) :
  completion_of (LaravelEchoAdapter.publish topic data) w = Normal tt.
Proof.
  unfold completion_of.
  destruct (JsMap.get topic (LaravelEchoAdapter.channels (this w))) as [ch|] eqn:Hb;
    [|by rewrite echo_publish_unbound].
  destruct (decide (topic ∈ LaravelEchoAdapter.readyChannels (this w))).
  - by rewrite (echo_publish_ready _ _ ch).
  - by rewrite (echo_publish_pending _ _ ch).
Qed.

Lemma presence_publish_returns topic data (w : LaravelEchoPresenceAdapter.W) :
  completion_of (LaravelEchoPresenceAdapter.publish topic data) w = Normal tt.
Proof.
  unfold completion_of.
  destruct (JsMap.get topic (LaravelEchoPresenceAdapter.channels (this w))) as [ch|] eqn:Hb;
    [|by rewrite presence_publish_unbound].
  destruct (decide (topic ∈ LaravelEchoPresenceAdapter.readyChannels (this w))).
  - by rewrite (presence_publish_ready _ _ ch).
  - by rewrite (presence_publish_pending _ _ ch).
Qed.

Lemma echo_subscribe_returns topics (w : LaravelEchoAdapter.W) :
  completion_of (LaravelEchoAdapter.subscribe topics) w = Normal tt.
Proof.
  unfold completion_of. rewrite echo_subscribe_unfold.
  destruct (LaravelEchoAdapter.shouldConnect (this w)); [|done].
  destruct (truthy (LaravelEchoAdapter.echo (this w))) eqn:He; [|done]. simpl.
  by destruct (echo_subscribe_loop topics w He) as [? _].
Qed.

Lemma presence_subscribe_returns topics (w : LaravelEchoPresenceAdapter.W) :
  completion_of (LaravelEchoPresenceAdapter.subscribe topics) w = Normal tt.
Proof.
  unfold completion_of. rewrite presence_subscribe_unfold.
  destruct (LaravelEchoPresenceAdapter.shouldConnect (this w)); [|done].
  destruct (truthy (LaravelEchoPresenceAdapter.echo (this w))) eqn:He; [|done]. simpl.
  by destruct (presence_subscribe_loop topics w He) as [? _].
Qed.

Lemma echo_step_returns a (w : LaravelEchoAdapter.W) :
  echo_inv (this w) ->
  match a with
  | LaravelEchoAdapter.Transport_listen _ event => event <> JsNull /\ event <> JsUndefined
  | _ => True
  end ->
  completion_of (LaravelEchoAdapter.run a) w = Normal tt.
Proof.
  intros H Ha. destruct a; simpl; try done.
  - unfold completion_of. by rewrite echo_disconnect_exec.
  - apply echo_subscribe_returns.
  - by destruct (echo_unsubscribe_loop topics w H) as [? _].
  - apply echo_publish_returns.
  - unfold completion_of. by rewrite echo_destroy_exec.
  - unfold completion_of. by rewrite echo_subscribed_exec.
  - destruct Ha as [H1 H2]. destruct (get_prop_defined event "data" H1 H2) as [v Hv].
    unfold completion_of, LaravelEchoAdapter.listen_handler, bind, lift. rewrite Hv.
    by rewrite echo_emit_exec.
  - unfold completion_of, LaravelEchoAdapter.listenForWhisper_handler.
    by rewrite echo_emit_exec.
  - unfold completion_of, LaravelEchoAdapter.run_timer, bind, gets, modify.
    destruct (timers w) as [|[name args] rest]; [done|]. by rewrite echo_emit_exec.
Qed.

Lemma presence_step_returns a (w : LaravelEchoPresenceAdapter.W) :
  presence_inv (this w) ->
  match a with
  | LaravelEchoPresenceAdapter.Transport_listen _ event =>
      event <> JsNull /\ event <> JsUndefined
  | _ => True
  end ->
  completion_of (LaravelEchoPresenceAdapter.run a) w = Normal tt.
Proof.
  intros H Ha. pose proof (hooks_typed _ H) as (Hh1 & Hh2 & Hh3 & Hh4 & Hh5).
  destruct a; simpl; try done.
  - unfold completion_of. by rewrite presence_disconnect_exec.
  - apply presence_subscribe_returns.
  - by destruct (presence_unsubscribe_loop topics w H) as [? _].
  - apply presence_publish_returns.
  - unfold completion_of. by rewrite presence_destroy_exec.
  - unfold completion_of, LaravelEchoPresenceAdapter.here_handler, bind, modify, gets.
    simpl. by rewrite call_hook_typed.
  - unfold completion_of, LaravelEchoPresenceAdapter.joining_handler, bind, modify, gets.
    simpl. by rewrite call_hook_typed.
  - unfold completion_of, LaravelEchoPresenceAdapter.leaving_handler, bind, modify, gets.
    simpl. by rewrite call_hook_typed.
  - unfold completion_of. by rewrite presence_subscribed_exec.
  - unfold completion_of, LaravelEchoPresenceAdapter.error_handler, bind, perform,
      modify, gets. simpl. by rewrite call_hook_typed.
  - destruct Ha as [H1 H2]. destruct (get_prop_defined event "data" H1 H2) as [v Hv].
    unfold completion_of, LaravelEchoPresenceAdapter.listen_handler, bind, lift. rewrite Hv.
    by rewrite presence_emit_exec.
  - unfold completion_of, LaravelEchoPresenceAdapter.listenForWhisper_handler.
    by rewrite presence_emit_exec.
  - unfold completion_of, LaravelEchoPresenceAdapter.run_timer, bind, gets, modify.
    destruct (timers w) as [|[name args] rest]; [done|]. by rewrite presence_emit_exec.
Qed.

(** X18: in a reachable state of either adapter no call of the owner
    ([on], [connect], [disconnect], [subscribe], [unsubscribe], [publish],
    [destroy] and the hook setters), no callback of the transport and no
    timer task throws, but for one case: the handler of a ['.signaling']
    broadcast reads [event.data] and so needs an event that is neither [null]
    nor [undefined].  (The hooks are [null] or functions that return.) *)
Theorem no_call_throws_in_a_reachable_state
    (w : LaravelEchoAdapter.W) (a : LaravelEchoAdapter.Action)
    (w' : LaravelEchoPresenceAdapter.W) (a' : LaravelEchoPresenceAdapter.Action) :
  LaravelEchoAdapter.reachable w ->
  LaravelEchoPresenceAdapter.reachable w' ->
  match a with
  | LaravelEchoAdapter.Transport_listen _ event => event <> JsNull /\ event <> JsUndefined
  | _ => True
  end ->
  match a' with
  | LaravelEchoPresenceAdapter.Transport_listen _ event =>
      event <> JsNull /\ event <> JsUndefined
  | _ => True
  end ->
  completion_of (LaravelEchoAdapter.run a) w = Normal tt /\
  completion_of (LaravelEchoPresenceAdapter.run a') w' = Normal tt.
Proof.
  intros Hw%echo_reachable_inv Hw'%presence_reachable_inv Ha Ha'. split.
  - by apply echo_step_returns.
  - by apply presence_step_returns.
Qed.

Lemma unsubscribe_and_destroy_return_in_the_sample_sessions :
  completion_of (LaravelEchoAdapter.run (LaravelEchoAdapter.Call_unsubscribe ["room1"]))
    echo_session = Normal tt /\
  completion_of (LaravelEchoPresenceAdapter.run LaravelEchoPresenceAdapter.Call_destroy)
    presence_session = Normal tt.
Proof.
  apply (no_call_throws_in_a_reachable_state
           echo_session (LaravelEchoAdapter.Call_unsubscribe ["room1"])
           presence_session LaravelEchoPresenceAdapter.Call_destroy
           echo_session_reachable presence_session_reachable I I).
Defined.


(** ** Publishes that wait for the ready signal, across other calls *)

Lemma getChannelName_inj t1 t2 :
  LaravelEchoAdapter._getChannelName t1 = LaravelEchoAdapter._getChannelName t2 -> t1 = t2.
Proof.
  unfold LaravelEchoAdapter._getChannelName. apply (inj (String.app "y-webrtc.")).
Qed.

Lemma whispered_on_app ch es es' :
  whispered_on ch (es ++ es') = whispered_on ch es ++ whispered_on ch es'.
Proof. apply omap_app. Qed.

Lemma whispered_on_cons ch ch' d es :
  whispered_on ch (ChannelWhisper ch' "signaling" d :: es) =
    if decide (chan_id ch' = chan_id ch /\ chan_name ch' = chan_name ch)
    then d :: whispered_on ch es else whispered_on ch es.
Proof. unfold whispered_on. cbn [omap list_omap]. by destruct (decide _). Qed.

Lemma whispered_on_same ch ds :
  whispered_on ch (map (ChannelWhisper ch "signaling") ds) = ds.
Proof.
  induction ds as [|d ds IH]; [done|]. cbn [map].
  by rewrite whispered_on_cons, decide_True, IH.
Qed.

Lemma whispered_on_other ch ch' ds :
  chan_name ch' <> chan_name ch ->
  whispered_on ch (map (ChannelWhisper ch' "signaling") ds) = [].
Proof.
  intros Hne. induction ds as [|d ds IH]; [done|]. cbn [map].
  by rewrite whispered_on_cons, decide_False by by intros [_ ?].
Qed.

Lemma whispered_on_calls ch name args (fs : list Listener) :
  whispered_on ch (map (fun f => ListenerCall f name args) fs) = [].
Proof. by induction fs. Qed.

Lemma whispered_on_leaves ch (chs : JsMap.t Channel) :
  whispered_on ch (leave_all chs) = [].
Proof. by induction chs. Qed.

Lemma channel_names_set topic (chs : JsMap.t Channel) id :
  channel_names chs ->
  channel_names
    (JsMap.set topic {| chan_id := id; chan_name := LaravelEchoAdapter._getChannelName topic |}
       chs).
Proof.
  intros H t ch. destruct (decide (topic = t)) as [<-|Hne].
  - rewrite JsMap_get_set_eq. by intros [= <-].
  - rewrite JsMap_get_set_ne by done. apply H.
Qed.

Lemma channel_names_delete topic (chs : JsMap.t Channel) :
  channel_names chs -> channel_names (JsMap.delete topic chs).
Proof.
  intros H t ch. destruct (decide (topic = t)) as [<-|Hne].
  - by rewrite JsMap_get_delete_eq.
  - rewrite JsMap_get_delete_ne by done. apply H.
Qed.

Section EchoWhispers.
Import LaravelEchoAdapter.
Implicit Types w : W.

Lemma echo_subscribe_loop_whispers ch topics w :
  truthy (echo (this w)) = true ->
  channel_names (channels (this w)) ->
  channel_names (channels (this (exec (forEach topics echo_subscribe_topic) w))) /\
  whispered_on ch (effects (exec (forEach topics echo_subscribe_topic) w)) =
    whispered_on ch (effects w).
Proof.
  revert w. induction topics as [|topic topics IH]; intros w He Hn; [done|].
  simpl. unfold exec, bind in *. rewrite echo_subscribe_topic_exec by done.
  destruct (JsMap.has topic (channels (this w))); [by apply IH|].
  match goal with |- context [forEach topics _ ?w0] => set (wb := w0) end.
  destruct (IH wb) as [Hn1 Hw1]; [done | by apply channel_names_set |].
  split; [done|]. rewrite Hw1. unfold wb. simpl.
  rewrite whispered_on_app. simpl. by rewrite app_nil_r.
Qed.

Lemma echo_subscribe_whispers ch topics w :
  channel_names (channels (this w)) ->
  channel_names (channels (this (exec (subscribe topics) w))) /\
  whispered_on ch (effects (exec (subscribe topics) w)) = whispered_on ch (effects w).
Proof.
  intros Hn. unfold exec. rewrite echo_subscribe_unfold.
  destruct (shouldConnect (this w)); [|done].
  destruct (truthy (echo (this w))) eqn:He; [|done]. simpl.
  by apply echo_subscribe_loop_whispers.
Qed.

Lemma echo_unsubscribe_whispers ch topics w :
  echo_inv (this w) ->
  channel_names (channels (this w)) ->
  channel_names (channels (this (exec (unsubscribe topics) w))) /\
  whispered_on ch (effects (exec (unsubscribe topics) w)) = whispered_on ch (effects w).
Proof.
  rewrite echo_unsubscribe_unfold.
  revert w. induction topics as [|topic topics IH]; intros w H Hn; [done|].
  simpl. unfold exec, bind in *. rewrite echo_unsubscribe_topic_exec by done.
  destruct (JsMap.get topic (channels (this w))); [|by apply IH].
  match goal with |- context [forEach topics _ ?w0] => set (wb := w0) end.
  destruct (IH wb) as [Hn1 Hw1];
    [by apply gate_inv_unbind | by apply channel_names_delete |].
  split; [done|]. rewrite Hw1. unfold wb. simpl.
  rewrite whispered_on_app. simpl. by rewrite app_nil_r.
Qed.

Lemma echo_step_names a w :
  echo_inv (this w) -> channel_names (channels (this w)) ->
  channel_names (channels (this (exec (run a) w))).
Proof.
  intros H Hn. destruct a; simpl; try done.
  - unfold exec. by rewrite echo_disconnect_exec.
  - by apply (echo_subscribe_whispers {| chan_id := 0; chan_name := "" |}).
  - by apply (echo_unsubscribe_whispers {| chan_id := 0; chan_name := "" |}).
  - pose proof (echo_publish_inv topic data w H) as _.
    unfold exec.
    destruct (JsMap.get topic (channels (this w))) as [ch|] eqn:Hb;
      [|by rewrite echo_publish_unbound].
    destruct (decide (topic ∈ readyChannels (this w))).
    + by rewrite (echo_publish_ready _ _ ch).
    + by rewrite (echo_publish_pending _ _ ch).
  - unfold exec. by rewrite echo_destroy_exec.
  - unfold exec. by rewrite echo_subscribed_exec.
  - by rewrite echo_listen_this.
  - by rewrite echo_whisper_this.
  - by rewrite echo_run_timer_this.
Qed.

Lemma echo_reachable_names w : reachable w -> channel_names (channels (this w)).
Proof.
  induction 1 as [e|w a Hw IH Hen]; [done|].
  apply echo_step_names; [by apply echo_reachable_inv | done].
Qed.
End EchoWhispers.


Section EchoPending.
Import LaravelEchoAdapter.
Implicit Types w : W.

Lemma echo_other_channel_name topic t channel ch w :
  channel_names (channels (this w)) ->
  JsMap.get topic (channels (this w)) = Some channel ->
  JsMap.get t (channels (this w)) = Some ch ->
  t <> topic ->
  chan_name ch <> chan_name channel.
Proof.
  intros Hn Hb Hb' Hne. rewrite (Hn _ _ Hb), (Hn _ _ Hb').
  by intros ?%getChannelName_inj.
Qed.

Lemma echo_subscribe_frame topics w :
  this (exec (subscribe topics) w) =
    with_channels (fun _ => channels (this (exec (subscribe topics) w))) (this w) /\
  (forall t ch, JsMap.get t (channels (this w)) = Some ch ->
                JsMap.get t (channels (this (exec (subscribe topics) w))) = Some ch).
Proof.
  unfold exec. rewrite echo_subscribe_unfold.
  destruct (shouldConnect (this w)); [|by destruct w as [[]]].
  destruct (truthy (echo (this w))) eqn:He; [|by destruct w as [[]]]. simpl.
  destruct (echo_subscribe_loop topics w He) as (_ & Hthis & _ & Hkeep & _).
  by split.
Qed.

Lemma published_one topic a :
  published topic [a] =
    match a with
    | Call_publish t d => if decide (t = topic) then [d] else []
    | _ => []
    end.
Proof.
  destruct a; try done. unfold published. cbn [omap list_omap]. by destruct (decide _).
Qed.

Lemma echo_pending_step a w topic channel :
  echo_inv (this w) -> channel_names (channels (this w)) ->
  enabled a w -> keeps_pending topic a = true ->
  JsMap.get topic (channels (this w)) = Some channel ->
  topic ∉ readyChannels (this w) ->
  JsMap.get topic (channels (this (exec (run a) w))) = Some channel /\
  (topic ∉ readyChannels (this (exec (run a) w))) /\
  default [] (messageQueue (this (exec (run a) w)) !! topic) =
    default [] (messageQueue (this w) !! topic) ++ published topic [a] /\
  whispered_on channel (effects (exec (run a) w)) = whispered_on channel (effects w).
Proof.
  intros H Hn Hen Hk Hb Hr. rewrite published_one.
  destruct a; cbn [run keeps_pending enabled] in *; try done.
  - by rewrite app_nil_r.
  - by rewrite app_nil_r.
  - (* subscribe *)
    destruct (echo_subscribe_whispers channel topics w Hn) as [_ Hw].
    destruct (echo_subscribe_frame topics w) as [Hthis Hkeep].
    rewrite app_nil_r. split_and!; try done.
    + by apply Hkeep.
    + rewrite Hthis. simpl. done.
    + rewrite Hthis. simpl. done.
  - (* unsubscribe *)
    apply bool_decide_eq_true_1 in Hk.
    destruct (echo_unsubscribe_whispers channel topics w H Hn) as [_ Hw].
    destruct (echo_unsubscribe_loop topics w H) as (_ & Hg & Hrd & Hq & _).
    rewrite app_nil_r. split_and!; try done.
    + rewrite echo_unsubscribe_unfold, Hg. by rewrite bool_decide_eq_false_2.
    + rewrite echo_unsubscribe_unfold, Hrd. tauto.
    + rewrite echo_unsubscribe_unfold, Hq. by rewrite bool_decide_eq_false_2.
  - (* publish *)
    unfold exec. destruct (decide (topic0 = topic)) as [->|Hne].
    + rewrite (echo_publish_pending _ _ channel) by done. simpl.
      rewrite lookup_insert_eq. done.
    + rewrite app_nil_r.
      destruct (JsMap.get topic0 (channels (this w))) as [ch|] eqn:Hb0;
        [|by rewrite echo_publish_unbound].
      destruct (decide (topic0 ∈ readyChannels (this w))).
      * rewrite (echo_publish_ready _ _ ch) by done. simpl. split_and!; try done.
        rewrite whispered_on_app, whispered_on_cons, decide_False;
          [by rewrite app_nil_r|].
        intros [_ Hname]. revert Hname. by eapply echo_other_channel_name.
      * rewrite (echo_publish_pending _ _ ch) by done. simpl.
        by rewrite lookup_insert_ne.
  - (* the ready signal of another topic *)
    apply bool_decide_eq_true_1 in Hk. unfold exec. rewrite echo_subscribed_exec. simpl.
    rewrite lookup_delete_ne, app_nil_r by done. split_and!; try done.
    + intros [?%elem_of_singleton|?]%elem_of_union; [congruence|done].
    + rewrite whispered_on_app, whispered_on_other; [by rewrite app_nil_r|].
      by eapply echo_other_channel_name.
  - (* error *)
    rewrite app_nil_r. split_and!; try done.
    unfold exec, error_handler, perform, modify. simpl.
    by rewrite whispered_on_app, app_nil_r.
  - (* broadcast *)
    rewrite echo_listen_this, app_nil_r. split_and!; try done.
    unfold exec, listen_handler, bind, lift. destruct (get_prop event "data"); [|done].
    rewrite echo_emit_exec. simpl. by rewrite whispered_on_app, whispered_on_calls, app_nil_r.
  - (* whisper *)
    rewrite echo_whisper_this, app_nil_r. split_and!; try done.
    unfold exec, listenForWhisper_handler. rewrite echo_emit_exec. simpl.
    by rewrite whispered_on_app, whispered_on_calls, app_nil_r.
  - (* timer *)
    rewrite echo_run_timer_this, app_nil_r. split_and!; try done.
    unfold exec, run_timer, bind, gets, modify.
    destruct (timers w) as [|[name args] rest]; [done|].
    rewrite echo_emit_exec. simpl. by rewrite whispered_on_app, whispered_on_calls, app_nil_r.
Qed.

Lemma echo_pending_steps w actions w1 topic channel :
  echo_steps w actions w1 ->
  echo_inv (this w) -> channel_names (channels (this w)) ->
  forallb (keeps_pending topic) actions = true ->
  JsMap.get topic (channels (this w)) = Some channel ->
  topic ∉ readyChannels (this w) ->
  JsMap.get topic (channels (this w1)) = Some channel /\
  (topic ∉ readyChannels (this w1)) /\
  default [] (messageQueue (this w1) !! topic) =
    default [] (messageQueue (this w) !! topic) ++ published topic actions /\
  whispered_on channel (effects w1) = whispered_on channel (effects w).
Proof.
  induction 1 as [w|w a rest w1 Hen Hst IH]; intros H Hn Hk Hb Hr.
  - by rewrite app_nil_r.
  - simpl in Hk. apply andb_true_iff in Hk as [Hka Hk].
    destruct (echo_pending_step a w topic channel H Hn Hen Hka Hb Hr)
      as (Hb1 & Hr1 & Hq1 & Hw1).
    destruct IH as (Hb2 & Hr2 & Hq2 & Hw2); try done.
    { by apply echo_step_inv. }
    { by apply echo_step_names. }
    split_and!; try done.
    + rewrite Hq2, Hq1, <- app_assoc. f_equal.
      change (a :: rest) with ([a] ++ rest). unfold published. by rewrite omap_app.
    + by rewrite Hw2.
Qed.
End EchoPending.


(** X19: on [LaravelEchoAdapter], let a topic be bound to a channel and
    not ready in a reachable state, and let any enabled actions follow
    (calls of the owner, callbacks of the transport, timer tasks) none of
    which unbinds the topic ([disconnect], [destroy], an [unsubscribe] that
    lists it) or is its ready signal.  Then the topic is still bound to the
    same channel and not ready, nothing has been whispered on its channel
    meanwhile, and its queue holds what it held before followed by the
    payloads published on the topic by those actions, in order; so the ready
    signal that comes next whispers exactly these on the channel. *)
Theorem pending_publishes_survive_other_calls
    (w w1 : LaravelEchoAdapter.W) (actions : list LaravelEchoAdapter.Action)
    (topic : string) (channel : Channel) :
  LaravelEchoAdapter.reachable w ->
  JsMap.get topic (LaravelEchoAdapter.channels (this w)) = Some channel ->
  topic ∉ LaravelEchoAdapter.readyChannels (this w) ->
  echo_steps w actions w1 ->
  forallb (keeps_pending topic) actions = true ->
  JsMap.get topic (LaravelEchoAdapter.channels (this w1)) = Some channel /\
  (topic ∉ LaravelEchoAdapter.readyChannels (this w1)) /\
  default [] (LaravelEchoAdapter.messageQueue (this w1) !! topic) =
    default [] (LaravelEchoAdapter.messageQueue (this w) !! topic) ++
    published topic actions /\
  whispered_on channel (effects w1) = whispered_on channel (effects w) /\
  whispered_on channel
    (effects (exec (LaravelEchoAdapter.subscribed_handler topic channel) w1)) =
    whispered_on channel (effects w) ++
    default [] (LaravelEchoAdapter.messageQueue (this w) !! topic) ++
    published topic actions.
Proof.
  intros Hw Hb Hr Hst Hk.
  destruct (echo_pending_steps w actions w1 topic channel Hst) as (Hb1 & Hr1 & Hq1 & Hw1);
    [by apply echo_reachable_inv | by apply echo_reachable_names | done..|].
  split_and!; try done.
  unfold exec. rewrite echo_subscribed_exec. simpl.
  by rewrite whispered_on_app, whispered_on_same, Hw1, Hq1.
Qed.

Lemma pending_publishes_in_a_busy_session :
  let room2_channel := {| chan_id := 1; chan_name := "y-webrtc.room2" |} in
  let actions :=
    [LaravelEchoAdapter.Call_publish "room1" (JsString "offer");
     LaravelEchoAdapter.Call_subscribe ["room2"];
     LaravelEchoAdapter.Call_publish "room2" (JsString "hello");
     LaravelEchoAdapter.Transport_subscribed "room2" room2_channel;
     LaravelEchoAdapter.Call_unsubscribe ["room2"];
     LaravelEchoAdapter.Timer;
     LaravelEchoAdapter.Call_publish "room1" (JsString "candidate")] in
  let w1 := fold_left (fun w a => exec (LaravelEchoAdapter.run a) w) actions echo_session in
  whispered_on room1_channel
    (effects (exec (LaravelEchoAdapter.subscribed_handler "room1" room1_channel) w1)) =
    [JsString "offer"; JsString "candidate"].
Proof.
  intros room2_channel actions w1.
  refine (proj2 (proj2 (proj2 (proj2
    (pending_publishes_survive_other_calls echo_session w1 actions "room1" room1_channel
       echo_session_reachable _ _ _ _))))).
  - reflexivity.
  - apply (bool_decide_eq_false_1 _). vm_compute. reflexivity.
  - repeat (apply echo_steps_cons; [first [exact I | reflexivity]|]).
    apply echo_steps_nil.
  - vm_compute. reflexivity.
Defined.


(** ** Flags and queues *)

Lemma flags_and_queues_delete c s (q : gmap string (list JsValue)) topic :
  flags_and_queues c s q -> flags_and_queues c s (delete topic q).
Proof.
  intros [Hf Hq]. split; [done|]. intros t l Hl.
  destruct (decide (topic = t)) as [<-|Hne].
  - by rewrite lookup_delete_eq in Hl.
  - rewrite lookup_delete_ne in Hl by done. by eapply Hq.
Qed.

Lemma flags_and_queues_push c s (q : gmap string (list JsValue)) topic data :
  flags_and_queues c s q ->
  flags_and_queues c s (<[topic := default [] (q !! topic) ++ [data]]> q).
Proof.
  intros [Hf Hq]. split; [done|]. intros t l Hl.
  destruct (decide (topic = t)) as [<-|Hne].
  - rewrite lookup_insert_eq in Hl. simplify_eq. by destruct (default [] _).
  - rewrite lookup_insert_ne in Hl by done. by eapply Hq.
Qed.

Section EchoFlags.
Import LaravelEchoAdapter.
Implicit Types w : W.

Local Abbreviation echo_flags w :=
  (flags_and_queues (connected (this w)) (shouldConnect (this w)) (messageQueue (this w))).

Lemma echo_unsubscribe_flags topics w :
  echo_inv (this w) -> echo_flags w -> echo_flags (exec (unsubscribe topics) w).
Proof.
  intros H Hf.
  cut (echo_inv (this (exec (unsubscribe topics) w)) /\
       echo_flags (exec (unsubscribe topics) w)); [tauto|].
  rewrite echo_unsubscribe_unfold.
  apply (forEach_keeps (fun w' => echo_inv (this w') /\ echo_flags w')); [|done].
  intros topic w' [H' Hf']. unfold exec. rewrite echo_unsubscribe_topic_exec by done.
  destruct (JsMap.get topic (channels (this w'))); [|done]. simpl. split.
  - by apply gate_inv_unbind.
  - by apply flags_and_queues_delete.
Qed.

Lemma echo_step_flags a w :
  echo_inv (this w) -> echo_flags w -> echo_flags (exec (run a) w).
Proof.
  intros H Hf. destruct a; cbn [run]; try done.
  - by destruct Hf.
  - unfold exec. by rewrite echo_disconnect_exec.
  - destruct (echo_subscribe_frame topics w) as [-> _]. done.
  - by apply echo_unsubscribe_flags.
  - unfold exec.
    destruct (JsMap.get topic (channels (this w))) as [ch|] eqn:Hb;
      [|by rewrite echo_publish_unbound].
    destruct (decide (topic ∈ readyChannels (this w))).
    + by rewrite (echo_publish_ready _ _ ch).
    + rewrite (echo_publish_pending _ _ ch) by done. by apply flags_and_queues_push.
  - unfold exec. by rewrite echo_destroy_exec.
  - unfold exec. rewrite echo_subscribed_exec. simpl.
    by apply flags_and_queues_delete.
  - by rewrite echo_listen_this.
  - by rewrite echo_whisper_this.
  - by rewrite echo_run_timer_this.
Qed.

Lemma echo_reachable_flags w : reachable w -> echo_flags w.
Proof.
  induction 1 as [e|w a Hw IH Hen]; [done|].
  apply echo_step_flags; [by apply echo_reachable_inv | done].
Qed.
End EchoFlags.


Section PresenceFlags.
Import LaravelEchoPresenceAdapter.
Implicit Types w : W.

Local Abbreviation presence_flags w :=
  (flags_and_queues (connected (this w)) (shouldConnect (this w)) (messageQueue (this w))).

Lemma presence_subscribe_frame topics w :
  this (exec (subscribe topics) w) =
    with_channels (fun _ => channels (this (exec (subscribe topics) w))) (this w).
Proof.
  unfold exec. rewrite presence_subscribe_unfold.
  destruct (shouldConnect (this w)); [|by destruct w as [[]]].
  destruct (truthy (echo (this w))) eqn:He; [|by destruct w as [[]]]. simpl.
  by destruct (presence_subscribe_loop topics w He) as (_ & Hthis & _).
Qed.

Lemma presence_unsubscribe_flags topics w :
  presence_inv (this w) -> presence_flags w -> presence_flags (exec (unsubscribe topics) w).
Proof.
  intros H Hf.
  cut (presence_inv (this (exec (unsubscribe topics) w)) /\
       presence_flags (exec (unsubscribe topics) w)); [tauto|].
  rewrite presence_unsubscribe_unfold.
  apply (forEach_keeps (fun w' => presence_inv (this w') /\ presence_flags w')); [|done].
  intros topic w' [H' Hf']. split; [by apply presence_unsubscribe_topic_inv|].
  unfold exec. rewrite presence_unsubscribe_topic_exec by done.
  destruct (JsMap.get topic (channels (this w'))); [|done]. simpl.
  by apply flags_and_queues_delete.
Qed.

Lemma presence_step_flags a w :
  presence_inv (this w) -> presence_flags w -> presence_flags (exec (run a) w).
Proof.
  intros H Hf. pose proof (hooks_typed _ H) as (Hh1 & Hh2 & Hh3 & Hh4 & Hh5).
  destruct a; cbn [run]; try done.
  - by destruct Hf.
  - unfold exec. by rewrite presence_disconnect_exec.
  - by rewrite presence_subscribe_frame.
  - by apply presence_unsubscribe_flags.
  - unfold exec.
    destruct (JsMap.get topic (channels (this w))) as [ch|] eqn:Hb;
      [|by rewrite presence_publish_unbound].
    destruct (decide (topic ∈ readyChannels (this w))).
    + by rewrite (presence_publish_ready _ _ ch).
    + rewrite (presence_publish_pending _ _ ch) by done. by apply flags_and_queues_push.
  - unfold exec. by rewrite presence_destroy_exec.
  - by rewrite presence_here_this.
  - by rewrite presence_joining_this.
  - by rewrite presence_leaving_this.
  - unfold exec. rewrite presence_subscribed_exec by done. simpl.
    by apply flags_and_queues_delete.
  - by rewrite presence_error_this.
  - by rewrite presence_listen_this.
  - by rewrite presence_whisper_this.
  - by rewrite presence_run_timer_this.
Qed.

Lemma presence_reachable_flags w : reachable w -> presence_flags w.
Proof.
  induction 1 as [e cbs a Hc Ht|w a Hw IH Hen].
  - apply presence_constructor_fields in Hc as (_ & Hc1 & Hc2 & _ & _ & Hc3 & _).
    simpl. rewrite Hc1, Hc2, Hc3.
    split; [done|]. intros t q Hq. by rewrite lookup_empty in Hq.
  - apply presence_step_flags; [by apply presence_reachable_inv | done].
Qed.
End PresenceFlags.

(** X20: three more facts hold in every reachable state.  On both
    adapters [connected] and [shouldConnect] are equal, and a queue that
    exists holds at least one payload; on [LaravelEchoAdapter] the channel
    bound to a topic is the one obtained for the channel name of that topic
    (the prefix [y-webrtc.] followed by the topic), and two topics never have
    the same channel name. *)
Theorem flags_agree_and_queues_are_never_empty
    (w : LaravelEchoAdapter.W) (w' : LaravelEchoPresenceAdapter.W) :
  LaravelEchoAdapter.reachable w ->
  LaravelEchoPresenceAdapter.reachable w' ->
  flags_and_queues (LaravelEchoAdapter.connected (this w))
    (LaravelEchoAdapter.shouldConnect (this w))
    (LaravelEchoAdapter.messageQueue (this w)) /\
  flags_and_queues (LaravelEchoPresenceAdapter.connected (this w'))
    (LaravelEchoPresenceAdapter.shouldConnect (this w'))
    (LaravelEchoPresenceAdapter.messageQueue (this w')) /\
  channel_names (LaravelEchoAdapter.channels (this w)) /\
  (forall t1 t2,
     LaravelEchoAdapter._getChannelName t1 = LaravelEchoAdapter._getChannelName t2 ->
     t1 = t2).
Proof.
  intros Hw Hw'. split_and!.
  - by apply echo_reachable_flags.
  - by apply presence_reachable_flags.
  - by apply echo_reachable_names.
  - apply getChannelName_inj.
Qed.

Lemma flags_in_the_sample_sessions :
  LaravelEchoAdapter.connected (this echo_session) =
    LaravelEchoAdapter.shouldConnect (this echo_session) /\
  chan_name room1_channel = LaravelEchoAdapter._getChannelName "room1".
Proof.
  pose proof (flags_agree_and_queues_are_never_empty echo_session presence_session
                echo_session_reachable presence_session_reachable)
    as ([Hf _] & _ & Hn & _).
  split; [exact Hf|]. apply Hn. reflexivity.
Defined.


(** ** The roster, event after event *)

Lemma presence_joinings_exec topic (js : list PresenceChannelMember)
    (w : LaravelEchoPresenceAdapter.W) :
  let w1 := fold_left (fun w j => exec (LaravelEchoPresenceAdapter.joining_handler topic j) w)
              js w in
  LaravelEchoPresenceAdapter.getPresenceMembers (this w1) topic =
    LaravelEchoPresenceAdapter.getPresenceMembers (this w) topic ++ js /\
  (forall topic', topic' <> topic ->
     LaravelEchoPresenceAdapter.presenceMembers (this w1) !! topic' =
     LaravelEchoPresenceAdapter.presenceMembers (this w) !! topic') /\
  LaravelEchoPresenceAdapter.callbacks (this w1) =
    LaravelEchoPresenceAdapter.callbacks (this w) /\
  effects w1 =
    effects w ++
    flat_map (fun j =>
                hook_calls (PresenceCallbacks.onJoining
                              (LaravelEchoPresenceAdapter.callbacks (this w)))
                  (fun f => HookJoining f j)) js.
Proof.
  revert w. induction js as [|j js IH]; intros w; simpl.
  - by rewrite !app_nil_r.
  - rewrite presence_joining_exec.
    match goal with |- context [fold_left _ js ?w0] => set (wj := w0) end.
    destruct (IH wj) as (Hr & Ho & Hc & He).
    assert (LaravelEchoPresenceAdapter.getPresenceMembers (this wj) topic =
            LaravelEchoPresenceAdapter.getPresenceMembers (this w) topic ++ [j]) as Hj
      by (unfold wj; simpl; by rewrite getPresenceMembers_insert, decide_True).
    split_and!.
    + by rewrite Hr, Hj, <- app_assoc.
    + intros topic' Hne. rewrite Ho by done. unfold wj. simpl. by rewrite lookup_insert_ne.
    + by rewrite Hc.
    + rewrite He. unfold wj. simpl. by rewrite <- app_assoc.
Qed.

(** X21: the roster of a topic follows the events in order.  After a
    [here] event with the list [ms], and then [joining] events for
    [j1], ..., [jk] one after the other, [getPresenceMembers] of the topic
    returns [ms] followed by [j1], ..., [jk], whatever roster the topic had
    before the [here] event; the rosters of the other topics are unchanged;
    and the hooks that are functions have been called once per event, in the
    order of the events. *)
Theorem the_roster_follows_the_events
    (w : LaravelEchoPresenceAdapter.W) (topic : string)
    (ms js : list PresenceChannelMember) :
  let w1 := exec (LaravelEchoPresenceAdapter.here_handler topic ms) w in
  let w2 := fold_left (fun w j => exec (LaravelEchoPresenceAdapter.joining_handler topic j) w)
              js w1 in
  LaravelEchoPresenceAdapter.getPresenceMembers (this w2) topic = ms ++ js /\
  (forall topic', topic' <> topic ->
     LaravelEchoPresenceAdapter.getPresenceMembers (this w2) topic' =
     LaravelEchoPresenceAdapter.getPresenceMembers (this w) topic') /\
  effects w2 =
    effects w ++
    hook_calls (PresenceCallbacks.onHere (LaravelEchoPresenceAdapter.callbacks (this w)))
      (fun f => HookHere f ms) ++
    flat_map (fun j =>
                hook_calls (PresenceCallbacks.onJoining
                              (LaravelEchoPresenceAdapter.callbacks (this w)))
                  (fun f => HookJoining f j)) js.
Proof.
  intros w1 w2.
  destruct (presence_joinings_exec topic js w1) as (Hr & Ho & Hc & He).
  fold w2 in Hr, Ho, Hc, He.
  assert (w1 = add_effects
                 (hook_calls (PresenceCallbacks.onHere
                                (LaravelEchoPresenceAdapter.callbacks (this w)))
                    (fun f => HookHere f ms))
                 (set_this (LaravelEchoPresenceAdapter.with_presenceMembers
                              (<[topic := ms]>)) w)) as Hw1
    by apply presence_here_exec.
  split_and!.
  - rewrite Hr, Hw1. simpl. by rewrite getPresenceMembers_insert, decide_True.
  - intros topic' Hne. rewrite !getPresenceMembers_default, Ho by done.
    rewrite Hw1. simpl. by rewrite lookup_insert_ne.
  - rewrite He, Hw1. simpl. by rewrite <- app_assoc.
Qed.


(** ** [DefaultSignalingAdapter.destroy] *)

Lemma default_destroy_exec (w : DefaultSignalingAdapterMethods.W) :
  DefaultSignalingAdapterMethods.destroy w =
    (Normal tt,
     {| this :=
          {| DefaultSignalingAdapterMethods.adapter :=
               DefaultSignalingAdapterMethods.with_observers (fun _ => ∅)
                 (DefaultSignalingAdapterMethods.with_connected false
                    (DefaultSignalingAdapterMethods.with_ws None
                       (DefaultSignalingAdapterMethods.adapter (this w))));
             DefaultSignalingAdapterMethods.socket_calls :=
               DefaultSignalingAdapterMethods.socket_calls (this w) ++
               match DefaultSignalingAdapter.ws
                       (DefaultSignalingAdapterMethods.adapter (this w)) with
               | Some s => [WsDisconnect s]
               | None => []
               end |};
        effects := effects w; timers := timers w; next_channel := next_channel w |}).
Proof.
  unfold DefaultSignalingAdapterMethods.destroy, bind.
  by rewrite default_disconnect_exec.
Qed.

(** X22: [destroy()] on [DefaultSignalingAdapter] returns normally in any
    state; it disconnects the socket when there is one, leaves the adapter
    without socket, not connected and without listeners, and calls no
    listener.  Whatever the forgotten socket reports afterwards ([connect],
    [disconnect], a publish frame) reaches no listener, and [subscribe],
    [unsubscribe] and [publish] send nothing. *)
Theorem default_adapter_destroy_silences_the_adapter
    (w : DefaultSignalingAdapterMethods.W) (topics : list string)
    (topic : string) (data : JsValue) :
  let calls w := DefaultSignalingAdapterMethods.socket_calls (this w) in
  let fields w := DefaultSignalingAdapterMethods.adapter (this w) in
  let w1 := exec DefaultSignalingAdapterMethods.destroy w in
  completion_of DefaultSignalingAdapterMethods.destroy w = Normal tt /\
  calls w1 =
    calls w ++
    match DefaultSignalingAdapter.ws (fields w) with
    | Some s => [WsDisconnect s]
    | None => []
    end /\
  fields w1 =
    {| DefaultSignalingAdapter._observers := ∅;
       DefaultSignalingAdapter.connected := false;
       DefaultSignalingAdapter.ws := None;
       DefaultSignalingAdapter.url := DefaultSignalingAdapter.url (fields w) |} /\
  effects w1 = effects w /\
  effects (exec DefaultSignalingAdapterMethods.ws_connect_handler w1) = effects w /\
  effects (exec DefaultSignalingAdapterMethods.ws_disconnect_handler w1) = effects w /\
  effects (exec (DefaultSignalingAdapterMethods.ws_message_handler (relayed topic data)) w1) =
    effects w /\
  exec (DefaultSignalingAdapterMethods.subscribe topics) w1 = w1 /\
  exec (DefaultSignalingAdapterMethods.unsubscribe topics) w1 = w1 /\
  exec (DefaultSignalingAdapterMethods.publish topic data) w1 = w1.
Proof.
  intros calls fields w1. subst calls fields w1.
  unfold completion_of, exec. rewrite !default_destroy_exec. cbn [fst snd].
  by split_and!.
Qed.
